(** * kin-sdk-python: the account facade and the transaction builder

    A shallow embedding of [kin/account.py] (class [KinAccount], enum
    [AccountStatus]) and of [kin/stellar/builder.py] (class [Builder]),
    with the properties of the specification stated and settled over it.

    Conventions of the embedding:
    - a Python [int] is a [Z]; a Python [float] is an IEEE-754 binary64
      value, a [spec_float] at precision 53 and maximal exponent 1024, so
      that the arithmetic of the source ([amount * 1e7 % 1]) is computed
      with its rounding;
    - a method is a computation in a state-and-exception monad; the state
      holds the object under construction ([self]), the ledger behind the
      client, the state of the channel pool, and the trace of the calls made
      to the collaborators;
    - [monitor_kin_payments], which starts a thread in the client, is left
      out;
    - the built-ins [int] and [str.upper] are written out on strings of
      ASCII characters; what they do beyond ASCII, and the limit that
      recent interpreters put on the digits of [int(str)] and [str(int)],
      are taken from the record [Builder.Interpreter];
    - the modules of the package that [account.py] imports but that are not
      part of the sources at hand ([blockchain.utils], [blockchain.keypair],
      [blockchain.channel_manager], [config], [errors]) are parameters,
      gathered in the record [Deps]. *)

From Stdlib Require Import ZArith Bool Ascii.
From Stdlib Require Import Floats.SpecFloat.
From stdpp Require Import base option list strings pretty gmap.

Local Open Scope Z_scope.

(** ** Python exceptions *)

Inductive Exn : Type :=
  | ValueError (msg : string)
  | TypeError (msg : string)
  | KeyError (key : string)
  | AttributeError (name : string)
  | OverflowError (msg : string)
  | AccountNotActivatedError
  | AccountNotFoundError
  | AccountExistsError
  | LowBalanceError (msg : string)
  | ForeignError (tag : string).

Global Instance Exn_eq_dec : EqDecision Exn.
Proof. solve_decision. Defined.

(** The outcome of a call: a value, or a raised exception. *)
Inductive Res (A : Type) : Type :=
  | Ok (a : A)
  | Raise (e : Exn).
Arguments Ok {A} a.
Arguments Raise {A} e.

(** ** Python numbers *)

Module PyNum.

(** binary64 *)
Definition prec : Z := 53.
Definition emax : Z := 1024.

Inductive t : Type :=
  | PInt (z : Z)
  | PFloat (f : spec_float).

Definition fzero : spec_float := S754_zero false.

(** The nearest double of an integer, ties to even; out of range it is an
    infinity. *)
Definition round_Z (z : Z) : spec_float := binary_normalize prec emax z 0 false.

(** [PyLong_AsDouble]: the conversion of an [int] operand in mixed
    arithmetic; it raises [OverflowError] out of the range of doubles. *)
Definition float_of_int (z : Z) : Res spec_float :=
  match round_Z z with
  | S754_infinity _ => Raise (OverflowError "int too large to convert to float")
  | f => Ok f
  end.

(** The double denoted by the decimal literal [n / 10^k]. Both operands of
    the division are exact doubles for [|n| < 2^53] and [k <= 22], which
    covers every literal below, so the quotient is correctly rounded. *)
Definition literal (n : Z) (k : Z) : spec_float :=
  SFdiv prec emax (round_Z n) (round_Z (10 ^ k)).

Definition as_float (x : t) : Res spec_float :=
  match x with
  | PInt z => float_of_int z
  | PFloat f => Ok f
  end.

(** [x * f] and [x + f] for a float [f]: the result is a float. *)
Definition mul_float (x : t) (f : spec_float) : Res spec_float :=
  match as_float x with
  | Ok fx => Ok (SFmul prec emax fx f)
  | Raise e => Raise e
  end.

Definition add_float (x : t) (f : spec_float) : Res spec_float :=
  match as_float x with
  | Ok fx => Ok (SFadd prec emax fx f)
  | Raise e => Raise e
  end.

(** [x <= 0] *)
Definition le_zero (x : t) : bool :=
  match x with
  | PInt z => z <=? 0
  | PFloat f => SFleb f fzero
  end.

(** [fmod(x, 1.0)] of the C library: the fractional part, with the sign of
    [x]; it is exact. *)
Definition fmod_one (x : spec_float) : spec_float :=
  match x with
  | S754_nan | S754_infinity _ => S754_nan
  | S754_zero s => S754_zero s
  | S754_finite s m e =>
      if 0 <=? e then S754_zero s
      else
        match Z.pos m mod 2 ^ (- e) with
        | Z.pos r => binary_round prec emax s r e
        | _ => S754_zero s
        end
  end.

Definition is_zero (x : spec_float) : bool :=
  match x with S754_zero _ => true | _ => false end.

(** [x % 1] on floats, after [float_rem] of CPython: the remainder takes
    the sign of the divisor, and a zero remainder is [+0.0]. *)
Definition mod_one (x : spec_float) : spec_float :=
  let m := fmod_one x in
  if is_zero m then fzero
  else if SFltb m fzero then SFadd prec emax m (round_Z 1)
  else m.

(** [x != 0] on a float: true on NaN. *)
Definition ne_zero (x : spec_float) : bool := negb (SFeqb x fzero).

(** The exact comparison of a float with an integer, as CPython compares a
    [float] with an [int]; [None] when the float is NaN. *)
Definition compare_float_int (f : spec_float) (z : Z) : option comparison :=
  match f with
  | S754_nan => None
  | S754_infinity s => Some (if s then Lt else Gt)
  | S754_zero _ => Some (0 ?= z)
  | S754_finite s m e =>
      let v := if s then Z.neg m else Z.pos m in
      Some (if 0 <=? e then (v * 2 ^ e ?= z) else (v ?= z * 2 ^ (- e)))
  end.

(** [f > x] *)
Definition float_gt (f : spec_float) (x : t) : bool :=
  match x with
  | PInt z => match compare_float_int f z with Some Gt => true | _ => false end
  | PFloat g => SFltb g f
  end.

(** The exact value of a finite double is [num / 2^den_log2]. *)
Definition exact_times (f : spec_float) (k : Z) : option (Z * Z) :=
  match f with
  | S754_zero _ => Some (0, 0)
  | S754_finite s m e =>
      let v := if s then Z.neg m else Z.pos m in
      Some (if 0 <=? e then (v * 2 ^ e * k, 0) else (v * k, - e))
  | _ => None
  end.

(** [f] is a multiple of [10^-7]: it can be written with at most seven
    digits after the decimal point. *)
Definition seven_decimals_exact (f : spec_float) : bool :=
  match exact_times f (10 ^ 7) with
  | Some (n, d) => n mod 2 ^ d =? 0
  | None => false
  end.

End PyNum.

(** ** The enumeration [AccountStatus] (account.py, the last class) *)

Inductive AccountStatus : Type :=
  | NOT_CREATED
  | NOT_ACTIVATED
  | ACTIVATED.

(** The values of the enumeration. *)
Definition AccountStatus_value (s : AccountStatus) : Z :=
  match s with
  | NOT_CREATED => 1
  | NOT_ACTIVATED => 2
  | ACTIVATED => 3
  end.

Global Instance AccountStatus_eq_dec : EqDecision AccountStatus.
Proof. solve_decision. Defined.

(** What [client.get_account_data] may hand back: the source compares it
    with members of [AccountStatus]; any other object (an account-data
    record) differs from every member. *)
Inductive PyValue : Type :=
  | VStatus (s : AccountStatus)
  | VAccountData (repr : string).

Global Instance PyValue_eq_dec : EqDecision PyValue.
Proof. solve_decision. Defined.

(** ** Plain data of the collaborators *)

Record Environment : Type := { horizon_uri : string; name : string }.

Record Asset : Type := { code : string; issuer : option string }.

(** [Asset.native()] of stellar_base *)
Definition Asset_native : Asset := {| code := "XLM"; issuer := None |}.

Record Keypair : Type := { secret_seed : string; public_address : string }.

Record Horizon : Type :=
  { hz_uri : string; hz_pool_size : nat; hz_user_agent : string }.

Record ChannelManager : Type :=
  { cm_base_seed : string;
    cm_channel_seeds : list string;
    cm_network : string;
    cm_horizon : Horizon }.

(** The function handed to [send_transaction]:
    [lambda builder: partial(builder.append_..._op, ...)], by its parts. *)
Inductive BuildFn : Type :=
  | append_create_account_op (address : string) (starting_balance : PyNum.t)
  | append_payment_op (address : string) (amount : PyNum.t)
      (asset_type : string) (asset_issuer : option string).

(** The calls that leave the account object, in the order they are made. *)
Inductive Event : Type :=
  | CallGetAccountData (address : string)
  | CallGetAccountBalances (address : string)
  | CallSendTransaction (cm : ChannelManager) (fn : BuildFn)
      (memo_text : option string).

Definition is_client_call (ev : Event) : bool :=
  match ev with
  | CallGetAccountData _ | CallGetAccountBalances _ => true
  | CallSendTransaction _ _ _ => false
  end.

Definition is_channel_call (ev : Event) : bool :=
  match ev with
  | CallSendTransaction _ _ _ => true
  | _ => false
  end.

(** The client object handed to the constructor. Its queries run against a
    ledger of type [L], which they may change. *)
Record Client (L : Type) : Type :=
  { get_account_data : string -> L -> Res PyValue * L;
    get_account_balances : string -> L -> Res (gmap string PyNum.t) * L;
    kin_asset : Asset;
    environment : Environment }.
Arguments get_account_data {L} _ _ _.
Arguments get_account_balances {L} _ _ _.
Arguments kin_asset {L} _.
Arguments environment {L} _.

(** The imports of [account.py] that are not among the sources: the two
    validators of [blockchain.utils], the static methods of
    [blockchain.keypair.Keypair], the constants of [config],
    [errors.translate_error], and [ChannelManager.send_transaction], which
    works on the channel pool (of type [C]) and on the ledger. *)
Record Deps (L C : Type) : Type :=
  { is_valid_secret_key : string -> bool;
    is_valid_address : string -> bool;
    address_from_seed : string -> string;
    generate_hd_seed : string -> string -> string;
    MIN_ACCOUNT_BALANCE : PyNum.t;
    SDK_USER_AGENT : string;
    translate_error : Exn -> Exn;
    send_transaction :
      ChannelManager -> BuildFn -> option string -> C -> L ->
      Res (gmap string string) * C * L }.
Arguments is_valid_secret_key {L C} _ _.
Arguments is_valid_address {L C} _ _.
Arguments address_from_seed {L C} _ _.
Arguments generate_hd_seed {L C} _ _ _.
Arguments MIN_ACCOUNT_BALANCE {L C} _.
Arguments SDK_USER_AGENT {L C} _.
Arguments translate_error {L C} _ _.
Arguments send_transaction {L C} _ _ _ _ _ _.

(** [range(n)] *)
Definition range (n : Z) : list Z := seqZ 0 n.

(** [str(n)] on an [int] *)
Definition str (n : Z) : string := pretty n.



(** ** The class [KinAccount] *)

Module Account.

(** The attributes of a [KinAccount]; an attribute is [None] until
    [__init__] assigns it. *)
Record KinAccount (L : Type) : Type :=
  { _client : option (Client L);
    keypair : option Keypair;
    channel_secret_keys : option (list string);
    horizon : option Horizon;
    channel_manager : option ChannelManager }.
Arguments _client {L} _.
Arguments keypair {L} _.
Arguments channel_secret_keys {L} _.
Arguments horizon {L} _.
Arguments channel_manager {L} _.

(** The object [object.__new__] hands to [__init__]. *)
Definition blank {L} : KinAccount L :=
  {| _client := None; keypair := None; channel_secret_keys := None;
     horizon := None; channel_manager := None |}.

(** The state a method runs in. *)
Record State (L C : Type) : Type :=
  { self : KinAccount L;
    ledger : L;
    pool : C;
    trace : list Event }.
Arguments self {L C} _.
Arguments ledger {L C} _.
Arguments pool {L C} _.
Arguments trace {L C} _.

Section Methods.
Context {L C : Type}.
Variable dep : Deps L C.

(** *** The monad of states and exceptions *)

Definition M (A : Type) : Type := State L C -> Res A * State L C.

Definition ret {A} (a : A) : M A := fun s => (Ok a, s).

Definition bind {A B} (m : M A) (k : A -> M B) : M B :=
  fun s =>
    match m s with
    | (Ok a, s') => k a s'
    | (Raise e, s') => (Raise e, s')
    end.

Definition raise {A} (e : Exn) : M A := fun s => (Raise e, s).

Notation "'let*' x ':=' m 'in' k" := (bind m (fun x => k))
  (at level 10, x name, m at level 100, k at level 200).
Notation "m >> k" := (bind m (fun _ => k))
  (at level 90, right associativity).

(** [if c: raise e] *)
Definition raise_if (c : bool) (e : Exn) : M unit :=
  if c then raise e else ret tt.

(** [try: m  except Exception as e: handler(e)] *)
Definition try_except {A} (m : M A) (handler : Exn -> M A) : M A :=
  fun s =>
    match m s with
    | (Raise e, s') => handler e s'
    | r => r
    end.

(** [for x in l: body(x)] *)
Fixpoint for_each {A} (l : list A) (body : A -> M unit) : M unit :=
  match l with
  | [] => ret tt
  | x :: l' => body x >> for_each l' body
  end.

(** Reading an attribute of [self] that may not be there yet. *)
Definition attr {A} (field : KinAccount L -> option A) (label : string) : M A :=
  fun s =>
    match field (self s) with
    | Some a => (Ok a, s)
    | None => (Raise (AttributeError label), s)
    end.

Definition assign (f : KinAccount L -> KinAccount L) : M unit :=
  fun s =>
    (Ok tt, {| self := f (self s); ledger := ledger s;
               pool := pool s; trace := trace s |}).

Definition set_client (c : Client L) (a : KinAccount L) : KinAccount L :=
  {| _client := Some c; keypair := keypair a;
     channel_secret_keys := channel_secret_keys a;
     horizon := horizon a; channel_manager := channel_manager a |}.

Definition set_keypair (k : Keypair) (a : KinAccount L) : KinAccount L :=
  {| _client := _client a; keypair := Some k;
     channel_secret_keys := channel_secret_keys a;
     horizon := horizon a; channel_manager := channel_manager a |}.

Definition set_channel_secret_keys (l : list string) (a : KinAccount L)
  : KinAccount L :=
  {| _client := _client a; keypair := keypair a;
     channel_secret_keys := Some l;
     horizon := horizon a; channel_manager := channel_manager a |}.

Definition set_horizon (h : Horizon) (a : KinAccount L) : KinAccount L :=
  {| _client := _client a; keypair := keypair a;
     channel_secret_keys := channel_secret_keys a;
     horizon := Some h; channel_manager := channel_manager a |}.

Definition set_channel_manager (m : ChannelManager) (a : KinAccount L)
  : KinAccount L :=
  {| _client := _client a; keypair := keypair a;
     channel_secret_keys := channel_secret_keys a;
     horizon := horizon a; channel_manager := Some m |}.

(** *** Calls to the collaborators; each one is recorded in the trace *)

Definition call_get_account_data (c : Client L) (address : string) : M PyValue :=
  fun s =>
    let '(r, l') := get_account_data c address (ledger s) in
    (r, {| self := self s; ledger := l'; pool := pool s;
           trace := trace s ++ [CallGetAccountData address] |}).

Definition call_get_account_balances (c : Client L) (address : string)
  : M (gmap string PyNum.t) :=
  fun s =>
    let '(r, l') := get_account_balances c address (ledger s) in
    (r, {| self := self s; ledger := l'; pool := pool s;
           trace := trace s ++ [CallGetAccountBalances address] |}).

Definition call_send_transaction (cm : ChannelManager) (fn : BuildFn)
    (memo_text : option string) : M (gmap string string) :=
  fun s =>
    let '(r, p', l') := send_transaction dep cm fn memo_text (pool s) (ledger s) in
    (r, {| self := self s; ledger := l'; pool := p';
           trace := trace s ++ [CallSendTransaction cm fn memo_text] |}).

(** [d[key]] on a dictionary *)
Definition subscript {V} (d : gmap string V) (key : string) : M V :=
  match d !! key with
  | Some v => ret v
  | None => raise (KeyError key)
  end.

(** Arithmetic that may raise. *)
Definition lift {A} (r : Res A) : M A := fun s => (r, s).

(** [obj.method(...)] for another account object [obj]: the method runs
    with [obj] as its [self]. No method of the class assigns an
    attribute, so [obj] is the same afterwards. *)
Definition on_object {A} (obj : KinAccount L) (m : M A) : M A :=
  fun s =>
    let '(r, s') := m {| self := obj; ledger := ledger s;
                         pool := pool s; trace := trace s |} in
    (r, {| self := self s; ledger := ledger s';
           pool := pool s'; trace := trace s' |}).

(** [KinAccount(...)] inside a method: [__init__] runs on a blank object,
    which is the value of the expression. *)
Definition construct (init : M unit) : M (KinAccount L) :=
  fun s =>
    let '(r, s') := init {| self := blank; ledger := ledger s;
                            pool := pool s; trace := trace s |} in
    (match r with Ok _ => Ok (self s') | Raise e => Raise e end,
     {| self := self s; ledger := ledger s';
        pool := pool s'; trace := trace s' |}).

(** Modelled from the spec: the class [Keypair] of
    [blockchain/keypair.py] is not among the sources. [Keypair(seed)]
    wraps the seed and the address derived from it. *)
Definition Keypair_new (seed : string) : Keypair :=
  {| secret_seed := seed; public_address := address_from_seed dep seed |}.

(** *** Methods *)

(** [get_public_address] *)
Definition get_public_address : M string :=
  let* kp := attr keypair "keypair" in
  ret (public_address kp).

(** [get_balances] *)
Definition get_balances : M (gmap string PyNum.t) :=
  let* c := attr _client "_client" in
  let* kp := attr keypair "keypair" in
  call_get_account_balances c (public_address kp).

(** [get_data] *)
Definition get_data : M PyValue :=
  let* c := attr _client "_client" in
  let* kp := attr keypair "keypair" in
  call_get_account_data c (public_address kp).

(** [create_account] *)
Definition create_account (address : string) (starting_balance : PyNum.t)
    (memo_text : option string) : M string :=
  raise_if (negb (is_valid_address dep address))
    (ValueError ("invalid address: " +:+ address)) >>
  try_except
    (let* cm := attr channel_manager "channel_manager" in
     let* reply := call_send_transaction cm
                (append_create_account_op address starting_balance)
                memo_text in
     subscript reply "hash")
    (fun e => raise (translate_error dep e)).

(** The literal [1e7]. *)
Definition f_1e7 : spec_float := PyNum.round_Z 10000000.

(** [amount * 1e7 % 1 != 0] *)
Definition too_precise (amount : PyNum.t) : Res bool :=
  match PyNum.mul_float amount f_1e7 with
  | Ok p => Ok (PyNum.ne_zero (PyNum.mod_one p))
  | Raise e => Raise e
  end.

(** [_send_asset] *)
Definition _send_asset (asset : Asset) (address : string) (amount : PyNum.t)
    (memo_text : option string) : M string :=
  raise_if (negb (is_valid_address dep address))
    (ValueError ("invalid address: " +:+ address)) >>
  raise_if (PyNum.le_zero amount) (ValueError "amount must be positive") >>
  let* imprecise := lift (too_precise amount) in
  raise_if imprecise
    (ValueError "Number of digits after the decimal point in the amount exceeded the limit(7).") >>
  try_except
    (let* cm := attr channel_manager "channel_manager" in
     let* reply := call_send_transaction cm
                (append_payment_op address amount (code asset) (issuer asset))
                memo_text in
     subscript reply "hash")
    (fun e => raise (translate_error dep e)).

(** [send_xlm] *)
Definition send_xlm (address : string) (amount : PyNum.t)
    (memo_text : option string) : M string :=
  _send_asset Asset_native address amount memo_text.

(** [send_kin] *)
Definition send_kin (address : string) (amount : PyNum.t)
    (memo_text : option string) : M string :=
  let* c := attr _client "_client" in
  _send_asset (kin_asset c) address amount memo_text.

(** The literal [0.00001]. *)
Definition f_1em5 : spec_float := PyNum.literal 1 5.

(** [(len(keys) + 1) * (MIN_ACCOUNT_BALANCE + 0.00001)] *)
Definition needed_balance (keys : list string) : Res spec_float :=
  match PyNum.add_float (MIN_ACCOUNT_BALANCE dep) f_1em5 with
  | Ok per_account =>
      PyNum.mul_float (PyNum.PInt (Z.of_nat (length keys) + 1)) per_account
  | Raise e => Raise e
  end.

(** The body of [__init__]; [KinAccount_] stands for the class itself,
    which the body calls once, with [create_channels] false. *)
Definition init_body
    (KinAccount_ : string -> Client L -> option Z -> option (list string) ->
                   bool -> M (KinAccount L))
    (seed : string) (client : Client L) (channels : option Z)
    (channel_secret_keys_arg : option (list string)) (create_channels : bool)
  : M unit :=
  (* Set the internal sdk *)
  assign (set_client client) >>
  (* Verify seed *)
  raise_if (negb (is_valid_secret_key dep seed))
    (ValueError ("invalid secret key: " +:+ seed)) >>
  (* Set keypair *)
  assign (set_keypair (Keypair_new seed)) >>
  (* check that sdk wallet account exists and is activated *)
  let* c := attr _client "_client" in
  let* kp := attr keypair "keypair" in
  let* status := call_get_account_data c (public_address kp) in
  raise_if (bool_decide (status ≠ VStatus NOT_ACTIVATED))
    AccountNotActivatedError >>
  raise_if (bool_decide (channels ≠ None)
            && bool_decide (channel_secret_keys_arg ≠ None))
    (ValueError "Account cannot be initialized with both 'channels' and 'channel_secret_keys' parameters") >>
  match channel_secret_keys_arg, channels with
  | Some keys, _ =>
      (* Use given channels *)
      for_each keys (fun channel_key =>
        (* Verify channel seed *)
        raise_if (negb (is_valid_secret_key dep channel_key))
          (ValueError ("invalid channel key: " +:+ channel_key)) >>
        (* Check that channel accounts exists (they do not have to be activated). *)
        let channel_address := address_from_seed dep channel_key in
        let* c := attr _client "_client" in
        let* status := call_get_account_data c channel_address in
        raise_if (bool_decide (status ≠ VStatus NOT_CREATED))
          AccountNotFoundError) >>
      assign (set_channel_secret_keys keys)
  | None, Some n =>
      (* Generate the channels for the user *)
      assign (set_channel_secret_keys
                ((fun channel => generate_hd_seed dep seed (str channel))
                   <$> range n))
  | None, None =>
      (* Use the base account as the only channel *)
      assign (set_channel_secret_keys [seed])
  end >>
  (if create_channels then
     raise_if (bool_decide (channels = None))
       (ValueError "create_channels can only be used with the channels parameter") >>
     (* Create the channels using the base account *)
     let* keys := attr channel_secret_keys "channel_secret_keys" in
     raise_if (bool_decide (keys = [seed]))
       (ValueError "There are no channels to create") >>
     let* c := attr _client "_client" in
     let* base_account := KinAccount_ seed c None None false in
     (* Verify that there is enough XLM to create the channels *)
     let* keys := attr channel_secret_keys "channel_secret_keys" in
     let* needed := lift (needed_balance keys) in
     let* balances := on_object base_account get_balances in
     let* xlm := subscript balances "XLM" in
     raise_if (PyNum.float_gt needed xlm)
       (LowBalanceError "The base account does not have enough XLM to create the channels") >>
     (* Create the channels, pass if the channel already exists *)
     let* keys := attr channel_secret_keys "channel_secret_keys" in
     for_each keys (fun channel =>
       try_except
         (on_object base_account
            (create_account channel (MIN_ACCOUNT_BALANCE dep) None) >>
          ret tt)
         (fun e =>
            if bool_decide (e = AccountExistsError) then ret tt else raise e))
   else ret tt) >>
  (* set connection pool size for channels + monitoring connection + extra *)
  let* keys := attr channel_secret_keys "channel_secret_keys" in
  let pool_size := (Nat.max 1 (length keys) + 2)%nat in
  (* Set an horizon instance with the new pool_size *)
  let* c := attr _client "_client" in
  assign (set_horizon
            {| hz_uri := horizon_uri (environment c);
               hz_pool_size := pool_size;
               hz_user_agent := SDK_USER_AGENT dep |}) >>
  let* keys := attr channel_secret_keys "channel_secret_keys" in
  let* c := attr _client "_client" in
  let* h := attr horizon "horizon" in
  assign (set_channel_manager
            {| cm_base_seed := seed;
               cm_channel_seeds := keys;
               cm_network := name (environment c);
               cm_horizon := h |}).

(** The construction the body asks for: [create_channels] is false
    there, so the body does not construct again, and the class it is
    given is never called. *)
Definition KinAccount_inner (seed : string) (client : Client L)
    (channels : option Z) (keys : option (list string)) (create_channels : bool)
  : M (KinAccount L) :=
  construct
    (init_body (fun _ _ _ _ _ => raise (ForeignError "RecursionError"))
       seed client channels keys create_channels).

(** [KinAccount.__init__] *)
Definition __init__ (seed : string) (client : Client L) (channels : option Z)
    (channel_secret_keys_arg : option (list string)) (create_channels : bool)
  : M unit :=
  init_body KinAccount_inner seed client channels channel_secret_keys_arg
    create_channels.

(** [KinAccount(seed, client, channels, channel_secret_keys, create_channels)] *)
Definition KinAccount_ (seed : string) (client : Client L) (channels : option Z)
    (channel_secret_keys_arg : option (list string)) (create_channels : bool)
  : M (KinAccount L) :=
  construct (__init__ seed client channels channel_secret_keys_arg create_channels).

End Methods.
End Account.

(** ** The class [Builder] (stellar/builder.py) *)

Module Builder.

(** The values the attributes of a builder hold. *)
Record Ref : Type := { class_name : string; id : Z }.

Inductive Obj : Type :=
  | PyNone
  | PyInt (z : Z)
  | PyStr (s : string)
  | PyList (items : list Ref)
  | NoneMemo
  | PyObject (r : Ref).

(** A builder is its attribute dictionary ([self.__dict__]): the attributes
    set by the base class of stellar_base and by [__init__] are all there,
    whatever they are. *)
Abbreviation Builder := (gmap string Obj).

(** *** The built-ins the builder calls *)

(** What the interpreter decides beside the library: the limit on the
    digits of [int(str)] and [str(int)]
    ([sys.get_int_max_str_digits()]: [0] where there is none, as before
    CPython 3.11, and 640 at least otherwise), and [int] and [str.upper]
    on a [str] that has a character outside ASCII, where the tables of
    Unicode decide. A [str] is held in UTF-8, so a [str] of ASCII
    characters is a string of bytes below 128. *)
Record Interpreter : Type := {
  int_max_str_digits : nat;
  int_beyond_ascii : string -> option Z;
  upper_beyond_ascii : string -> string
}.

Definition is_ascii (s : string) : bool :=
  forallb (fun c => (Ascii.N_of_ascii c <? 128)%N) (String.list_ascii_of_string s).

(** The white space [int] skips around an ASCII numeral: tab, line feed,
    vertical tab, form feed, carriage return and space. *)
Definition is_space (c : ascii) : bool :=
  let n := Z.of_N (Ascii.N_of_ascii c) in
  ((9 <=? n) && (n <=? 13)) || (n =? 32).

Definition digit_value (c : ascii) : option Z :=
  let n := Z.of_N (Ascii.N_of_ascii c) in
  if (48 <=? n) && (n <=? 57) then Some (n - 48) else None.

(** Decimal digits, with single underscores allowed between digits;
    [after_digit] tells whether the previous character was a digit. *)
Fixpoint parse_digits (acc : Z) (after_digit : bool) (l : list ascii) : option Z :=
  match l with
  | [] => if after_digit then Some acc else None
  | c :: l' =>
      if Ascii.eqb c "_"%char then
        if after_digit then parse_digits acc false l' else None
      else
        match digit_value c with
        | Some d => parse_digits (10 * acc + d) true l'
        | None => None
        end
  end.

Fixpoint lstrip (l : list ascii) : list ascii :=
  match l with
  | c :: l' => if is_space c then lstrip l' else l
  | [] => []
  end.

Definition strip (l : list ascii) : list ascii :=
  rev (lstrip (rev (lstrip l))).

(** [int(s)] for a [str] of ASCII characters, in base ten: surrounding
    white space, an optional sign, digits. *)
Definition int_of_str (s : string) : option Z :=
  match strip (String.list_ascii_of_string s) with
  | c :: l =>
      if Ascii.eqb c "-"%char then Z.opp <$> parse_digits 0 false l
      else if Ascii.eqb c "+"%char then parse_digits 0 false l
      else parse_digits 0 false (c :: l)
  | [] => None
  end.

(** The digits in a string. *)
Definition count_digits (s : string) : nat :=
  length (List.filter (fun c => bool_decide (is_Some (digit_value c)))
            (String.list_ascii_of_string s)).

(** More digits than the limit allows. *)
Definition over_limit (py : Interpreter) (digits : nat) : bool :=
  (0 <? int_max_str_digits py)%nat
  && (Nat.max 640 (int_max_str_digits py) <? digits)%nat.

(** [int(x)] *)
Definition int (py : Interpreter) (x : Obj) : Res Z :=
  match x with
  | PyInt z => Ok z
  | PyStr s =>
      if is_ascii s then
        match int_of_str s with
        | Some z =>
            if over_limit py (count_digits s) then
              Raise (ValueError "Exceeds the limit for integer string conversion")
            else Ok z
        | None => Raise (ValueError ("invalid literal for int() with base 10: " +:+ s))
        end
      else
        match int_beyond_ascii py s with
        | Some z => Ok z
        | None => Raise (ValueError ("invalid literal for int() with base 10: " +:+ s))
        end
  | _ => Raise (TypeError "int() argument must be a string, a bytes-like object or a real number")
  end.

(** The digits [str] prints for an [int]. *)
Definition ndigits (z : Z) : nat := String.length (str (Z.abs z)).

(** [str(z)] on an [int], under the limit. *)
Definition str_limited (py : Interpreter) (z : Z) : Res string :=
  if over_limit py (ndigits z) then
    Raise (ValueError "Exceeds the limit for integer string conversion")
  else Ok (str z).

(** The value of a string of digits. *)
Fixpoint digits_value (acc : Z) (l : list ascii) : option Z :=
  match l with
  | [] => Some acc
  | c :: l' =>
      match digit_value c with
      | Some d => digits_value (10 * acc + d) l'
      | None => None
      end
  end.

(** [s] is the decimal numeral of [z]: a minus sign when [z] is negative,
    then the digits of its absolute value, the first of them [0] only when
    it is the only one. *)
Definition is_numeral (z : Z) (s : string) : bool :=
  let canonical (l : list ascii) : bool :=
    match l with
    | [] => false
    | c :: l' => negb (Ascii.eqb c "0") || bool_decide (l' = [])
    end in
  match String.list_ascii_of_string s with
  | c :: l =>
      if Ascii.eqb c "-" then
        (z <? 0) && canonical l && bool_decide (digits_value 0 l = Some (- z))
      else
        (0 <=? z) && canonical (c :: l)
        && bool_decide (digits_value 0 (c :: l) = Some z)
  | [] => false
  end.

(** *** Methods *)

(** [clear] *)
Definition clear (self : Builder) : Builder :=
  let self := <["ops" := PyList []]> self in
  let self := <["time_bounds" := PyList []]> self in
  let self := <["memo" := NoneMemo]> self in
  let self := <["fee" := PyNone]> self in
  let self := <["tx" := PyNone]> self in
  <["te" := PyNone]> self.

(** [next]: the result and the builder afterwards. *)
Definition next (py : Interpreter) (self : Builder) : Res unit * Builder :=
  let self := clear self in
  match self !! "sequence" with
  | None => (Raise (AttributeError "sequence"), self)
  | Some v =>
      match int py v with
      | Ok n =>
          match str_limited py (n + 1) with
          | Ok s => (Ok tt, <["sequence" := PyStr s]> self)
          | Raise e => (Raise e, self)
          end
      | Raise e => (Raise e, self)
      end
  end.

(** The attributes [next] assigns. *)
Definition assigned_by_next : list string :=
  ["ops"; "time_bounds"; "memo"; "fee"; "tx"; "te"; "sequence"].

(** *** The constructor, [get_sequence] and [sign] *)

(** [Exception(msg)], beside the built-in errors. *)
Inductive Raised : Type :=
  | Builtin (e : Exn)
  | PlainException (msg : string).

Inductive Out (A : Type) : Type :=
  | Done (a : A)
  | Fails (e : Raised).
Arguments Done {A} a.
Arguments Fails {A} e.

(** Truth value of an optional string: [None] and [""] are false. *)
Definition truthy_str (o : option string) : bool :=
  match o with
  | Some (String _ _) => true
  | _ => false
  end.

(** Truth value of an object. *)
Definition truthy (x : Obj) : bool :=
  match x with
  | PyNone => false
  | PyInt z => negb (z =? 0)
  | PyStr s => truthy_str (Some s)
  | PyList items => match items with [] => false | _ => true end
  | NoneMemo => true
  | PyObject _ => true
  end.

(** [str.upper()]: on a [str] of ASCII characters the letters [a] to [z]
    become [A] to [Z]. *)
Definition upper_char (c : ascii) : ascii :=
  let n := Ascii.N_of_ascii c in
  if ((97 <=? n) && (n <=? 122))%N then Ascii.ascii_of_N (n - 32) else c.

Fixpoint upper_ascii (s : string) : string :=
  match s with
  | EmptyString => EmptyString
  | String c s' => String (upper_char c) (upper_ascii s')
  end.

Definition upper (py : Interpreter) (s : string) : string :=
  if is_ascii s then upper_ascii s else upper_beyond_ascii py s.

Section Construction.

Variable py : Interpreter.

(** What [builder.py] imports and inherits: the two validators of
    [.utils], [Keypair.from_seed(secret).address().decode()], the
    constructor and the [sign] of the base class of stellar_base,
    [Horizon(uri)] with the two addresses of [.horizon], and
    [horizon.account(address)]. *)
Variable is_valid_secret_key : string -> bool.
Variable is_valid_address : string -> bool.
Variable address_of_seed : string -> string.
Variable BaseBuilder_init : option string -> string -> Z -> Out Builder.
Variable BaseBuilder_sign : option string -> Builder -> Res unit * Builder.
Variable Horizon_new : string -> Obj.
Variable HORIZON_LIVE HORIZON_TEST : string.
Variable horizon_account : Obj -> Obj -> Res (gmap string Obj).

(** The first statement of [__init__]: the address the builder is for. *)
Definition resolve_address (secret address : option string) : Out string :=
  if truthy_str secret then
    if negb (is_valid_secret_key (default "" secret)) then
      Fails (Builtin (ValueError "invalid secret key"))
    else Done (address_of_seed (default "" secret))
  else if truthy_str address then
    if negb (is_valid_address (default "" address)) then
      Fails (Builtin (ValueError "invalid address"))
    else Done (default "" address)
  else Fails (PlainException "either secret or address must be provided").

(** [__init__] *)
Definition __init__ (secret address : option string) (horizon : Obj)
    (horizon_uri network : option string) : Out Builder :=
  match resolve_address secret address with
  | Fails e => Fails e
  | Done address =>
      (* call baseclass constructor to init base class variables *)
      match BaseBuilder_init secret address 1 with
      | Fails e => Fails e
      | Done self =>
          (* custom overrides *)
          let self :=
            <["network" :=
                PyStr (if truthy_str network then upper py (default "" network)
                       else "PUBLIC")]> self in
          if truthy horizon then Done (<["horizon" := horizon]> self)
          else if truthy_str horizon_uri then
            Done (<["horizon" := Horizon_new (default "" horizon_uri)]> self)
          else
            match self !! "network" with
            | None => Fails (Builtin (AttributeError "network"))
            | Some net =>
                Done (<["horizon" :=
                         match net with
                         | PyStr "PUBLIC" => Horizon_new HORIZON_LIVE
                         | _ => Horizon_new HORIZON_TEST
                         end]> self)
            end
      end
  end.

(** [get_sequence] *)
Definition get_sequence (self : Builder) : Res Obj :=
  match self !! "horizon" with
  | None => Raise (AttributeError "horizon")
  | Some h =>
      match self !! "address" with
      | None => Raise (AttributeError "address")
      | Some a =>
          match horizon_account h a with
          | Raise e => Raise e
          | Ok reply => Ok (default PyNone (reply !! "sequence"))
          end
      end
  end.

(** [sign] *)
Definition sign (secret : option string) (self : Builder) : Res unit * Builder :=
  if negb (truthy_str secret) then
    (* only get the new sequence for my own account *)
    match get_sequence self with
    | Raise e => (Raise e, self)
    | Ok v => BaseBuilder_sign secret (<["sequence" := v]> self)
    end
  else BaseBuilder_sign secret self.

End Construction.

(** [n] calls of [next] in a row, as long as they return. *)
Fixpoint next_times (py : Interpreter) (n : nat) (self : Builder)
  : Res unit * Builder :=
  match n with
  | O => (Ok tt, self)
  | S n' =>
      match next py self with
      | (Ok _, self') => next_times py n' self'
      | (Raise e, self') => (Raise e, self')
      end
  end.

End Builder.

(** ** Vocabulary of the statements *)

Section Vocabulary.
Context {L C : Type} (dep : Deps L C).

(** The state after the check of the base account: the client and the
    keypair are set, and the client has been asked once. *)
Definition after_base_check (seed : string) (client : Client L) (l1 : L)
    (s : Account.State L C) : Account.State L C :=
  {| Account.self :=
       Account.set_keypair (Account.Keypair_new dep seed)
         (Account.set_client client (Account.self s));
     Account.ledger := l1;
     Account.pool := Account.pool s;
     Account.trace :=
       Account.trace s ++ [CallGetAccountData (address_from_seed dep seed)] |}.

(** The message of the error raised when both [channels] and
    [channel_secret_keys] are given. *)
Definition both_message : string :=
  "Account cannot be initialized with both 'channels' and 'channel_secret_keys' parameters".

(** A computation that leaves [self] as it found it, whatever its outcome. *)
Definition keeps_self {A} (m : Account.M (L := L) (C := C) A) : Prop :=
  forall s, Account.self (snd (m s)) = Account.self s.

(** [[generate_hd_seed(seed, str(channel)) for channel in range(n)]] *)
Definition generated_keys (seed : string) (n : Z) : list string :=
  (fun channel => generate_hd_seed dep seed (str channel)) <$> range n.

(** The channel seeds the constructor settles on, by its three branches. *)
Definition chosen_keys (seed : string) (channels : option Z)
    (keys : option (list string)) : list string :=
  match keys, channels with
  | Some ks, _ => ks
  | None, Some n => generated_keys seed n
  | None, None => [seed]
  end.

(** The object a successful construction leaves, given its channel seeds. *)
Definition built_account (seed : string) (client : Client L) (ks : list string)
  : Account.KinAccount L :=
  let h := {| hz_uri := horizon_uri (environment client);
              hz_pool_size := (Nat.max 1 (length ks) + 2)%nat;
              hz_user_agent := SDK_USER_AGENT dep |} in
  {| Account._client := Some client;
     Account.keypair := Some (Account.Keypair_new dep seed);
     Account.channel_secret_keys := Some ks;
     Account.horizon := Some h;
     Account.channel_manager :=
       Some {| cm_base_seed := seed; cm_channel_seeds := ks;
               cm_network := name (environment client); cm_horizon := h |} |}.

(** What [create_account] and [_send_asset] do once their checks have
    passed: one call of [send_transaction], whose reply gives the hash and
    whose exception is translated. *)
Definition delivered (r : Res (gmap string string)) : Res string :=
  match r with
  | Ok reply =>
      match reply !! "hash" with
      | Some h => Ok h
      | None => Raise (translate_error dep (KeyError "hash"))
      end
  | Raise e => Raise (translate_error dep e)
  end.

(** The client answers [get_account_data] from a table of statuses when
    the ledger is [l], and leaves the ledger as it is. *)
Definition answers_from (client : Client L) (st : string -> AccountStatus)
    (l : L) : Prop :=
  forall address,
    get_account_data client address l = (Ok (VStatus (st address)), l).

(** A channel seed the loop of [__init__] lets through: well-formed, and
    its account not created. *)
Definition channel_ok (st : string -> AccountStatus) (key : string) : Prop :=
  is_valid_secret_key dep key = true
  /\ st (address_from_seed dep key) = NOT_CREATED.

(** The body of the loop of [__init__] over the explicit channel seeds. *)
Definition channel_check (channel_key : string) : Account.M (L := L) (C := C) unit :=
  Account.bind
    (Account.raise_if (negb (is_valid_secret_key dep channel_key))
       (ValueError ("invalid channel key: " +:+ channel_key)))
    (fun _ =>
       Account.bind (Account.attr Account._client "_client")
         (fun c =>
            Account.bind
              (Account.call_get_account_data c (address_from_seed dep channel_key))
              (fun status =>
                 Account.raise_if (bool_decide (status <> VStatus NOT_CREATED))
                   AccountNotFoundError))).

(** One more event in the trace. *)
Definition logged (ev : list Event) (l1 : L) (s : Account.State L C)
  : Account.State L C :=
  {| Account.self := Account.self s; Account.ledger := l1;
     Account.pool := Account.pool s; Account.trace := Account.trace s ++ ev |}.

(** The queries the loop makes for a list of channel seeds. *)
Definition channel_queries (keys : list string) : list Event :=
  (fun key => CallGetAccountData (address_from_seed dep key)) <$> keys.

(** The state once the channel seeds [ks] are assigned, after the queries
    [asked]. *)
Definition after_keys (seed : string) (client : Client L) (ks : list string)
    (l1 : L) (asked : list Event) (s : Account.State L C) : Account.State L C :=
  {| Account.self :=
       Account.set_channel_secret_keys ks
         (Account.set_keypair (Account.Keypair_new dep seed)
            (Account.set_client client (Account.self s)));
     Account.ledger := l1;
     Account.pool := Account.pool s;
     Account.trace := Account.trace s ++ asked |}.

(** What a construction that succeeds leaves, after the queries [asked]. *)
Definition constructed (seed : string) (client : Client L) (ks : list string)
    (l1 : L) (asked : list Event) (s : Account.State L C) : Account.State L C :=
  {| Account.self := built_account seed client ks;
     Account.ledger := l1;
     Account.pool := Account.pool s;
     Account.trace := Account.trace s ++ asked |}.

(** The channel manager of the account built from [seed] with the channel
    seeds [ks]. *)
Definition manager_of (seed : string) (client : Client L) (ks : list string)
  : ChannelManager :=
  {| cm_base_seed := seed; cm_channel_seeds := ks;
     cm_network := name (environment client);
     cm_horizon :=
       {| hz_uri := horizon_uri (environment client);
          hz_pool_size := (Nat.max 1 (length ks) + 2)%nat;
          hz_user_agent := SDK_USER_AGENT dep |} |}.

(** The body of the loop of [__init__] that creates the channels. *)
Definition create_channel (base_account : Account.KinAccount L) (channel : string)
  : Account.M (L := L) (C := C) unit :=
  Account.try_except
    (Account.bind
       (Account.on_object base_account
          (Account.create_account dep channel (MIN_ACCOUNT_BALANCE dep) None))
       (fun _ => Account.ret tt))
    (fun e => if bool_decide (e = AccountExistsError)
              then Account.ret tt else Account.raise e).

(** The call that loop makes for a channel seed. *)
Definition creation (seed : string) (client : Client L) (channel : string) : Event :=
  CallSendTransaction (manager_of seed client [seed])
    (append_create_account_op channel (MIN_ACCOUNT_BALANCE dep)) None.

(** [send_transaction], asked to create an account without a memo, answers
    with a reply that has a hash, or raises what [translate_error] turns
    into [AccountExistsError]. *)
Definition creates_or_exists : Prop :=
  forall cm address balance p l,
    match send_transaction dep cm (append_create_account_op address balance) None p l with
    | (Ok reply, _, _) => is_Some (reply !! "hash")
    | (Raise e, _, _) => translate_error dep e = AccountExistsError
    end.

(** The calls of [send_transaction] in a trace. *)
Definition transactions (t : list Event) : list Event :=
  filter (fun ev => is_channel_call ev = true) t.

End Vocabulary.

(** A character that [int] neither strips nor reads as a sign or as a
    separator. *)
Definition plain_char (c : ascii) : Prop :=
  Builder.is_space c = false
  /\ Ascii.eqb c "-" = false /\ Ascii.eqb c "+" = false
  /\ Ascii.eqb c "_" = false.

(** ** A small ledger to run the code on

    Seeds are the strings that start with [S], addresses those that start
    with [G]; the ledger maps the addresses that exist to their status; the
    channel pool counts the transactions it has submitted. *)

Module Demo.

Definition starts_with (c : ascii) (s : string) : bool :=
  match s with
  | String c' _ => Ascii.eqb c c'
  | EmptyString => false
  end.

Abbreviation Ledger := (gmap string AccountStatus).

Definition status_of (l : Ledger) (address : string) : AccountStatus :=
  default NOT_CREATED (l !! address).

Definition client : Client Ledger :=
  {| get_account_data := fun address l => (Ok (VStatus (status_of l address)), l);
     get_account_balances := fun address l =>
       match l !! address with
       | Some _ => (Ok {[ "XLM" := PyNum.PInt 100; "KIN" := PyNum.PInt 0 ]}, l)
       | None => (Raise AccountNotFoundError, l)
       end;
     kin_asset := {| code := "KIN"; issuer := Some "GISSUER" |};
     environment := {| horizon_uri := "http://localhost:8008"; name := "DOCKER" |} |}.

(** A channel manager that refuses a memo of more than 28 characters, as the
    Stellar text memo does, and applies the operation to the ledger. *)
Definition submit (cm : ChannelManager) (fn : BuildFn) (memo_text : option string)
    (submitted : nat) (l : Ledger) : Res (gmap string string) * nat * Ledger :=
  if bool_decide (28 < String.length (default "" memo_text))%nat then
    (Raise (ForeignError "memo too long"), submitted, l)
  else
    match fn with
    | append_create_account_op address _ =>
        match l !! address with
        | Some _ => (Raise AccountExistsError, submitted, l)
        | None => (Ok {[ "hash" := "tx" +:+ pretty submitted ]}, S submitted,
                   <[address := NOT_ACTIVATED]> l)
        end
    | append_payment_op address _ _ _ =>
        match l !! address with
        | Some _ => (Ok {[ "hash" := "tx" +:+ pretty submitted ]}, S submitted, l)
        | None => (Raise AccountNotFoundError, submitted, l)
        end
    end.

Definition deps : Deps Ledger nat :=
  {| is_valid_secret_key := starts_with "S";
     is_valid_address := starts_with "G";
     address_from_seed := fun seed => "G" +:+ seed;
     generate_hd_seed := fun seed salt => seed +:+ salt;
     MIN_ACCOUNT_BALANCE := PyNum.PInt 0;
     SDK_USER_AGENT := "kin-sdk-python";
     translate_error := fun e => e;
     send_transaction := submit |}.

Definition base_seed : string := "SBASE".
Definition base_address : string := "GSBASE".
Definition channel_seed : string := "SCHANNEL".
Definition channel_address : string := "GSCHANNEL".
Definition recipient : string := "GRECIPIENT".

(** The base account awaits activation; the recipient is active. *)
Definition ledger0 : Ledger :=
  {[ base_address := NOT_ACTIVATED; recipient := ACTIVATED ]}.

(** The same, with the channel account created and active. *)
Definition ledger1 : Ledger := <[channel_address := ACTIVATED]> ledger0.

(** The same as [ledger0], with the base account active. *)
Definition ledger2 : Ledger := <[base_address := ACTIVATED]> ledger0.

(** A ledger on which the base account has not been created. *)
Definition ledger3 : Ledger := {[ recipient := ACTIVATED ]}.

Definition start (l : Ledger) : Account.State Ledger nat :=
  {| Account.self := Account.blank; Account.ledger := l;
     Account.pool := 0%nat; Account.trace := [] |}.

Definition horizon0 : Horizon :=
  {| hz_uri := "http://localhost:8008"; hz_pool_size := 3;
     hz_user_agent := "kin-sdk-python" |}.

Definition manager0 : ChannelManager :=
  {| cm_base_seed := base_seed; cm_channel_seeds := [base_seed];
     cm_network := "DOCKER"; cm_horizon := horizon0 |}.

(** The account that [KinAccount(base_seed, client, None, None, False)]
    builds on [ledger0]. *)
Definition account0 : Account.KinAccount Ledger :=
  {| Account._client := Some client;
     Account.keypair :=
       Some {| secret_seed := base_seed; public_address := base_address |};
     Account.channel_secret_keys := Some [base_seed];
     Account.horizon := Some horizon0;
     Account.channel_manager := Some manager0 |}.

Definition ready (l : Ledger) : Account.State Ledger nat :=
  {| Account.self := account0; Account.ledger := l;
     Account.pool := 0%nat; Account.trace := [] |}.

(** The amounts of the examples: [0.07], [1.1234567898765], and
    [500000000.00000006], the double [5e8 + 2^-24]. *)
Definition amount_0_07 : PyNum.t := PyNum.PFloat (PyNum.literal 7 2).
Definition amount_long : PyNum.t := PyNum.PFloat (PyNum.literal 11234567898765 13).
Definition amount_big : PyNum.t :=
  PyNum.PFloat (S754_finite false 8388608000000001 (-24)).

Definition memo50 : string := "aaaaaaaaaaaaaaaaaaaaaaaaaaaaaaaaaaaaaaaaaaaaaaaaaa".

(** The interpreter of the examples, with the limit of CPython 3.11; the
    examples have ASCII strings only. *)
Definition python : Builder.Interpreter :=
  {| Builder.int_max_str_digits := 4300;
     Builder.int_beyond_ascii := fun _ => None;
     Builder.upper_beyond_ascii := fun s => s |}.

(** A builder after a signature: the sequence is the string Horizon gave. *)
Definition builder0 : Builder.Builder :=
  {[ "address" := Builder.PyStr base_address;
     "network" := Builder.PyStr "PUBLIC";
     "sequence" := Builder.PyStr "41";
     "ops" := Builder.PyList [ {| Builder.class_name := "Operation"; Builder.id := 1 |} ];
     "fee" := Builder.PyInt 100 ]}.

(** Variants of the dependencies: address checks that let every string
    through, a minimum balance of a thousand, and a channel manager that is
    out of reach. *)
Definition lax_deps : Deps Ledger nat :=
  {| is_valid_secret_key := starts_with "S";
     is_valid_address := fun _ => true;
     address_from_seed := fun seed => "G" +:+ seed;
     generate_hd_seed := fun seed salt => seed +:+ salt;
     MIN_ACCOUNT_BALANCE := PyNum.PInt 0;
     SDK_USER_AGENT := "kin-sdk-python";
     translate_error := fun e => e;
     send_transaction := submit |}.

Definition rich_deps : Deps Ledger nat :=
  {| is_valid_secret_key := starts_with "S";
     is_valid_address := starts_with "G";
     address_from_seed := fun seed => "G" +:+ seed;
     generate_hd_seed := fun seed salt => seed +:+ salt;
     MIN_ACCOUNT_BALANCE := PyNum.PInt 1000;
     SDK_USER_AGENT := "kin-sdk-python";
     translate_error := fun e => e;
     send_transaction := submit |}.


(** A client whose balances have no XLM entry. *)
Definition client_no_xlm : Client Ledger :=
  {| get_account_data := fun address l => (Ok (VStatus (status_of l address)), l);
     get_account_balances := fun address l => (Ok {[ "KIN" := PyNum.PInt 5 ]}, l);
     kin_asset := {| code := "KIN"; issuer := Some "GISSUER" |};
     environment := {| horizon_uri := "http://localhost:8008"; name := "DOCKER" |} |}.

(** The collaborators of the builder. *)
Definition horizon_object (uri : string) : Builder.Obj :=
  Builder.PyObject {| Builder.class_name := "Horizon " +:+ uri; Builder.id := 0 |}.

Definition base_init (secret : option string) (address : string) (sequence : Z)
  : Builder.Out Builder.Builder :=
  Builder.Done
    {[ "address" := Builder.PyStr address;
       "sequence" := Builder.PyInt sequence;
       "network" := Builder.PyStr "TESTNET";
       "ops" := Builder.PyList [] ]}.

Definition base_sign (secret : option string) (b : Builder.Builder)
  : Res unit * Builder.Builder :=
  (Ok tt, <["te" := Builder.PyObject
                      {| Builder.class_name := "TransactionEnvelope";
                         Builder.id := 1 |}]> b).

Definition account_found (h a : Builder.Obj) : Res (gmap string Builder.Obj) :=
  Ok {[ "sequence" := Builder.PyStr "77" ]}.

Definition account_bare (h a : Builder.Obj) : Res (gmap string Builder.Obj) :=
  Ok ∅.

Definition account_down (h a : Builder.Obj) : Res (gmap string Builder.Obj) :=
  Raise (ForeignError "timeout").

(** [builder0] with its horizon. *)
Definition builder1 : Builder.Builder :=
  <["horizon" := horizon_object "http://localhost:8008"]> builder0.

(** A builder whose sequence is no number. *)
Definition builder2 : Builder.Builder :=
  <["sequence" := Builder.PyStr "n/a"]> builder0.

End Demo.

(** * Properties *)

Example str_examples : (str 0, str 42, str (-7)) = ("0", "42", "-7")%string.
Proof. vm_compute. reflexivity. Qed.

Example range_examples : (range 3, range 0, range (-2)) = ([0; 1; 2], [], []).
Proof. vm_compute. reflexivity. Qed.

Example int_examples :
  (Builder.int_of_str "41", Builder.int_of_str " -1_000 ", Builder.int_of_str "+7",
   Builder.int_of_str "", Builder.int_of_str "4__1", Builder.int_of_str "12a",
   Builder.int_of_str "_1", Builder.int_of_str "1_", Builder.int_of_str "-")
  = (Some 41, Some (-1000), Some 7, None, None, None, None, None, None).
Proof. vm_compute. reflexivity. Qed.

Example int_white_space :
  (Builder.int_of_str (String (Ascii.ascii_of_nat 9) "41"),
   Builder.int_of_str (String (Ascii.ascii_of_nat 28) "41"),
   Builder.int_of_str (String (Ascii.ascii_of_nat 31) "41"),
   Builder.int Demo.python (Builder.PyStr "0041"),
   Builder.is_numeral 42 "42", Builder.is_numeral 42 "042",
   Builder.is_numeral (-7) "-7", Builder.is_numeral 0 "0")
  = (Some 41, None, None, Ok 41, true, false, true, true).
Proof. vm_compute. reflexivity. Qed.

Example demo_construct :
  fst (Account.KinAccount_ Demo.deps Demo.base_seed Demo.client None None false
         (Demo.start Demo.ledger0)) = Ok Demo.account0.
Proof. vm_compute. reflexivity. Qed.

(** ** Running the monad *)

Section Run.
Context {L C : Type}.
Implicit Types s : Account.State L C.

Lemma run_bind_ok {A B} (m : Account.M A) (k : A -> Account.M B) s a s1 :
  m s = (Ok a, s1) -> Account.bind m k s = k a s1.
Proof. intros E. unfold Account.bind. now rewrite E. Qed.

Lemma run_bind_raise {A B} (m : Account.M A) (k : A -> Account.M B) s e s1 :
  m s = (Raise e, s1) -> Account.bind m k s = (Raise e, s1).
Proof. intros E. unfold Account.bind. now rewrite E. Qed.

Lemma bind_ok_inv {A B} (m : Account.M A) (k : A -> Account.M B) s b s' :
  Account.bind m k s = (Ok b, s') ->
  exists a s1, m s = (Ok a, s1) /\ k a s1 = (Ok b, s').
Proof.
  unfold Account.bind. destruct (m s) as [[a|e] s1]; intros E.
  - now exists a, s1.
  - discriminate.
Qed.

Lemma raise_if_ok_inv (c : bool) e s s' :
  Account.raise_if c e s = (Ok tt, s') -> c = false /\ s' = s.
Proof.
  destruct c; cbn; intros E.
  - discriminate.
  - now inversion E.
Qed.

Lemma attr_ok_inv {A} (field : Account.KinAccount L -> option A) label s a s' :
  Account.attr field label s = (Ok a, s') ->
  field (Account.self s) = Some a /\ s' = s.
Proof.
  unfold Account.attr. destruct (field _); intros E; now inversion E.
Qed.

Lemma run_get_account_data (c : Client L) address s r l1 :
  get_account_data c address (Account.ledger s) = (r, l1) ->
  Account.call_get_account_data c address s
  = (r, {| Account.self := Account.self s; Account.ledger := l1;
           Account.pool := Account.pool s;
           Account.trace := Account.trace s ++ [CallGetAccountData address] |}).
Proof. intros E. unfold Account.call_get_account_data. now rewrite E. Qed.

Lemma run_get_account_balances (c : Client L) address s r l1 :
  get_account_balances c address (Account.ledger s) = (r, l1) ->
  Account.call_get_account_balances c address s
  = (r, {| Account.self := Account.self s; Account.ledger := l1;
           Account.pool := Account.pool s;
           Account.trace := Account.trace s ++ [CallGetAccountBalances address] |}).
Proof. intros E. unfold Account.call_get_account_balances. now rewrite E. Qed.

Lemma run_send_transaction (dep : Deps L C) cm fn memo s r p1 l1 :
  send_transaction dep cm fn memo (Account.pool s) (Account.ledger s) = (r, p1, l1) ->
  Account.call_send_transaction dep cm fn memo s
  = (r, {| Account.self := Account.self s; Account.ledger := l1;
           Account.pool := p1;
           Account.trace := Account.trace s ++ [CallSendTransaction cm fn memo] |}).
Proof. intros E. unfold Account.call_send_transaction. now rewrite E. Qed.

End Run.

(** One step of a run: a call to the client whose answer is a hypothesis. *)
Ltac run_client :=
  match goal with
  | H : get_account_data ?c ?a _ = (Ok _, _) |- _ =>
      erewrite (run_bind_ok (Account.call_get_account_data c a))
        by (apply run_get_account_data; cbn; exact H)
  | H : get_account_data ?c ?a _ = (Raise _, _) |- _ =>
      erewrite (run_bind_raise (Account.call_get_account_data c a))
        by (apply run_get_account_data; cbn; exact H)
  end.

(** ** The constructor *)

Section Init.
Context {L C : Type} (dep : Deps L C).
Implicit Types s : Account.State L C.

Lemma init_invalid_seed seed client channels keys cc s :
  is_valid_secret_key dep seed = false ->
  Account.__init__ dep seed client channels keys cc s
  = (Raise (ValueError ("invalid secret key: " +:+ seed)),
     {| Account.self := Account.set_client client (Account.self s);
        Account.ledger := Account.ledger s; Account.pool := Account.pool s;
        Account.trace := Account.trace s |}).
Proof.
  intros Hv. unfold Account.__init__, Account.init_body.
  unfold Account.bind at 1. cbn. now rewrite Hv.
Qed.

Lemma init_client_raises seed client channels keys cc s e l1 :
  is_valid_secret_key dep seed = true ->
  get_account_data client (address_from_seed dep seed) (Account.ledger s)
  = (Raise e, l1) ->
  Account.__init__ dep seed client channels keys cc s
  = (Raise e, after_base_check dep seed client l1 s).
Proof.
  intros Hv Hg. unfold Account.__init__, Account.init_body.
  unfold Account.bind at 1. cbn. rewrite Hv. cbn.
  now run_client.
Qed.

Lemma init_base_rejected seed client channels keys cc s v l1 :
  is_valid_secret_key dep seed = true ->
  get_account_data client (address_from_seed dep seed) (Account.ledger s)
  = (Ok v, l1) ->
  v <> VStatus NOT_ACTIVATED ->
  Account.__init__ dep seed client channels keys cc s
  = (Raise AccountNotActivatedError, after_base_check dep seed client l1 s).
Proof.
  intros Hv Hg Hne. unfold Account.__init__, Account.init_body.
  unfold Account.bind at 1. cbn. rewrite Hv. cbn.
  run_client. unfold Account.bind at 1. cbn.
  now rewrite bool_decide_eq_true_2.
Qed.

Lemma init_both_supplied seed client n keys cc s l1 :
  is_valid_secret_key dep seed = true ->
  get_account_data client (address_from_seed dep seed) (Account.ledger s)
  = (Ok (VStatus NOT_ACTIVATED), l1) ->
  Account.__init__ dep seed client (Some n) (Some keys) cc s
  = (Raise (ValueError both_message), after_base_check dep seed client l1 s).
Proof.
  intros Hv Hg. unfold Account.__init__, Account.init_body.
  unfold Account.bind at 1. cbn. rewrite Hv. cbn.
  run_client. unfold Account.bind at 1. cbn.
  rewrite bool_decide_eq_false_2 by (intros H; now apply H). cbn.
  reflexivity.
Qed.

(** Without [create_channels] the body never calls the class it is given:
    the construction inside [__init__], which passes [False], is a plain
    run of the body. *)
Lemma init_body_ignores_class K1 K2 seed client channels keys :
  Account.init_body dep K1 seed client channels keys false
  = Account.init_body dep K2 seed client channels keys false.
Proof. reflexivity. Qed.

End Init.

Section InitClaims.
Context {L C : Type} (dep : Deps L C).
Implicit Types s : Account.State L C.

(** C9. With a well-formed base seed, the constructor raises
    [AccountNotActivatedError] whenever the client's answer for the base
    address is anything but the status [NOT_ACTIVATED]: so for [ACTIVATED],
    and for [NOT_CREATED]. The client has been asked exactly once then, and
    nothing else has been called. *)
Theorem base_status_must_be_not_activated
    seed client channels keys cc s v l1 :
  is_valid_secret_key dep seed = true ->
  get_account_data client (address_from_seed dep seed) (Account.ledger s)
  = (Ok v, l1) ->
  v <> VStatus NOT_ACTIVATED ->
  fst (Account.__init__ dep seed client channels keys cc s)
  = Raise AccountNotActivatedError
  /\ fst (Account.KinAccount_ dep seed client channels keys cc s)
     = Raise AccountNotActivatedError
  /\ Account.trace (snd (Account.__init__ dep seed client channels keys cc s))
     = Account.trace s ++ [CallGetAccountData (address_from_seed dep seed)].
Proof.
  intros Hv Hg Hne.
  pose proof (init_base_rejected dep seed client channels keys cc s v l1 Hv Hg Hne)
    as E.
  split; [|split].
  - now rewrite E.
  - unfold Account.KinAccount_, Account.construct.
    now erewrite (init_base_rejected dep seed client channels keys cc _ v l1 Hv)
      by (cbn; eauto).
  - now rewrite E.
Qed.

(** C1, at the failing input. A well-formed channel seed whose account is
    on the ledger (the client's answer is not [NOT_CREATED]) stops the
    constructor with [AccountNotFoundError], which is not the error for an
    account that exists, [AccountExistsError]. *)
Theorem present_channel_reported_not_found
    seed client key rest cc s l1 v l2 :
  is_valid_secret_key dep seed = true ->
  get_account_data client (address_from_seed dep seed) (Account.ledger s)
  = (Ok (VStatus NOT_ACTIVATED), l1) ->
  is_valid_secret_key dep key = true ->
  get_account_data client (address_from_seed dep key) l1 = (Ok v, l2) ->
  v <> VStatus NOT_CREATED ->
  fst (Account.__init__ dep seed client None (Some (key :: rest)) cc s)
  = Raise AccountNotFoundError
  /\ fst (Account.__init__ dep seed client None (Some (key :: rest)) cc s)
     <> Raise AccountExistsError
  /\ Account.trace
       (snd (Account.__init__ dep seed client None (Some (key :: rest)) cc s))
     = Account.trace s ++ [CallGetAccountData (address_from_seed dep seed);
                           CallGetAccountData (address_from_seed dep key)].
Proof.
  intros Hv Hg Hk Hgk Hne.
  assert (exists st,
             Account.__init__ dep seed client None (Some (key :: rest)) cc s
             = (Raise AccountNotFoundError, st)
             /\ Account.trace st
                = Account.trace s ++ [CallGetAccountData (address_from_seed dep seed);
                                      CallGetAccountData (address_from_seed dep key)])
    as (st & E & Et).
  { unfold Account.__init__, Account.init_body.
    unfold Account.bind at 1. cbn. rewrite Hv. cbn.
    run_client. unfold Account.bind at 1. cbn.
    rewrite bool_decide_eq_false_2 by (intros H; now apply H). cbn.
    unfold Account.bind at 1. cbn.
    unfold Account.bind at 1. cbn.
    unfold Account.bind at 1. cbn.
    unfold Account.bind at 1. cbn. rewrite Hk. cbn.
    run_client. cbn.
    rewrite bool_decide_eq_true_2 by exact Hne. cbn.
    eexists. split; [reflexivity|]. cbn. now rewrite <- app_assoc. }
  rewrite E. cbn. repeat split; [discriminate | exact Et].
Qed.

End InitClaims.

(** ** What leaves [self] alone *)

Section Frame.
Context {L C : Type}.
Implicit Types s : Account.State L C.

Lemma keeps_self_run {A} (m : Account.M A) s r s' :
  keeps_self m -> m s = (r, s') -> Account.self s' = Account.self s.
Proof. intros K E. specialize (K s). now rewrite E in K. Qed.

Lemma keeps_ret {A} (a : A) : keeps_self (L := L) (C := C) (Account.ret a).
Proof. now intros s. Qed.

Lemma keeps_raise {A} e : keeps_self (L := L) (C := C) (Account.raise (A := A) e).
Proof. now intros s. Qed.

Lemma keeps_raise_if c e : keeps_self (L := L) (C := C) (Account.raise_if c e).
Proof. destruct c; now intros s. Qed.

Lemma keeps_lift {A} (r : Res A) : keeps_self (L := L) (C := C) (Account.lift r).
Proof. now intros s. Qed.

Lemma keeps_attr {A} (field : Account.KinAccount L -> option A) label :
  keeps_self (C := C) (Account.attr field label).
Proof. intros s. unfold Account.attr. now destruct (field _). Qed.

Lemma keeps_subscript {V} (d : gmap string V) key :
  keeps_self (L := L) (C := C) (Account.subscript d key).
Proof. intros s. unfold Account.subscript. now destruct (d !! key). Qed.

Lemma keeps_bind {A B} (m : Account.M A) (k : A -> Account.M B) :
  keeps_self m -> (forall a, keeps_self (k a)) ->
  keeps_self (L := L) (C := C) (Account.bind m k).
Proof.
  intros Km Kk s. unfold Account.bind.
  destruct (m s) as [[a|e] s1] eqn:E.
  - rewrite (Kk a s1). eapply keeps_self_run; eauto.
  - cbn. eapply keeps_self_run; eauto.
Qed.

Lemma keeps_try_except {A} (m : Account.M A) (h : Exn -> Account.M A) :
  keeps_self m -> (forall e, keeps_self (h e)) ->
  keeps_self (L := L) (C := C) (Account.try_except m h).
Proof.
  intros Km Kh s. unfold Account.try_except.
  destruct (m s) as [[a|e] s1] eqn:E.
  - cbn. eapply keeps_self_run; eauto.
  - rewrite (Kh e s1). eapply keeps_self_run; eauto.
Qed.

Lemma keeps_for_each {A} (l : list A) (body : A -> Account.M unit) :
  (forall x, keeps_self (body x)) ->
  keeps_self (L := L) (C := C) (Account.for_each l body).
Proof.
  intros Kb. induction l as [|x l IH]; cbn.
  - apply keeps_ret.
  - apply keeps_bind; auto.
Qed.

Lemma keeps_get_account_data (c : Client L) address :
  keeps_self (C := C) (Account.call_get_account_data c address).
Proof.
  intros s. unfold Account.call_get_account_data.
  now destruct (get_account_data c address _).
Qed.

Lemma keeps_get_account_balances (c : Client L) address :
  keeps_self (C := C) (Account.call_get_account_balances c address).
Proof.
  intros s. unfold Account.call_get_account_balances.
  now destruct (get_account_balances c address _).
Qed.

Lemma keeps_send_transaction (dep : Deps L C) cm fn memo :
  keeps_self (Account.call_send_transaction dep cm fn memo).
Proof.
  intros s. unfold Account.call_send_transaction.
  now destruct (send_transaction dep cm fn memo _ _) as [[r p] l].
Qed.

Lemma keeps_on_object {A} (obj : Account.KinAccount L) (m : Account.M A) :
  keeps_self (L := L) (C := C) (Account.on_object obj m).
Proof. intros s. unfold Account.on_object. now destruct (m _). Qed.

Lemma keeps_construct (init : Account.M unit) :
  keeps_self (L := L) (C := C) (Account.construct init).
Proof. intros s. unfold Account.construct. now destruct (init _). Qed.

End Frame.

Create HintDb frame discriminated.
#[export] Hint Resolve keeps_ret keeps_raise keeps_raise_if keeps_lift keeps_attr
  keeps_subscript keeps_try_except keeps_for_each
  keeps_get_account_data keeps_get_account_balances keeps_send_transaction
  keeps_on_object keeps_construct : frame.

(** Decompose a computation along its binds, closing the leaves with the
    lemmas above. *)
Ltac frame :=
  repeat first
    [ apply keeps_bind; [|intros ?]
    | apply keeps_for_each; intros ?
    | apply keeps_try_except; [|intros ?]
    | match goal with |- keeps_self (if ?c then _ else _) => destruct c end
    | solve [auto with frame] ].

Section MethodFrames.
Context {L C : Type} (dep : Deps L C).

Lemma keeps_get_balances : keeps_self (L := L) (C := C) Account.get_balances.
Proof. unfold Account.get_balances. frame. Qed.

Lemma keeps_get_data : keeps_self (L := L) (C := C) Account.get_data.
Proof. unfold Account.get_data. frame. Qed.

Lemma keeps_create_account address balance memo :
  keeps_self (Account.create_account dep address balance memo).
Proof. unfold Account.create_account. frame. Qed.

Lemma keeps_send_asset asset address amount memo :
  keeps_self (Account._send_asset dep asset address amount memo).
Proof. unfold Account._send_asset. frame. Qed.

Lemma keeps_send_xlm address amount memo :
  keeps_self (Account.send_xlm dep address amount memo).
Proof. apply keeps_send_asset. Qed.

Lemma keeps_send_kin address amount memo :
  keeps_self (Account.send_kin dep address amount memo).
Proof. unfold Account.send_kin. frame. Qed.

End MethodFrames.

(** ** What a successful construction leaves *)

Section InitSuccess.
Context {L C : Type} (dep : Deps L C).
Implicit Types s : Account.State L C.

(** The part of [__init__] that creates the channels does not touch
    [self]. *)
Lemma init_body_ok KinAccount_ seed client channels keys cc s s' :
  (forall a b c d e, keeps_self (KinAccount_ a b c d e)) ->
  Account.init_body dep KinAccount_ seed client channels keys cc s = (Ok tt, s') ->
  Account.self s' = built_account dep seed client (chosen_keys dep seed channels keys)
  /\ is_valid_secret_key dep seed = true
  /\ (channels = None \/ keys = None)
  /\ (cc = true -> channels <> None).
Proof.
  intros KA H. unfold Account.init_body in H.
  unfold Account.bind at 1 in H. cbn in H.
  destruct (is_valid_secret_key dep seed) eqn:Hv; cbn in H; [|discriminate].
  apply bind_ok_inv in H as (v & s1 & Hcall & H).
  pose proof (keeps_self_run _ _ _ _ (keeps_get_account_data client _) Hcall) as S1.
  cbn in S1.
  apply bind_ok_inv in H as ([] & s2 & Hst & H).
  apply raise_if_ok_inv in Hst as [_ ->].
  apply bind_ok_inv in H as ([] & s2 & Hboth & H).
  apply raise_if_ok_inv in Hboth as [Hboth ->].
  apply bind_ok_inv in H as ([] & s2 & Hkeys & H).
  assert (Account.self s2
          = Account.set_channel_secret_keys (chosen_keys dep seed channels keys)
              (Account.self s1)) as S2.
  { destruct keys as [ks|]; [|destruct channels as [n|]]; cbn in Hkeys |- *.
    - apply bind_ok_inv in Hkeys as ([] & s3 & Hloop & Hkeys).
      assert (Account.self s3 = Account.self s1) as S3.
      { eapply keeps_self_run; [|exact Hloop]. frame. }
      inversion Hkeys; subst s2; cbn. now rewrite S3.
    - now inversion Hkeys.
    - now inversion Hkeys. }
  apply bind_ok_inv in H as ([] & s3 & Hblock & H).
  assert (Account.self s3 = Account.self s2) as S3.
  { eapply keeps_self_run; [|exact Hblock]. frame. }
  assert (cc = true -> channels <> None) as Hcc.
  { intros ->. apply bind_ok_inv in Hblock as ([] & s4 & Hnone & _).
    apply raise_if_ok_inv in Hnone as [Hnone _].
    now apply bool_decide_eq_false in Hnone. }
  clear Hblock Hkeys Hcall.
  apply bind_ok_inv in H as (ks & ? & [Hks ->]%attr_ok_inv & H).
  apply bind_ok_inv in H as (c & ? & [Hc ->]%attr_ok_inv & H).
  apply bind_ok_inv in H as ([] & s4 & Hhz & H).
  inversion Hhz; subst s4; clear Hhz.
  apply bind_ok_inv in H as (ks' & ? & [Hks' ->]%attr_ok_inv & H).
  apply bind_ok_inv in H as (c' & ? & [Hc' ->]%attr_ok_inv & H).
  apply bind_ok_inv in H as (h & ? & [Hh ->]%attr_ok_inv & H).
  inversion H; subst s'; clear H.
  cbn in Hks', Hc', Hh. rewrite S3, S2, S1 in *. cbn in *.
  simplify_eq. repeat split; [|exact Hcc].
  apply andb_false_iff in Hboth as [Hb|Hb];
    apply bool_decide_eq_false in Hb.
  - left. now destruct channels; [exfalso; apply Hb|].
  - right. now destruct keys; [exfalso; apply Hb|].
Qed.

Lemma init_ok seed client channels keys cc s s' :
  Account.__init__ dep seed client channels keys cc s = (Ok tt, s') ->
  Account.self s' = built_account dep seed client (chosen_keys dep seed channels keys)
  /\ is_valid_secret_key dep seed = true
  /\ (channels = None \/ keys = None)
  /\ (cc = true -> channels <> None).
Proof.
  apply init_body_ok. intros a b c d e. apply keeps_construct.
Qed.

(** Without explicit channel seeds and without [create_channels], a
    well-formed seed and a base account of status [NOT_ACTIVATED] are all
    the constructor asks for. *)
Lemma init_plain_ok seed client channels s l1 :
  is_valid_secret_key dep seed = true ->
  get_account_data client (address_from_seed dep seed) (Account.ledger s)
  = (Ok (VStatus NOT_ACTIVATED), l1) ->
  Account.__init__ dep seed client channels None false s
  = (Ok tt,
     {| Account.self := built_account dep seed client (chosen_keys dep seed channels None);
        Account.ledger := l1;
        Account.pool := Account.pool s;
        Account.trace :=
          Account.trace s ++ [CallGetAccountData (address_from_seed dep seed)] |}).
Proof.
  intros Hv Hg. unfold Account.__init__, Account.init_body.
  unfold Account.bind at 1. cbn. rewrite Hv. cbn.
  run_client. unfold Account.bind at 1. cbn.
  rewrite andb_false_r. cbn.
  destruct channels as [n|]; reflexivity.
Qed.

(** C4, as amended. When both [channels] and [channel_secret_keys] are
    given, the constructor fails, and it does so without looking at the
    list: the outcome and the final state are the same for any two lists.
    The checks of the base seed and of the base account, which every
    construction makes, come first: where the construction with neither
    parameter succeeds, the failure is the [ValueError] about the two
    parameters, raised after the one query for the base address; where it
    fails, the construction with both fails in the same way, with the
    same error and the same final state. *)
Theorem both_channel_parameters_rejected seed client n keys cc s :
  (forall keys',
     Account.__init__ dep seed client (Some n) (Some keys) cc s
     = Account.__init__ dep seed client (Some n) (Some keys') cc s)
  /\ (exists e,
        fst (Account.__init__ dep seed client (Some n) (Some keys) cc s) = Raise e)
  /\ (fst (Account.__init__ dep seed client None None false s) = Ok tt ->
      Account.__init__ dep seed client (Some n) (Some keys) cc s
      = (Raise (ValueError both_message),
         after_base_check dep seed client
           (Account.ledger (snd (Account.__init__ dep seed client None None false s)))
           s))
  /\ (forall e,
        fst (Account.__init__ dep seed client None None false s) = Raise e ->
        Account.__init__ dep seed client (Some n) (Some keys) cc s
        = Account.__init__ dep seed client None None false s).
Proof.
  assert (forall ks, exists e st,
             Account.__init__ dep seed client (Some n) (Some ks) cc s = (Raise e, st)
             /\ (forall ks', Account.__init__ dep seed client (Some n) (Some ks') cc s
                             = (Raise e, st))
             /\ (fst (Account.__init__ dep seed client None None false s) = Ok tt ->
                 e = ValueError both_message
                 /\ st = after_base_check dep seed client
                           (Account.ledger
                              (snd (Account.__init__ dep seed client None None false s)))
                           s)
             /\ (forall e0,
                   fst (Account.__init__ dep seed client None None false s) = Raise e0 ->
                   Account.__init__ dep seed client None None false s = (Raise e, st)))
    as Hall.
  { intros ks.
    destruct (is_valid_secret_key dep seed) eqn:Hv.
    - destruct (get_account_data client (address_from_seed dep seed)
                  (Account.ledger s)) as [[v|e] l1] eqn:Hg.
      + destruct (decide (v = VStatus NOT_ACTIVATED)) as [->|Hne].
        * eexists _, _. split; [|split; [intros ks'|split]].
          -- apply init_both_supplied; eassumption.
          -- apply init_both_supplied; eassumption.
          -- intros _. rewrite (init_plain_ok seed client None s l1 Hv Hg).
             split; reflexivity.
          -- intros e0.
             rewrite (init_plain_ok seed client None s l1 Hv Hg).
             discriminate.
        * eexists _, _. split; [|split; [intros ks'|split]].
          -- eapply init_base_rejected; eassumption.
          -- eapply init_base_rejected; eassumption.
          -- rewrite (init_base_rejected dep seed client None None false s v l1 Hv Hg Hne).
             discriminate.
          -- intros e0 _. eapply init_base_rejected; eassumption.
      + eexists _, _. split; [|split; [intros ks'|split]].
        * eapply init_client_raises; eassumption.
        * eapply init_client_raises; eassumption.
        * rewrite (init_client_raises dep seed client None None false s e l1 Hv Hg).
          discriminate.
        * intros e0 _. eapply init_client_raises; eassumption.
    - eexists _, _. split; [|split; [intros ks'|split]].
      + apply init_invalid_seed; assumption.
      + apply init_invalid_seed; assumption.
      + rewrite (init_invalid_seed dep seed client None None false s Hv).
        discriminate.
      + intros e0 _. apply init_invalid_seed; assumption. }
  destruct (Hall keys) as (e & st & E & Eany & Hok & Hfail).
  split; [|split; [|split]].
  - intros keys'. now rewrite E, Eany.
  - exists e. now rewrite E.
  - intros H. rewrite E. destruct (Hok H) as [-> ->]. reflexivity.
  - intros e0 H. now rewrite E, (Hfail e0 H).
Qed.

Lemma for_each_ok_inv {A} (l : list A) (body : A -> Account.M unit)
    (P : A -> Prop) s s' :
  (forall x s1 s2, body x s1 = (Ok tt, s2) -> P x) ->
  Account.for_each l body s = (Ok tt, s') -> Forall P l.
Proof.
  intros HP. revert s. induction l as [|x l IH]; intros s H; cbn in H.
  - constructor.
  - apply bind_ok_inv in H as ([] & s1 & Hx & H).
    constructor; [eapply HP; exact Hx | eapply IH; exact H].
Qed.

(** A construction from explicit channel seeds succeeds only if every seed
    of the list is well-formed. *)
Lemma init_explicit_keys_valid seed client channels keys cc s s' :
  Account.__init__ dep seed client channels (Some keys) cc s = (Ok tt, s') ->
  Forall (fun key => is_valid_secret_key dep key = true) keys.
Proof.
  intros H. unfold Account.__init__, Account.init_body in H.
  unfold Account.bind at 1 in H. cbn in H.
  destruct (is_valid_secret_key dep seed) eqn:Hv; cbn in H; [|discriminate].
  apply bind_ok_inv in H as (v & s1 & _ & H).
  apply bind_ok_inv in H as ([] & s2 & _ & H).
  apply bind_ok_inv in H as ([] & s3 & _ & H).
  apply bind_ok_inv in H as ([] & s4 & H & _).
  apply bind_ok_inv in H as ([] & s5 & H & _).
  eapply for_each_ok_inv; [|exact H].
  intros key t1 t2 Hbody. cbn in Hbody.
  apply bind_ok_inv in Hbody as ([] & t3 & Hr & _).
  apply raise_if_ok_inv in Hr as [Hr _].
  now apply negb_false_iff in Hr.
Qed.

End InitSuccess.

(** ** Numerals: what [str] prints and [int] reads *)

Section Numerals.

Lemma pretty_N_char_plain d : plain_char (pretty_N_char d).
Proof.
  unfold pretty_N_char.
  repeat (match goal with |- context [match ?x with _ => _ end] => destruct x end);
    repeat split; reflexivity.
Qed.

Lemma digit_value_pretty d :
  (d < 10)%N -> Builder.digit_value (pretty_N_char d) = Some (Z.of_N d).
Proof.
  intros Hd.
  assert (d = 0 \/ d = 1 \/ d = 2 \/ d = 3 \/ d = 4 \/ d = 5 \/ d = 6
          \/ d = 7 \/ d = 8 \/ d = 9)%N as H by lia.
  repeat (destruct H as [->|H]; [reflexivity|]). now subst.
Qed.

Lemma pretty_N_char_nonzero d :
  (0 < d < 10)%N -> Ascii.eqb (pretty_N_char d) "0" = false.
Proof.
  intros Hd.
  assert (d = 1 \/ d = 2 \/ d = 3 \/ d = 4 \/ d = 5 \/ d = 6
          \/ d = 7 \/ d = 8 \/ d = 9)%N as H by lia.
  repeat (destruct H as [->|H]; [reflexivity|]). now subst.
Qed.

(** A decimal digit is an ASCII character, and no white space, sign or
    underscore. *)
Lemma digit_is_plain c d :
  Builder.digit_value c = Some d ->
  plain_char c /\ (Ascii.N_of_ascii c <? 128)%N = true /\ 0 <= d < 10.
Proof.
  unfold Builder.digit_value, plain_char, Builder.is_space.
  destruct c as [[] [] [] [] [] [] [] []]; cbn; intros H; inversion H;
    repeat split; (reflexivity || lia).
Qed.

Lemma pretty_go_digits x s :
  Forall (fun c => is_Some (Builder.digit_value c)) (String.list_ascii_of_string s) ->
  Forall (fun c => is_Some (Builder.digit_value c))
    (String.list_ascii_of_string (pretty_N_go x s)).
Proof.
  revert s. induction (N.lt_wf_0 x) as [x _ IH]; intros s Hs.
  destruct (decide (x = 0)%N) as [->|Hx].
  - now rewrite pretty_N_go_0.
  - rewrite pretty_N_go_step by lia. apply IH.
    + apply N.div_lt; lia.
    + cbn. constructor; [|exact Hs].
      rewrite digit_value_pretty by (apply N.mod_lt; lia). now eexists.
Qed.

Lemma digits_plain l :
  Forall (fun c => is_Some (Builder.digit_value c)) l -> Forall plain_char l.
Proof.
  apply List.Forall_impl. intros c [d Hd]. now apply digit_is_plain in Hd.
Qed.

Lemma pretty_go_plain x s :
  Forall plain_char (String.list_ascii_of_string s) ->
  Forall plain_char (String.list_ascii_of_string (pretty_N_go x s)).
Proof.
  revert s. induction (N.lt_wf_0 x) as [x _ IH]; intros s Hs.
  destruct (decide (x = 0)%N) as [->|Hx].
  - now rewrite pretty_N_go_0.
  - rewrite pretty_N_go_step by lia. apply IH.
    + apply N.div_lt; lia.
    + cbn. constructor; [apply pretty_N_char_plain | exact Hs].
Qed.

Lemma parse_digits_pretty_go x s acc after :
  (0 < x)%N -> 0 <= acc ->
  exists k, 0 <= k /\
    Builder.parse_digits acc after (String.list_ascii_of_string (pretty_N_go x s))
    = Builder.parse_digits (acc * 10 ^ k + Z.of_N x) true
        (String.list_ascii_of_string s).
Proof.
  revert s. induction (N.lt_wf_0 x) as [x _ IH]; intros s Hx Hacc.
  rewrite pretty_N_go_step by exact Hx.
  assert (x `mod` 10 < 10)%N as Hd by (apply N.mod_lt; lia).
  pose proof (N.div_mod x 10 ltac:(lia)) as Hdm.
  destruct (decide (x `div` 10 = 0)%N) as [Hq|Hq].
  - rewrite Hq, pretty_N_go_0. exists 1. split; [lia|]. cbn.
    destruct (pretty_N_char_plain (x `mod` 10)) as (_ & _ & _ & ->).
    rewrite digit_value_pretty by exact Hd.
    f_equal. lia.
  - destruct (IH (x `div` 10)%N ltac:(apply N.div_lt; lia)
                (String (pretty_N_char (x `mod` 10)) s) ltac:(lia) Hacc)
      as (k & Hk & E).
    rewrite E. exists (k + 1). split; [lia|]. cbn.
    destruct (pretty_N_char_plain (x `mod` 10)) as (_ & _ & _ & ->).
    rewrite digit_value_pretty by exact Hd.
    f_equal. rewrite Z.pow_add_r by lia. lia.
Qed.

(** The first digit of a positive number is not [0]. *)
Lemma pretty_go_head x s :
  (0 < x)%N ->
  exists c l,
    String.list_ascii_of_string (pretty_N_go x s) = c :: l
    /\ Ascii.eqb c "0" = false.
Proof.
  revert s. induction (N.lt_wf_0 x) as [x _ IH]; intros s Hx.
  rewrite pretty_N_go_step by exact Hx.
  assert (x `mod` 10 < 10)%N as Hd by (apply N.mod_lt; lia).
  pose proof (N.div_mod x 10 ltac:(lia)) as Hdm.
  destruct (decide (x `div` 10 = 0)%N) as [Hq|Hq].
  - rewrite Hq, pretty_N_go_0. eexists _, _. split; [reflexivity|].
    apply pretty_N_char_nonzero. lia.
  - apply IH; [apply N.div_lt|]; lia.
Qed.

(** On digits alone, [parse_digits] is the value of the digits. *)
Lemma parse_digits_value l acc :
  Forall (fun c => is_Some (Builder.digit_value c)) l ->
  Builder.parse_digits acc true l = Builder.digits_value acc l.
Proof.
  intros H. revert acc. induction H as [|c l [d Hd] _ IH]; intros acc; cbn.
  - reflexivity.
  - destruct (digit_is_plain c d Hd) as ((_ & _ & _ & ->) & _).
    rewrite Hd. apply IH.
Qed.

Lemma digits_value_pretty x :
  (0 < x)%N ->
  Builder.digits_value 0 (String.list_ascii_of_string (pretty_N_go x ""))
  = Some (Z.of_N x).
Proof.
  intros Hx.
  rewrite <- parse_digits_value by (apply pretty_go_digits; constructor).
  destruct (parse_digits_pretty_go x "" 0 true Hx ltac:(lia)) as (k & _ & E).
  rewrite E. reflexivity.
Qed.

Lemma lstrip_no_space l :
  Forall (fun c => Builder.is_space c = false) l -> Builder.lstrip l = l.
Proof.
  intros H. destruct H as [|c l' Hc _]; cbn; [reflexivity|].
  now rewrite Hc.
Qed.

Lemma strip_no_space l :
  Forall (fun c => Builder.is_space c = false) l -> Builder.strip l = l.
Proof.
  intros H. unfold Builder.strip.
  rewrite (lstrip_no_space l H).
  rewrite lstrip_no_space by now apply List.Forall_rev.
  apply List.rev_involutive.
Qed.

Lemma strip_plain l : Forall plain_char l -> Builder.strip l = l.
Proof.
  intros H. apply strip_no_space.
  eapply List.Forall_impl; [|exact H]. now intros c [Hc _].
Qed.

Lemma int_of_str_pretty_N x :
  (0 < x)%N ->
  Forall plain_char (String.list_ascii_of_string (pretty_N_go x ""))
  /\ Builder.parse_digits 0 false (String.list_ascii_of_string (pretty_N_go x ""))
     = Some (Z.of_N x).
Proof.
  intros Hx. split.
  - apply pretty_go_plain. constructor.
  - destruct (parse_digits_pretty_go x "" 0 false Hx ltac:(lia)) as (k & _ & E).
    rewrite E. cbn. reflexivity.
Qed.

(** [int] reads back every ASCII numeral that [str] prints. *)
Lemma int_of_str_str z : Builder.int_of_str (str z) = Some z.
Proof.
  destruct z as [|p|p].
  - reflexivity.
  - unfold str, pretty, pretty_Z, pretty, pretty_positive, pretty, pretty_N.
    rewrite decide_False by discriminate.
    destruct (int_of_str_pretty_N (N.pos p) ltac:(lia)) as [Hplain Hparse].
    unfold Builder.int_of_str. rewrite strip_plain by exact Hplain.
    revert Hplain Hparse.
    destruct (String.list_ascii_of_string (pretty_N_go (N.pos p) "")) as [|c l];
      intros Hplain Hparse.
    + discriminate.
    + inversion Hplain as [|? ? (_ & Hm & Hp & _) _]; subst.
      cbn beta iota. rewrite Hm, Hp. exact Hparse.
  - unfold str, pretty, pretty_Z, pretty, pretty_positive, pretty, pretty_N.
    rewrite decide_False by discriminate.
    destruct (int_of_str_pretty_N (N.pos p) ltac:(lia)) as [Hplain Hparse].
    unfold Builder.int_of_str.
    change (String.list_ascii_of_string ("-" +:+ pretty_N_go (N.pos p) ""))
      with ("-"%char :: String.list_ascii_of_string (pretty_N_go (N.pos p) "")).
    rewrite strip_no_space.
    + cbn beta iota. change (Ascii.eqb "-" "-") with true. cbn beta iota.
      now rewrite Hparse.
    + constructor; [reflexivity|].
      eapply List.Forall_impl; [|exact Hplain]. now intros c [Hc _].
Qed.

(** The characters of [str z]: the digits of the absolute value, after a
    minus sign when [z] is negative. *)
Lemma str_chars z :
  Forall (fun c => is_Some (Builder.digit_value c))
    (String.list_ascii_of_string (str (Z.abs z)))
  /\ String.list_ascii_of_string (str z)
     = (if z <? 0 then ["-"%char] else [])
       ++ String.list_ascii_of_string (str (Z.abs z)).
Proof.
  assert (forall p,
             Forall (fun c => is_Some (Builder.digit_value c))
               (String.list_ascii_of_string (str (Z.pos p)))) as Hpos.
  { intros p.
    unfold str, pretty, pretty_Z, pretty, pretty_positive, pretty, pretty_N.
    rewrite decide_False by discriminate. apply pretty_go_digits. constructor. }
  destruct z as [|p|p].
  - split; [|reflexivity]. repeat constructor. now eexists.
  - split; [apply Hpos | reflexivity].
  - split; [apply Hpos | reflexivity].
Qed.

(** [str] prints the decimal numeral. *)
Lemma str_is_numeral z : Builder.is_numeral z (str z) = true.
Proof.
  destruct z as [|p|p].
  - reflexivity.
  - unfold Builder.is_numeral.
    unfold str, pretty, pretty_Z, pretty, pretty_positive, pretty, pretty_N.
    rewrite decide_False by discriminate.
    destruct (pretty_go_head (N.pos p) "" ltac:(lia)) as (c & l & E & Hc).
    pose proof (digits_value_pretty (N.pos p) ltac:(lia)) as Hval.
    pose proof (pretty_go_digits (N.pos p) "" ltac:(constructor)) as Hdig.
    rewrite E in Hval, Hdig |- *.
    inversion Hdig as [|? ? [d Hd] _]; subst.
    destruct (digit_is_plain c d Hd) as ((_ & -> & _) & _).
    rewrite Hc. cbn [negb orb andb Z.leb Z.compare].
    now rewrite bool_decide_eq_true_2.
  - unfold Builder.is_numeral.
    unfold str, pretty, pretty_Z, pretty, pretty_positive, pretty, pretty_N.
    rewrite decide_False by discriminate.
    change (String.list_ascii_of_string ("-" +:+ pretty_N_go (N.pos p) ""))
      with ("-"%char :: String.list_ascii_of_string (pretty_N_go (N.pos p) "")).
    change (Ascii.eqb "-" "-") with true. cbn beta iota.
    destruct (pretty_go_head (N.pos p) "" ltac:(lia)) as (c & l & E & Hc).
    pose proof (digits_value_pretty (N.pos p) ltac:(lia)) as Hval.
    rewrite E in Hval |- *. rewrite Hc. cbn [negb orb andb Z.ltb Z.compare].
    now rewrite bool_decide_eq_true_2.
Qed.

(** A numeral determines its number, and a number its numeral. *)
Lemma is_numeral_value z1 z2 s :
  Builder.is_numeral z1 s = true -> Builder.is_numeral z2 s = true -> z1 = z2.
Proof.
  unfold Builder.is_numeral.
  destruct (String.list_ascii_of_string s) as [|c l]; [discriminate|].
  destruct (Ascii.eqb c "-").
  - rewrite !andb_true_iff, !bool_decide_eq_true. intros [_ H1] [_ H2].
    rewrite H1 in H2. inversion H2. lia.
  - rewrite !andb_true_iff, !bool_decide_eq_true. intros [_ H1] [_ H2].
    rewrite H1 in H2. now inversion H2.
Qed.

Lemma str_is_ascii z : Builder.is_ascii (str z) = true.
Proof.
  unfold Builder.is_ascii. destruct (str_chars z) as [Hd ->].
  rewrite forallb_app. apply andb_true_iff. split.
  - now destruct (z <? 0).
  - apply forallb_forall. intros c Hc.
    rewrite List.Forall_forall in Hd. destruct (Hd c Hc) as [d Hcd].
    now apply digit_is_plain in Hcd.
Qed.

Lemma count_digits_str z : Builder.count_digits (str z) = Builder.ndigits z.
Proof.
  unfold Builder.count_digits, Builder.ndigits.
  destruct (str_chars z) as [Hd ->].
  rewrite List.filter_app, List.length_app.
  assert (forall l, Forall (fun c => is_Some (Builder.digit_value c)) l ->
                    List.filter (fun c => bool_decide (is_Some (Builder.digit_value c))) l = l)
    as Hall.
  { intros l H. induction H as [|c l Hc _ IH]; cbn; [reflexivity|].
    now rewrite bool_decide_eq_true_2, IH. }
  rewrite (Hall _ Hd).
  replace (length (String.list_ascii_of_string (str (Z.abs z))))
    with (String.length (str (Z.abs z))).
  - now destruct (z <? 0).
  - generalize (str (Z.abs z)). induction s; cbn; congruence.
Qed.

(** [int] reads back what [str] has printed under the limit. *)
Lemma int_str py z :
  Builder.over_limit py (Builder.ndigits z) = false ->
  Builder.int py (Builder.PyStr (str z)) = Ok z.
Proof.
  intros H. cbn.
  now rewrite str_is_ascii, int_of_str_str, count_digits_str, H.
Qed.

(** A number below [10^640] in absolute value is never over the limit. *)
Lemma pretty_go_length (k : nat) x s :
  Z.of_N x < 10 ^ Z.of_nat k ->
  (String.length (pretty_N_go x s) <= k + String.length s)%nat.
Proof.
  revert x s. induction k as [|k IH]; intros x s Hx.
  - assert (x = 0)%N as -> by (cbn in Hx; lia). rewrite pretty_N_go_0. lia.
  - destruct (decide (x = 0)%N) as [->|Hne].
    + rewrite pretty_N_go_0. lia.
    + rewrite pretty_N_go_step by lia.
      etransitivity; [apply IH|cbn; lia].
      rewrite N2Z.inj_div. apply Z.div_lt_upper_bound; [lia|].
      rewrite Nat2Z.inj_succ, Z.pow_succ_r in Hx by lia. exact Hx.
Qed.

Lemma small_fits py z :
  Z.abs z < 10 ^ 640 -> Builder.over_limit py (Builder.ndigits z) = false.
Proof.
  intros Hz. unfold Builder.over_limit. apply andb_false_iff. right.
  apply Nat.ltb_ge. etransitivity; [|apply Nat.le_max_l].
  unfold Builder.ndigits, str, pretty, pretty_Z.
  destruct (Z.abs z) as [|p|p] eqn:E; [cbn; lia| |lia].
  unfold pretty, pretty_positive, pretty, pretty_N.
  rewrite decide_False by discriminate.
  etransitivity; [apply (pretty_go_length 640)|cbn; lia].
  change (Z.of_nat 640) with 640. cbn [Z.of_N]. lia.
Qed.

End Numerals.

(** ** The channel seeds *)

Section ChannelClaims.
Context {L C : Type} (dep : Deps L C).
Implicit Types s : Account.State L C.

Lemma generated_keys_length seed n :
  length (generated_keys dep seed n) = Z.to_nat n.
Proof. unfold generated_keys, range. now rewrite length_fmap, length_seqZ. Qed.

Lemma generated_keys_lookup seed n (i : nat) :
  Z.of_nat i < n ->
  generated_keys dep seed n !! i
  = Some (generate_hd_seed dep seed (str (Z.of_nat i))).
Proof.
  intros Hi. unfold generated_keys, range.
  now rewrite list_lookup_fmap, lookup_seqZ_lt.
Qed.

Lemma str_inj a b : str a = str b -> a = b.
Proof. unfold str. apply (inj pretty). Qed.

(** C7. Given neither [channels] nor [channel_secret_keys], a construction
    that succeeds leaves exactly one channel seed, the seed of the base
    account, in the account and in its channel manager; and the
    construction does succeed for a well-formed seed whose account has the
    status [NOT_ACTIVATED] (without [create_channels], which is refused
    when [channels] is not given). *)
Theorem default_channel_is_base_seed seed client :
  (forall cc s s',
     Account.__init__ dep seed client None None cc s = (Ok tt, s') ->
     Account.channel_secret_keys (Account.self s') = Some [seed]
     /\ cm_channel_seeds <$> Account.channel_manager (Account.self s') = Some [seed]
     /\ cc = false)
  /\ (forall s l1,
        is_valid_secret_key dep seed = true ->
        get_account_data client (address_from_seed dep seed) (Account.ledger s)
        = (Ok (VStatus NOT_ACTIVATED), l1) ->
        exists s',
          Account.__init__ dep seed client None None false s = (Ok tt, s')
          /\ Account.channel_secret_keys (Account.self s') = Some [seed]).
Proof.
  split.
  - intros cc s s' H. apply init_ok in H as (-> & _ & _ & Hcc). cbn.
    repeat split. destruct cc; [|reflexivity].
    now destruct (Hcc eq_refl).
  - intros s l1 Hv Hg. eexists. split.
    + apply init_plain_ok; eassumption.
    + reflexivity.
Qed.

(** X26. For [channels = n] the constructor derives the channel seeds
    from the base seed and the indices alone: the list has [n] entries,
    none for [n <= 0]; the [i]-th is [generate_hd_seed(seed, str(i))],
    where [str(i)] is the decimal numeral of [i], so that the salts of
    different indices are different; two entries are equal exactly when
    the derivation gives the same seed for their two salts. A construction
    that succeeds holds exactly this list, in the object and in the
    channel manager, whatever the client, the ledger and
    [create_channels] are; and it succeeds for a well-formed seed whose
    account has the status [NOT_ACTIVATED]. *)
Theorem derived_seed_list seed n :
  let ks := generated_keys dep seed n in
  length ks = Z.to_nat n
  /\ (forall i : nat, Z.of_nat i < n ->
        ks !! i = Some (generate_hd_seed dep seed (str (Z.of_nat i)))
        /\ Builder.is_numeral (Z.of_nat i) (str (Z.of_nat i)) = true)
  /\ (forall i j : nat, str (Z.of_nat i) = str (Z.of_nat j) -> i = j)
  /\ (forall i j : nat, Z.of_nat i < n -> Z.of_nat j < n ->
        ks !! i = ks !! j
        <-> generate_hd_seed dep seed (str (Z.of_nat i))
            = generate_hd_seed dep seed (str (Z.of_nat j)))
  /\ (forall client cc s s',
        Account.__init__ dep seed client (Some n) None cc s = (Ok tt, s') ->
        Account.channel_secret_keys (Account.self s') = Some ks
        /\ cm_channel_seeds <$> Account.channel_manager (Account.self s') = Some ks)
  /\ (forall client s l1,
        is_valid_secret_key dep seed = true ->
        get_account_data client (address_from_seed dep seed) (Account.ledger s)
        = (Ok (VStatus NOT_ACTIVATED), l1) ->
        exists s',
          Account.__init__ dep seed client (Some n) None false s = (Ok tt, s')
          /\ Account.channel_secret_keys (Account.self s') = Some ks).
Proof.
  intros ks. split; [apply generated_keys_length|].
  split; [|split; [|split; [|split]]].
  - intros i Hi. split; [now apply generated_keys_lookup | apply str_is_numeral].
  - intros i j E. apply str_inj in E. lia.
  - intros i j Hi Hj. unfold ks.
    rewrite !generated_keys_lookup by assumption.
    split; [now intros [= ->] | now intros ->].
  - intros client cc s s' H. apply init_ok in H as (-> & _).
    split; reflexivity.
  - intros client s l1 Hv Hg. eexists. split.
    + apply init_plain_ok; eassumption.
    + reflexivity.
Qed.

End ChannelClaims.

(** ** The methods of the account *)

Section MethodClaims.
Context {L C : Type} (dep : Deps L C).
Implicit Types s : Account.State L C.

Lemma run_get_balances s (c : Client L) (kp : Keypair) :
  Account._client (Account.self s) = Some c ->
  Account.keypair (Account.self s) = Some kp ->
  Account.get_balances s
  = (fst (get_account_balances c (public_address kp) (Account.ledger s)),
     {| Account.self := Account.self s;
        Account.ledger :=
          snd (get_account_balances c (public_address kp) (Account.ledger s));
        Account.pool := Account.pool s;
        Account.trace :=
          Account.trace s ++ [CallGetAccountBalances (public_address kp)] |}).
Proof.
  intros Hc Hk.
  unfold Account.get_balances, Account.bind, Account.attr.
  rewrite Hc, Hk. unfold Account.call_get_account_balances.
  now destruct (get_account_balances c _ _).
Qed.

Lemma run_get_data s (c : Client L) (kp : Keypair) :
  Account._client (Account.self s) = Some c ->
  Account.keypair (Account.self s) = Some kp ->
  Account.get_data s
  = (fst (get_account_data c (public_address kp) (Account.ledger s)),
     {| Account.self := Account.self s;
        Account.ledger :=
          snd (get_account_data c (public_address kp) (Account.ledger s));
        Account.pool := Account.pool s;
        Account.trace :=
          Account.trace s ++ [CallGetAccountData (public_address kp)] |}).
Proof.
  intros Hc Hk.
  unfold Account.get_data, Account.bind, Account.attr.
  rewrite Hc, Hk. unfold Account.call_get_account_data.
  now destruct (get_account_data c _ _).
Qed.

(** C8. On an account that has its client and its keypair, [get_balances]
    and [get_data] are one query each to the client, for the public address
    of the keypair, whose answer they return as it is. The account object
    and the channel pool are the same afterwards, the trace has grown by
    that one call, a call to the client and not to the channel manager, and
    the ledger is what the client's query left. *)
Theorem balance_and_data_queries_frame s (c : Client L) (kp : Keypair) :
  Account._client (Account.self s) = Some c ->
  Account.keypair (Account.self s) = Some kp ->
  Account.get_balances s
  = (fst (get_account_balances c (public_address kp) (Account.ledger s)),
     {| Account.self := Account.self s;
        Account.ledger :=
          snd (get_account_balances c (public_address kp) (Account.ledger s));
        Account.pool := Account.pool s;
        Account.trace :=
          Account.trace s ++ [CallGetAccountBalances (public_address kp)] |})
  /\ Account.get_data s
     = (fst (get_account_data c (public_address kp) (Account.ledger s)),
        {| Account.self := Account.self s;
           Account.ledger :=
             snd (get_account_data c (public_address kp) (Account.ledger s));
           Account.pool := Account.pool s;
           Account.trace :=
             Account.trace s ++ [CallGetAccountData (public_address kp)] |})
  /\ is_client_call (CallGetAccountBalances (public_address kp)) = true
  /\ is_channel_call (CallGetAccountBalances (public_address kp)) = false
  /\ is_client_call (CallGetAccountData (public_address kp)) = true
  /\ is_channel_call (CallGetAccountData (public_address kp)) = false.
Proof.
  intros Hc Hk. split; [|split; [|repeat split]].
  - now apply run_get_balances.
  - now apply run_get_data.
Qed.

(** On an account that a construction has built, the address of the two
    queries is the one derived from the base seed. *)
Lemma built_account_queries seed client ks s :
  Account.self s = built_account dep seed client ks ->
  Account.trace (snd (Account.get_balances s))
  = Account.trace s ++ [CallGetAccountBalances (address_from_seed dep seed)]
  /\ Account.trace (snd (Account.get_data s))
     = Account.trace s ++ [CallGetAccountData (address_from_seed dep seed)].
Proof.
  intros Hs. split.
  - rewrite (run_get_balances s client (Account.Keypair_new dep seed));
      [reflexivity | now rewrite Hs..].
  - rewrite (run_get_data s client (Account.Keypair_new dep seed));
      [reflexivity | now rewrite Hs..].
Qed.

Lemma run_delegation cm fn memo s :
  Account.channel_manager (Account.self s) = Some cm ->
  Account.try_except
    (Account.bind (Account.attr Account.channel_manager "channel_manager")
       (fun cm => Account.bind (Account.call_send_transaction dep cm fn memo)
                    (fun reply => Account.subscript reply "hash")))
    (fun e => Account.raise (translate_error dep e)) s
  = (delivered dep (fst (fst (send_transaction dep cm fn memo
                            (Account.pool s) (Account.ledger s)))),
     {| Account.self := Account.self s;
        Account.ledger :=
          snd (send_transaction dep cm fn memo (Account.pool s) (Account.ledger s));
        Account.pool :=
          snd (fst (send_transaction dep cm fn memo (Account.pool s) (Account.ledger s)));
        Account.trace := Account.trace s ++ [CallSendTransaction cm fn memo] |}).
Proof.
  intros Hcm.
  unfold Account.try_except, Account.bind, Account.attr. rewrite Hcm.
  unfold Account.call_send_transaction.
  destruct (send_transaction dep cm fn memo _ _) as [[[reply|e] p1] l1]; cbn.
  - unfold Account.subscript. now destruct (reply !! "hash").
  - reflexivity.
Qed.

(** C5, as amended. [create_account] checks the address and nothing else:
    an ill-formed address raises [ValueError] with no call made and the
    state untouched; with a well-formed address the memo text goes to
    [send_transaction] as it came, whatever its length. *)
Theorem create_account_checks_address address balance memo s :
  (is_valid_address dep address = false ->
   Account.create_account dep address balance memo s
   = (Raise (ValueError ("invalid address: " +:+ address)), s))
  /\ (forall cm,
        is_valid_address dep address = true ->
        Account.channel_manager (Account.self s) = Some cm ->
        Account.trace (snd (Account.create_account dep address balance memo s))
        = Account.trace s
          ++ [CallSendTransaction cm (append_create_account_op address balance) memo]
        /\ fst (Account.create_account dep address balance memo s)
           = delivered dep (fst (fst (send_transaction dep cm
                                    (append_create_account_op address balance) memo
                                    (Account.pool s) (Account.ledger s))))).
Proof.
  split.
  - intros Hv. unfold Account.create_account.
    unfold Account.bind at 1. now rewrite Hv.
  - intros cm Hv Hcm. unfold Account.create_account.
    unfold Account.bind at 1. rewrite Hv. cbn.
    now rewrite (run_delegation cm _ memo s Hcm).
Qed.

(** The checks of [_send_asset] that stop a call before any call is made:
    the address, the sign of the amount, and the test on [amount * 1e7]. *)
Lemma send_asset_rejects asset address amount memo s :
  (is_valid_address dep address = false ->
   Account._send_asset dep asset address amount memo s
   = (Raise (ValueError ("invalid address: " +:+ address)), s))
  /\ (is_valid_address dep address = true ->
      PyNum.le_zero amount = true ->
      Account._send_asset dep asset address amount memo s
      = (Raise (ValueError "amount must be positive"), s))
  /\ (is_valid_address dep address = true ->
      PyNum.le_zero amount = false ->
      Account.too_precise amount = Ok true ->
      Account._send_asset dep asset address amount memo s
      = (Raise (ValueError "Number of digits after the decimal point in the amount exceeded the limit(7)."), s)).
Proof.
  unfold Account._send_asset. repeat split.
  - intros Hv. unfold Account.bind at 1. now rewrite Hv.
  - intros Hv Hle. unfold Account.bind at 1. rewrite Hv. cbn.
    unfold Account.bind at 1. now rewrite Hle.
  - intros Hv Hle Hp. unfold Account.bind at 1. rewrite Hv. cbn.
    unfold Account.bind at 1. rewrite Hle. cbn.
    unfold Account.bind at 1, Account.lift. rewrite Hp. reflexivity.
Qed.

(** An amount that passes the three checks is sent. *)
Lemma send_asset_delegates asset address amount memo s cm :
  is_valid_address dep address = true ->
  PyNum.le_zero amount = false ->
  Account.too_precise amount = Ok false ->
  Account.channel_manager (Account.self s) = Some cm ->
  Account.trace (snd (Account._send_asset dep asset address amount memo s))
  = Account.trace s
    ++ [CallSendTransaction cm
          (append_payment_op address amount (code asset) (issuer asset)) memo].
Proof.
  intros Hv Hle Hp Hcm. unfold Account._send_asset.
  unfold Account.bind at 1. rewrite Hv. cbn.
  unfold Account.bind at 1. rewrite Hle. cbn.
  unfold Account.bind at 1, Account.lift. rewrite Hp. cbn.
  now rewrite (run_delegation cm _ memo s Hcm).
Qed.

End MethodClaims.

(** ** The builder *)

Section BuilderClaims.
Implicit Types b : Builder.Builder.

Lemma clear_lookup_other b k :
  k ∉ Builder.assigned_by_next -> Builder.clear b !! k = b !! k.
Proof.
  intros Hk. unfold Builder.clear, Builder.assigned_by_next in *.
  repeat (rewrite lookup_insert_ne; [|intros <-; apply Hk; set_solver]).
  reflexivity.
Qed.

Lemma clear_sequence b : Builder.clear b !! "sequence" = b !! "sequence".
Proof. unfold Builder.clear. now repeat (rewrite lookup_insert_ne; [|done]). Qed.

(** C10. [next] leaves every builder cleared, whether it returns or
    raises: [ops] and [time_bounds] are empty, [memo] is a [NoneMemo],
    [fee], [tx] and [te] are [None], and every attribute other than these
    and [sequence] is as it was. On a builder whose sequence is an integer
    [n], or a string that [int] reads as [n], with [n + 1] under the limit
    on the digits that [str] prints, [next] returns normally and
    [sequence] is [str(n + 1)]: the decimal numeral of [n + 1], which
    [int] reads back as [n + 1]. *)
Theorem next_clears_and_increments py b :
  (let b' := snd (Builder.next py b) in
   b' !! "ops" = Some (Builder.PyList [])
   /\ b' !! "time_bounds" = Some (Builder.PyList [])
   /\ b' !! "memo" = Some Builder.NoneMemo
   /\ b' !! "fee" = Some Builder.PyNone
   /\ b' !! "tx" = Some Builder.PyNone
   /\ b' !! "te" = Some Builder.PyNone
   /\ forall k, k ∉ Builder.assigned_by_next -> b' !! k = b !! k)
  /\ (forall v n,
        b !! "sequence" = Some v ->
        Builder.int py v = Ok n ->
        Builder.over_limit py (Builder.ndigits (n + 1)) = false ->
        fst (Builder.next py b) = Ok tt
        /\ snd (Builder.next py b) !! "sequence" = Some (Builder.PyStr (str (n + 1)))
        /\ Builder.is_numeral (n + 1) (str (n + 1)) = true
        /\ Builder.int py (Builder.PyStr (str (n + 1))) = Ok (n + 1)).
Proof.
  assert (forall x b0,
             (b0 = Builder.clear b \/ b0 = <["sequence" := x]> (Builder.clear b)) ->
             b0 !! "ops" = Some (Builder.PyList [])
             /\ b0 !! "time_bounds" = Some (Builder.PyList [])
             /\ b0 !! "memo" = Some Builder.NoneMemo
             /\ b0 !! "fee" = Some Builder.PyNone
             /\ b0 !! "tx" = Some Builder.PyNone
             /\ b0 !! "te" = Some Builder.PyNone
             /\ forall k, k ∉ Builder.assigned_by_next -> b0 !! k = b !! k) as Hclear.
  { intros x b0 Hb0.
    assert (forall k, k ∉ Builder.assigned_by_next -> b0 !! k = b !! k) as Hother.
    { intros k Hk. destruct Hb0 as [->| ->].
      - now apply clear_lookup_other.
      - rewrite lookup_insert_ne; [now apply clear_lookup_other|].
        intros <-. apply Hk. unfold Builder.assigned_by_next. set_solver. }
    destruct Hb0 as [->| ->];
      repeat split; try exact Hother;
      unfold Builder.clear; now simplify_map_eq. }
  split.
  - cbv zeta. unfold Builder.next. rewrite clear_sequence.
    destruct (b !! "sequence") as [v|];
      [|apply (Hclear Builder.PyNone); now left].
    destruct (Builder.int py v) as [n|e];
      [|apply (Hclear Builder.PyNone); now left].
    destruct (Builder.str_limited py (n + 1)) as [s|e].
    + apply (Hclear (Builder.PyStr s)). now right.
    + apply (Hclear Builder.PyNone). now left.
  - intros v n Hs Hn Hfit. unfold Builder.next, Builder.str_limited.
    rewrite clear_sequence, Hs, Hn, Hfit. cbn [fst snd].
    split; [reflexivity|]. split; [apply lookup_insert_eq|].
    split; [apply str_is_numeral | now apply int_str].
Qed.

(** When [int] refuses the sequence, [next] raises after [clear] has run:
    the builder is cleared and its sequence is the one it had. *)
Lemma next_raises_after_clear py b v e :
  b !! "sequence" = Some v ->
  Builder.int py v = Raise e ->
  Builder.next py b = (Raise e, Builder.clear b).
Proof.
  intros Hs Hn. unfold Builder.next. now rewrite clear_sequence, Hs, Hn.
Qed.

End BuilderClaims.

(** ** The code on the small ledger *)

Lemma base_status_must_be_not_activated_witness :
  fst (Account.__init__ Demo.deps Demo.base_seed Demo.client None None false
         (Demo.start Demo.ledger2))
  = Raise AccountNotActivatedError
  /\ fst (Account.KinAccount_ Demo.deps Demo.base_seed Demo.client None None false
            (Demo.start Demo.ledger2))
     = Raise AccountNotActivatedError
  /\ Account.trace
       (snd (Account.__init__ Demo.deps Demo.base_seed Demo.client None None false
               (Demo.start Demo.ledger2)))
     = [] ++ [CallGetAccountData Demo.base_address].
Proof.
  apply (base_status_must_be_not_activated Demo.deps Demo.base_seed Demo.client
           None None false (Demo.start Demo.ledger2) (VStatus ACTIVATED) Demo.ledger2).
  - reflexivity.
  - vm_compute. reflexivity.
  - discriminate.
Defined.

(** C4, as stated, fails where an earlier check of the constructor fails:
    with both parameters and a base account that has not been created the
    error is the one of the base account, and with an ill-formed base seed
    it is the [ValueError] about the seed; in neither case is it the error
    about the two parameters. *)
Lemma both_parameters_on_absent_base :
  fst (Account.__init__ Demo.deps Demo.base_seed Demo.client (Some 2)
         (Some [Demo.channel_seed]) false (Demo.start Demo.ledger3))
  = Raise AccountNotActivatedError
  /\ ~ (exists msg,
          fst (Account.__init__ Demo.deps Demo.base_seed Demo.client (Some 2)
                 (Some [Demo.channel_seed]) false (Demo.start Demo.ledger3))
          = Raise (ValueError msg))
  /\ fst (Account.__init__ Demo.deps "bad seed" Demo.client (Some 2)
            (Some [Demo.channel_seed]) false (Demo.start Demo.ledger0))
     = Raise (ValueError "invalid secret key: bad seed")
  /\ fst (Account.__init__ Demo.deps "bad seed" Demo.client (Some 2)
            (Some [Demo.channel_seed]) false (Demo.start Demo.ledger0))
     <> Raise (ValueError both_message).
Proof.
  assert (fst (Account.__init__ Demo.deps Demo.base_seed Demo.client (Some 2)
                 (Some [Demo.channel_seed]) false (Demo.start Demo.ledger3))
          = Raise AccountNotActivatedError) as E.
  { vm_compute. reflexivity. }
  assert (fst (Account.__init__ Demo.deps "bad seed" Demo.client (Some 2)
                 (Some [Demo.channel_seed]) false (Demo.start Demo.ledger0))
          = Raise (ValueError "invalid secret key: bad seed")) as E'.
  { vm_compute. reflexivity. }
  split; [exact E|]. split; [intros [msg H]; rewrite E in H; discriminate|].
  split; [exact E'|]. rewrite E'. discriminate.
Qed.

Lemma both_channel_parameters_rejected_witness :
  Account.__init__ Demo.deps Demo.base_seed Demo.client (Some 2)
    (Some [Demo.channel_seed]) false (Demo.start Demo.ledger0)
  = (Raise (ValueError both_message),
     after_base_check Demo.deps Demo.base_seed Demo.client Demo.ledger0
       (Demo.start Demo.ledger0)).
Proof.
  rewrite (proj1 (proj2 (proj2 (both_channel_parameters_rejected Demo.deps Demo.base_seed
                                  Demo.client 2 [Demo.channel_seed] false
                                  (Demo.start Demo.ledger0))))).
  - vm_compute. reflexivity.
  - vm_compute. reflexivity.
Defined.

Lemma present_channel_reported_not_found_witness :
  fst (Account.__init__ Demo.deps Demo.base_seed Demo.client None
         (Some [Demo.channel_seed]) false (Demo.start Demo.ledger1))
  = Raise AccountNotFoundError
  /\ fst (Account.__init__ Demo.deps Demo.base_seed Demo.client None
            (Some [Demo.channel_seed]) false (Demo.start Demo.ledger1))
     <> Raise AccountExistsError
  /\ Account.trace
       (snd (Account.__init__ Demo.deps Demo.base_seed Demo.client None
               (Some [Demo.channel_seed]) false (Demo.start Demo.ledger1)))
     = [] ++ [CallGetAccountData Demo.base_address;
              CallGetAccountData Demo.channel_address].
Proof.
  apply (present_channel_reported_not_found Demo.deps Demo.base_seed Demo.client
           Demo.channel_seed [] false (Demo.start Demo.ledger1)
           Demo.ledger1 (VStatus ACTIVATED) Demo.ledger1).
  - reflexivity.
  - vm_compute. reflexivity.
  - reflexivity.
  - vm_compute. reflexivity.
  - discriminate.
Defined.

Lemma default_channel_is_base_seed_witness :
  exists s',
    Account.__init__ Demo.deps Demo.base_seed Demo.client None None false
      (Demo.start Demo.ledger0) = (Ok tt, s')
    /\ Account.channel_secret_keys (Account.self s') = Some [Demo.base_seed].
Proof.
  apply (proj2 (default_channel_is_base_seed Demo.deps Demo.base_seed Demo.client)
           (Demo.start Demo.ledger0) Demo.ledger0).
  - reflexivity.
  - vm_compute. reflexivity.
Defined.

Lemma derived_seed_list_witness :
  let ks := generated_keys Demo.deps Demo.base_seed 3 in
  length ks = 3%nat
  /\ ks = ["SBASE0"; "SBASE1"; "SBASE2"]
  /\ exists s',
       Account.__init__ Demo.deps Demo.base_seed Demo.client (Some 3) None false
         (Demo.start Demo.ledger0) = (Ok tt, s')
       /\ Account.channel_secret_keys (Account.self s') = Some ks.
Proof.
  destruct (derived_seed_list Demo.deps Demo.base_seed 3)
    as (Hlen & _ & _ & _ & _ & Hok).
  cbv zeta. split; [exact Hlen|]. split; [vm_compute; reflexivity|].
  apply (Hok Demo.client (Demo.start Demo.ledger0) Demo.ledger0).
  - reflexivity.
  - vm_compute. reflexivity.
Defined.

Lemma balance_and_data_queries_frame_witness :
  Account.get_balances (Demo.ready Demo.ledger0)
  = (Ok {[ "XLM" := PyNum.PInt 100; "KIN" := PyNum.PInt 0 ]},
     {| Account.self := Demo.account0; Account.ledger := Demo.ledger0;
        Account.pool := 0%nat;
        Account.trace := [CallGetAccountBalances Demo.base_address] |})
  /\ Account.get_data (Demo.ready Demo.ledger0)
     = (Ok (VStatus NOT_ACTIVATED),
        {| Account.self := Demo.account0; Account.ledger := Demo.ledger0;
           Account.pool := 0%nat;
           Account.trace := [CallGetAccountData Demo.base_address] |}).
Proof.
  destruct (balance_and_data_queries_frame (Demo.ready Demo.ledger0) Demo.client
              {| secret_seed := Demo.base_seed; public_address := Demo.base_address |})
    as (Hb & Hd & _).
  - reflexivity.
  - reflexivity.
  - split; [rewrite Hb | rewrite Hd]; vm_compute; reflexivity.
Defined.

(** C5, as stated, fails on a memo of fifty characters: the call reaches
    the channel manager with the memo as it is, and the error that comes
    back is the channel manager's. *)
Lemma create_account_sends_long_memo :
  (28 < String.length Demo.memo50)%nat
  /\ is_valid_address Demo.deps "GNEW" = true
  /\ Account.create_account Demo.deps "GNEW" (PyNum.PInt 0) (Some Demo.memo50)
       (Demo.ready Demo.ledger0)
     = (Raise (ForeignError "memo too long"),
        {| Account.self := Demo.account0; Account.ledger := Demo.ledger0;
           Account.pool := 0%nat;
           Account.trace :=
             [CallSendTransaction Demo.manager0
                (append_create_account_op "GNEW" (PyNum.PInt 0))
                (Some Demo.memo50)] |})
  /\ ~ (exists msg,
          Account.create_account Demo.deps "GNEW" (PyNum.PInt 0) (Some Demo.memo50)
            (Demo.ready Demo.ledger0)
          = (Raise (ValueError msg), Demo.ready Demo.ledger0)).
Proof.
  assert (Account.create_account Demo.deps "GNEW" (PyNum.PInt 0) (Some Demo.memo50)
            (Demo.ready Demo.ledger0)
          = (Raise (ForeignError "memo too long"),
             {| Account.self := Demo.account0; Account.ledger := Demo.ledger0;
                Account.pool := 0%nat;
                Account.trace :=
                  [CallSendTransaction Demo.manager0
                     (append_create_account_op "GNEW" (PyNum.PInt 0))
                     (Some Demo.memo50)] |})) as E.
  { vm_compute. reflexivity. }
  split; [vm_compute; lia|]. split; [reflexivity|]. split; [exact E|].
  intros [msg H]. rewrite E in H. discriminate.
Qed.

Lemma create_account_checks_address_witness :
  Account.create_account Demo.deps "bad address" (PyNum.PInt 0) (Some Demo.memo50)
    (Demo.ready Demo.ledger0)
  = (Raise (ValueError "invalid address: bad address"), Demo.ready Demo.ledger0).
Proof.
  apply (proj1 (create_account_checks_address Demo.deps "bad address" (PyNum.PInt 0)
                  (Some Demo.memo50) (Demo.ready Demo.ledger0))).
  reflexivity.
Defined.

Lemma next_clears_and_increments_witness :
  fst (Builder.next Demo.python Demo.builder0) = Ok tt
  /\ snd (Builder.next Demo.python Demo.builder0) !! "sequence"
     = Some (Builder.PyStr "42")
  /\ Builder.is_numeral 42 "42" = true
  /\ Builder.int Demo.python (Builder.PyStr "42") = Ok 42.
Proof.
  destruct (proj2 (next_clears_and_increments Demo.python Demo.builder0)
              (Builder.PyStr "41") 41) as (H1 & H2 & H3 & H4).
  - vm_compute. reflexivity.
  - vm_compute. reflexivity.
  - vm_compute. reflexivity.
  - split; [exact H1|]. split; [rewrite H2; vm_compute; reflexivity|].
    split; [exact H3 | exact H4].
Defined.

(** The double [5e8 + 2^-24], printed [500000000.00000006] by Python, needs
    more than seven decimal digits however that is read: its exact value
    is not a multiple of [10^-7], and it lies strictly between the doubles
    of the two neighbouring decimals of seven digits,
    [500000000.0000000] and [500000000.0000001]. *)
Lemma amount_big_needs_eight_decimals :
  Demo.amount_big = PyNum.PFloat (S754_finite false 8388608000000001 (-24))
  /\ valid_binary PyNum.prec PyNum.emax (S754_finite false 8388608000000001 (-24)) = true
  /\ PyNum.le_zero Demo.amount_big = false
  /\ PyNum.seven_decimals_exact (S754_finite false 8388608000000001 (-24)) = false
  /\ SFltb (PyNum.literal 5000000000000000 7)
       (S754_finite false 8388608000000001 (-24)) = true
  /\ SFltb (S754_finite false 8388608000000001 (-24))
       (PyNum.literal 5000000000000001 7) = true.
Proof. repeat split; vm_compute; reflexivity. Qed.

(** C2, at the failing input. [send_kin] with a well-formed address and the
    amount [500000000.00000006] passes the three checks: the call reaches
    [send_transaction] with that amount, and the hash comes back. *)
Theorem send_kin_sends_eight_decimals :
  Account.send_kin Demo.deps Demo.recipient Demo.amount_big None
    (Demo.ready Demo.ledger0)
  = (Ok "tx0"%string,
     {| Account.self := Demo.account0; Account.ledger := Demo.ledger0;
        Account.pool := 1%nat;
        Account.trace :=
          [CallSendTransaction Demo.manager0
             (append_payment_op Demo.recipient Demo.amount_big "KIN" (Some "GISSUER"))
             None] |})
  /\ PyNum.seven_decimals_exact (S754_finite false 8388608000000001 (-24)) = false.
Proof. split; vm_compute; reflexivity. Qed.

(** The amount [1.1234567898765] of the specification is stopped by the
    check, with no call made. *)
Lemma long_amount_rejected :
  Account.too_precise Demo.amount_long = Ok true
  /\ Account.send_kin Demo.deps Demo.recipient Demo.amount_long None
       (Demo.ready Demo.ledger0)
     = (Raise (ValueError "Number of digits after the decimal point in the amount exceeded the limit(7)."),
        Demo.ready Demo.ledger0).
Proof. split; vm_compute; reflexivity. Qed.

(** C3, at the failing inputs. The check [amount * 1e7 % 1 != 0] is made
    on doubles. For [0.07], two decimal digits, the product rounds to
    [700000.0000000001] and the check raises; for [500000000.00000006] the
    product rounds to the integer [5000000000000001] and the check lets it
    through. *)
Theorem precision_check_misjudges :
  Demo.amount_0_07 = PyNum.PFloat (PyNum.literal 7 2)
  /\ PyNum.mul_float Demo.amount_0_07 Account.f_1e7
     = Ok (S754_finite false 6012954214400001 (-33))
  /\ Account.too_precise Demo.amount_0_07 = Ok true
  /\ Account.send_xlm Demo.deps Demo.recipient Demo.amount_0_07 None
       (Demo.ready Demo.ledger0)
     = (Raise (ValueError "Number of digits after the decimal point in the amount exceeded the limit(7)."),
        Demo.ready Demo.ledger0)
  /\ PyNum.mul_float Demo.amount_big Account.f_1e7
     = Ok (PyNum.round_Z 5000000000000001)
  /\ Account.too_precise Demo.amount_big = Ok false
  /\ PyNum.seven_decimals_exact (S754_finite false 8388608000000001 (-24)) = false.
Proof. repeat split; vm_compute; reflexivity. Qed.

(** The check does what its message says on whole amounts and on halves. *)
Example precision_check_examples :
  Account.too_precise (PyNum.PInt 10) = Ok false
  /\ Account.too_precise (PyNum.PFloat (PyNum.literal 5 1)) = Ok false
  /\ Account.too_precise (PyNum.PFloat (PyNum.literal 1 1)) = Ok false
  /\ Account.too_precise (PyNum.PFloat (PyNum.literal 1 8)) = Ok true
  /\ Account.too_precise (PyNum.PFloat S754_nan) = Ok true
  /\ Account.too_precise (PyNum.PFloat (S754_infinity false)) = Ok true.
Proof. repeat split; vm_compute; reflexivity. Qed.

(** ** More on the constructor *)

(** Simplification that leaves the calls of the block that creates the
    channels folded. *)
Ltac block_cbn :=
  cbn -[Account.needed_balance Account.get_balances Account.create_account
        Account.KinAccount_inner PyNum.float_gt range].

(** From [__init__] with [create_channels], past the checks of the base
    account, to the construction of the base account object. *)
Ltac enter_block dep seed n Hv Hne :=
  unfold Account.__init__, Account.init_body;
  unfold Account.bind at 1; cbn; rewrite Hv; cbn;
  run_client; unfold Account.bind at 1; cbn;
  rewrite bool_decide_eq_false_2 by (let H := fresh in intros H; now apply H);
  block_cbn;
  unfold Account.bind at 1; unfold Account.bind at 1; block_cbn;
  change ((fun channel => generate_hd_seed dep seed (str channel)) <$> range n)
    with (generated_keys dep seed n);
  rewrite bool_decide_eq_false_2 by exact Hne;
  block_cbn.

Section ConstructorMore.
Context {L C : Type} (dep : Deps L C).
Implicit Types s : Account.State L C.

Lemma logged_nil s : logged [] (Account.ledger s) s = s.
Proof. unfold logged. rewrite app_nil_r. now destruct s. Qed.

Lemma logged_logged ev1 ev2 l1 l2 s :
  logged ev2 l2 (logged ev1 l1 s) = logged (ev1 ++ ev2) l2 s.
Proof. unfold logged. cbn. now rewrite app_assoc. Qed.

Lemma channel_check_ok client st key s :
  answers_from client st (Account.ledger s) ->
  Account._client (Account.self s) = Some client ->
  channel_ok dep st key ->
  channel_check dep key s
  = (Ok tt, logged [CallGetAccountData (address_from_seed dep key)]
              (Account.ledger s) s).
Proof.
  intros Ha Hc [Hv Hst]. unfold channel_check.
  unfold Account.bind at 1. rewrite Hv. cbn.
  unfold Account.bind at 1, Account.attr. rewrite Hc.
  erewrite run_bind_ok by (apply run_get_account_data; apply Ha).
  now rewrite Hst.
Qed.

Lemma channel_check_invalid key s :
  is_valid_secret_key dep key = false ->
  channel_check dep key s
  = (Raise (ValueError ("invalid channel key: " +:+ key)), s).
Proof.
  intros Hv. unfold channel_check. unfold Account.bind at 1. now rewrite Hv.
Qed.

Lemma channel_check_present client st key s :
  answers_from client st (Account.ledger s) ->
  Account._client (Account.self s) = Some client ->
  is_valid_secret_key dep key = true ->
  st (address_from_seed dep key) <> NOT_CREATED ->
  channel_check dep key s
  = (Raise AccountNotFoundError,
     logged [CallGetAccountData (address_from_seed dep key)] (Account.ledger s) s).
Proof.
  intros Ha Hc Hv Hst. unfold channel_check.
  unfold Account.bind at 1. rewrite Hv. cbn.
  unfold Account.bind at 1, Account.attr. rewrite Hc.
  erewrite run_bind_ok by (apply run_get_account_data; apply Ha).
  cbn. rewrite bool_decide_eq_true_2; [reflexivity|]. congruence.
Qed.

Lemma channel_loop_ok client st keys s :
  answers_from client st (Account.ledger s) ->
  Account._client (Account.self s) = Some client ->
  Forall (channel_ok dep st) keys ->
  Account.for_each keys (channel_check dep) s
  = (Ok tt, logged (channel_queries dep keys) (Account.ledger s) s).
Proof.
  intros Ha Hc Hok. revert s Ha Hc.
  induction Hok as [|key keys Hk _ IH]; intros s Ha Hc.
  - cbn. now rewrite logged_nil.
  - change (Account.for_each (key :: keys) (channel_check dep))
      with (Account.bind (channel_check dep key)
              (fun _ => Account.for_each keys (channel_check dep))).
    erewrite run_bind_ok by (eapply channel_check_ok; eassumption).
    rewrite IH by assumption. cbn [Account.ledger logged].
    now rewrite logged_logged.
Qed.

(** The loop stops at the first seed it refuses. *)
Lemma channel_loop_stops client st good bad rest s e
    (after : Account.State L C -> Account.State L C) :
  answers_from client st (Account.ledger s) ->
  Account._client (Account.self s) = Some client ->
  Forall (channel_ok dep st) good ->
  (forall s0, Account.ledger s0 = Account.ledger s ->
              Account._client (Account.self s0) = Some client ->
              channel_check dep bad s0 = (Raise e, after s0)) ->
  Account.for_each (good ++ bad :: rest) (channel_check dep) s
  = (Raise e, after (logged (channel_queries dep good) (Account.ledger s) s)).
Proof.
  intros Ha Hc Hok Hbad. revert s Ha Hc Hbad.
  induction Hok as [|key keys Hk _ IH]; intros s Ha Hc Hbad.
  - cbn [app channel_queries fmap list_fmap]. rewrite logged_nil.
    change (Account.for_each (bad :: rest) (channel_check dep))
      with (Account.bind (channel_check dep bad)
              (fun _ => Account.for_each rest (channel_check dep))).
    erewrite run_bind_raise by (apply Hbad; [reflexivity|assumption]).
    reflexivity.
  - change (Account.for_each ((key :: keys) ++ bad :: rest) (channel_check dep))
      with (Account.bind (channel_check dep key)
              (fun _ => Account.for_each (keys ++ bad :: rest) (channel_check dep))).
    erewrite run_bind_ok by (eapply channel_check_ok; eassumption).
    rewrite IH; [|assumption..|].
    + cbn [Account.ledger logged]. now rewrite logged_logged.
    + intros s0 Hl0 Hc0. apply Hbad; [|assumption]. now rewrite Hl0.
Qed.

(** A loop that comes through has checked every seed. *)
Lemma channel_loop_inv client st keys s s' :
  answers_from client st (Account.ledger s) ->
  Account._client (Account.self s) = Some client ->
  Account.for_each keys (channel_check dep) s = (Ok tt, s') ->
  Forall (channel_ok dep st) keys.
Proof.
  intros Ha Hc. revert s Ha Hc.
  induction keys as [|key keys IH]; intros s Ha Hc H; [constructor|].
  change (Account.for_each (key :: keys) (channel_check dep))
    with (Account.bind (channel_check dep key)
            (fun _ => Account.for_each keys (channel_check dep))) in H.
  apply bind_ok_inv in H as ([] & s1 & Hk & H).
  destruct (is_valid_secret_key dep key) eqn:Hv;
    [|rewrite channel_check_invalid in Hk by assumption; discriminate].
  destruct (decide (st (address_from_seed dep key) = NOT_CREATED)) as [Hst|Hst];
    [|erewrite channel_check_present in Hk by eassumption; discriminate].
  assert (channel_ok dep st key) as Hok by (split; assumption).
  erewrite channel_check_ok in Hk by eassumption.
  inversion Hk; subst s1; clear Hk.
  constructor; [assumption|]. eapply IH; [| |exact H]; assumption.
Qed.


Lemma explicit_run seed client st keys s :
  answers_from client st (Account.ledger s) ->
  is_valid_secret_key dep seed = true ->
  st (address_from_seed dep seed) = NOT_ACTIVATED ->
  Forall (channel_ok dep st) keys ->
  Account.__init__ dep seed client None (Some keys) false s
  = (Ok tt,
     constructed dep seed client keys (Account.ledger s)
       (CallGetAccountData (address_from_seed dep seed) :: channel_queries dep keys) s).
Proof.
  intros Ha Hv Hst Hok.
  pose proof (Ha (address_from_seed dep seed)) as Hg. rewrite Hst in Hg.
  unfold Account.__init__, Account.init_body.
  unfold Account.bind at 1. cbn. rewrite Hv. cbn.
  run_client. unfold Account.bind at 1. cbn.
  rewrite bool_decide_eq_false_2 by (intros H; now apply H). cbn.
  erewrite (run_bind_ok (Account.bind (Account.for_each keys _) _)).
  2: { erewrite run_bind_ok
         by (apply (channel_loop_ok client st); [exact Ha | reflexivity | exact Hok]).
       reflexivity. }
  cbn. unfold constructed. now rewrite <- app_assoc.
Qed.

Lemma explicit_inv seed client st keys channels cc s s' :
  answers_from client st (Account.ledger s) ->
  Account.__init__ dep seed client channels (Some keys) cc s = (Ok tt, s') ->
  st (address_from_seed dep seed) = NOT_ACTIVATED
  /\ Forall (channel_ok dep st) keys.
Proof.
  intros Ha H.
  pose proof (Ha (address_from_seed dep seed)) as Hg.
  unfold Account.__init__, Account.init_body in H.
  unfold Account.bind at 1 in H. cbn in H.
  destruct (is_valid_secret_key dep seed) eqn:Hv; cbn in H; [|discriminate].
  erewrite run_bind_ok in H by (apply run_get_account_data; cbn; exact Hg).
  apply bind_ok_inv in H as ([] & s2 & Hst & H).
  apply raise_if_ok_inv in Hst as [Hst ->].
  apply bool_decide_eq_false in Hst.
  assert (st (address_from_seed dep seed) = NOT_ACTIVATED) as Hbase.
  { destruct (decide (st (address_from_seed dep seed) = NOT_ACTIVATED));
      [assumption|]. exfalso. apply Hst. congruence. }
  split; [exact Hbase|].
  apply bind_ok_inv in H as ([] & s3 & Hboth & H).
  apply raise_if_ok_inv in Hboth as [_ ->].
  apply bind_ok_inv in H as ([] & s4 & H & _).
  apply bind_ok_inv in H as ([] & s5 & H & _).
  eapply (channel_loop_inv client st); [| |exact H]; [exact Ha | reflexivity].
Qed.


(** The construction [__init__] asks for, with [create_channels] false. *)
Lemma inner_run seed client s l1 :
  is_valid_secret_key dep seed = true ->
  get_account_data client (address_from_seed dep seed) (Account.ledger s)
  = (Ok (VStatus NOT_ACTIVATED), l1) ->
  Account.KinAccount_inner dep seed client None None false s
  = (Ok (built_account dep seed client [seed]),
     logged [CallGetAccountData (address_from_seed dep seed)] l1 s).
Proof.
  intros Hv Hg. unfold Account.KinAccount_inner, Account.construct.
  change (Account.init_body dep _ seed client None None false)
    with (Account.__init__ dep seed client None None false).
  now erewrite init_plain_ok by (cbn; eassumption).
Qed.

Lemma on_base_balances seed client ks s :
  Account.on_object (built_account dep seed client ks) Account.get_balances s
  = (fst (get_account_balances client (address_from_seed dep seed) (Account.ledger s)),
     logged [CallGetAccountBalances (address_from_seed dep seed)]
       (snd (get_account_balances client (address_from_seed dep seed) (Account.ledger s)))
       s).
Proof.
  unfold Account.on_object.
  now erewrite (run_get_balances _ client (Account.Keypair_new dep seed)).
Qed.

(** X1. With [create_channels], a base account whose XLM balance is below
    [(number of channels + 1) * (MIN_ACCOUNT_BALANCE + 0.00001)] stops the
    construction with [LowBalanceError]: the client has been asked for the
    base account twice and for its balances once, and no transaction has
    been submitted. *)
Theorem create_channels_low_balance seed client st n s bal needed xlm :
  answers_from client st (Account.ledger s) ->
  is_valid_secret_key dep seed = true ->
  st (address_from_seed dep seed) = NOT_ACTIVATED ->
  generated_keys dep seed n <> [seed] ->
  Account.needed_balance dep (generated_keys dep seed n) = Ok needed ->
  get_account_balances client (address_from_seed dep seed) (Account.ledger s)
  = (Ok bal, Account.ledger s) ->
  bal !! "XLM" = Some xlm ->
  PyNum.float_gt needed xlm = true ->
  Account.__init__ dep seed client (Some n) None true s
  = (Raise (LowBalanceError "The base account does not have enough XLM to create the channels"),
     logged [CallGetAccountData (address_from_seed dep seed);
             CallGetAccountBalances (address_from_seed dep seed)]
       (Account.ledger s)
       (after_keys dep seed client (generated_keys dep seed n) (Account.ledger s)
          [CallGetAccountData (address_from_seed dep seed)] s)).
Proof.
  intros Ha Hv Hst Hne Hneed Hbal Hxlm Hgt.
  pose proof (Ha (address_from_seed dep seed)) as Hg. rewrite Hst in Hg.
  enter_block dep seed n Hv Hne.
  erewrite run_bind_ok by (apply inner_run; [exact Hv | cbn; exact Hg]).
  block_cbn. unfold Account.bind at 1, Account.lift. rewrite Hneed.
  unfold Account.bind at 1. rewrite on_base_balances. block_cbn.
  rewrite Hbal. block_cbn.
  unfold Account.bind at 1, Account.subscript. rewrite Hxlm. block_cbn.
  unfold Account.bind at 1. rewrite Hgt. block_cbn.
  unfold logged, after_keys. cbn. now rewrite <- app_assoc.
Qed.


Lemma on_base_create seed client channel balance memo s :
  is_valid_address dep channel = true ->
  Account.on_object (built_account dep seed client [seed])
    (Account.create_account dep channel balance memo) s
  = (delivered dep
       (fst (fst (send_transaction dep (manager_of dep seed client [seed])
                    (append_create_account_op channel balance) memo
                    (Account.pool s) (Account.ledger s)))),
     {| Account.self := Account.self s;
        Account.ledger :=
          snd (send_transaction dep (manager_of dep seed client [seed])
                 (append_create_account_op channel balance) memo
                 (Account.pool s) (Account.ledger s));
        Account.pool :=
          snd (fst (send_transaction dep (manager_of dep seed client [seed])
                      (append_create_account_op channel balance) memo
                      (Account.pool s) (Account.ledger s)));
        Account.trace :=
          Account.trace s
          ++ [CallSendTransaction (manager_of dep seed client [seed])
                (append_create_account_op channel balance) memo] |}).
Proof.
  intros Hv. unfold Account.on_object, Account.create_account.
  unfold Account.bind at 1. rewrite Hv. cbn [Account.raise_if negb Account.ret].
  now rewrite (run_delegation dep (manager_of dep seed client [seed])).
Qed.

Lemma on_base_create_invalid seed client channel balance memo s :
  is_valid_address dep channel = false ->
  Account.on_object (built_account dep seed client [seed])
    (Account.create_account dep channel balance memo) s
  = (Raise (ValueError ("invalid address: " +:+ channel)), s).
Proof.
  intros Hv. unfold Account.on_object, Account.create_account.
  unfold Account.bind at 1. rewrite Hv. cbn. now destruct s.
Qed.

Lemma create_loop_ok seed client ks s :
  creates_or_exists dep ->
  Forall (fun k => is_valid_address dep k = true) ks ->
  exists p1 l1,
    Account.for_each ks (create_channel dep (built_account dep seed client [seed])) s
    = (Ok tt,
       {| Account.self := Account.self s; Account.ledger := l1;
          Account.pool := p1;
          Account.trace := Account.trace s ++ (creation dep seed client <$> ks) |}).
Proof.
  intros Hsend Hok. revert s.
  induction Hok as [|k ks Hk _ IH]; intros s.
  - exists (Account.pool s), (Account.ledger s). cbn.
    rewrite app_nil_r. now destruct s.
  - change (Account.for_each (k :: ks) ?f)
      with (Account.bind (f k) (fun _ => Account.for_each ks f)).
    assert (exists p1 l1,
               create_channel dep (built_account dep seed client [seed]) k s
               = (Ok tt,
                  {| Account.self := Account.self s; Account.ledger := l1;
                     Account.pool := p1;
                     Account.trace := Account.trace s ++ [creation dep seed client k] |}))
      as (p1 & l1 & Ek).
    { unfold create_channel, Account.try_except, Account.bind.
      rewrite on_base_create by exact Hk.
      specialize (Hsend (manager_of dep seed client [seed]) k
                    (MIN_ACCOUNT_BALANCE dep) (Account.pool s) (Account.ledger s)).
      destruct (send_transaction dep _ _ None _ _) as [[[reply|e] p1] l1]; cbn.
      - destruct Hsend as [h Hh]. rewrite Hh. now exists p1, l1.
      - rewrite Hsend. cbn. now exists p1, l1. }
    erewrite run_bind_ok by exact Ek.
    destruct (IH {| Account.self := Account.self s; Account.ledger := l1;
                    Account.pool := p1;
                    Account.trace := Account.trace s ++ [creation dep seed client k] |})
      as (p2 & l2 & E2).
    rewrite E2. exists p2, l2. cbn. now rewrite <- app_assoc.
Qed.


(** X2. With [create_channels], balances without an ["XLM"] entry stop
    the construction with the [KeyError] of the dictionary, as it is. *)
Theorem create_channels_missing_xlm seed client st n s bal needed :
  answers_from client st (Account.ledger s) ->
  is_valid_secret_key dep seed = true ->
  st (address_from_seed dep seed) = NOT_ACTIVATED ->
  generated_keys dep seed n <> [seed] ->
  Account.needed_balance dep (generated_keys dep seed n) = Ok needed ->
  get_account_balances client (address_from_seed dep seed) (Account.ledger s)
  = (Ok bal, Account.ledger s) ->
  bal !! "XLM" = None ->
  Account.__init__ dep seed client (Some n) None true s
  = (Raise (KeyError "XLM"),
     logged [CallGetAccountData (address_from_seed dep seed);
             CallGetAccountBalances (address_from_seed dep seed)]
       (Account.ledger s)
       (after_keys dep seed client (generated_keys dep seed n) (Account.ledger s)
          [CallGetAccountData (address_from_seed dep seed)] s)).
Proof.
  intros Ha Hv Hst Hne Hneed Hbal Hxlm.
  pose proof (Ha (address_from_seed dep seed)) as Hg. rewrite Hst in Hg.
  enter_block dep seed n Hv Hne.
  erewrite run_bind_ok by (apply inner_run; [exact Hv | cbn; exact Hg]).
  block_cbn. unfold Account.bind at 1, Account.lift. rewrite Hneed.
  unfold Account.bind at 1. rewrite on_base_balances. block_cbn.
  rewrite Hbal. block_cbn.
  unfold Account.bind at 1, Account.subscript. rewrite Hxlm. block_cbn.
  unfold logged, after_keys. cbn. now rewrite <- app_assoc.
Qed.

(** X3. With [create_channels] the loop hands each channel seed itself
    to [create_account], whose first step is the check of the address: when
    the first derived seed is no well-formed address, the construction
    stops with [ValueError] on that seed, and no transaction has been
    submitted. *)
Theorem create_channels_passes_seeds seed client st n s bal needed xlm key keys :
  answers_from client st (Account.ledger s) ->
  is_valid_secret_key dep seed = true ->
  st (address_from_seed dep seed) = NOT_ACTIVATED ->
  generated_keys dep seed n = key :: keys ->
  key :: keys <> [seed] ->
  Account.needed_balance dep (key :: keys) = Ok needed ->
  get_account_balances client (address_from_seed dep seed) (Account.ledger s)
  = (Ok bal, Account.ledger s) ->
  bal !! "XLM" = Some xlm ->
  PyNum.float_gt needed xlm = false ->
  is_valid_address dep key = false ->
  Account.__init__ dep seed client (Some n) None true s
  = (Raise (ValueError ("invalid address: " +:+ key)),
     logged [CallGetAccountData (address_from_seed dep seed);
             CallGetAccountBalances (address_from_seed dep seed)]
       (Account.ledger s)
       (after_keys dep seed client (key :: keys) (Account.ledger s)
          [CallGetAccountData (address_from_seed dep seed)] s)).
Proof.
  intros Ha Hv Hst Hgen Hne Hneed Hbal Hxlm Hgt Hkey.
  pose proof (Ha (address_from_seed dep seed)) as Hg. rewrite Hst in Hg.
  rewrite <- Hgen in Hne, Hneed.
  enter_block dep seed n Hv Hne.
  erewrite run_bind_ok by (apply inner_run; [exact Hv | cbn; exact Hg]).
  block_cbn. unfold Account.bind at 1, Account.lift. rewrite Hneed.
  unfold Account.bind at 1. rewrite on_base_balances. block_cbn.
  rewrite Hbal. block_cbn.
  unfold Account.bind at 1, Account.subscript. rewrite Hxlm. block_cbn.
  unfold Account.bind at 1. rewrite Hgt. block_cbn.
  rewrite Hgen.
  change (Account.for_each (key :: keys) ?f)
    with (Account.bind (f key) (fun _ => Account.for_each keys f)).
  unfold Account.bind at 1, Account.try_except, Account.bind at 1.
  rewrite on_base_create_invalid by exact Hkey.
  block_cbn. unfold logged, after_keys. cbn. now rewrite <- app_assoc.
Qed.


(** X4. The loop that creates the channels hands each derived seed itself
    to [create_account] as the destination, so it gets past the first seed
    only when the seeds pass the check of the address (X3 is the other
    case). With [create_channels], enough XLM, derived seeds that all pass
    [is_valid_address], and a [send_transaction] that creates the account
    or reports that it exists, the construction succeeds: one
    create-account transaction per derived seed has been submitted, in the
    order of the seeds, through the channel manager of the base account
    alone, with [MIN_ACCOUNT_BALANCE] and no memo; accounts that exist
    already are passed over. With no seed at all ([channels = 0]) nothing
    is submitted. *)
Theorem create_channels_submits_each seed client st n s bal needed xlm :
  answers_from client st (Account.ledger s) ->
  is_valid_secret_key dep seed = true ->
  st (address_from_seed dep seed) = NOT_ACTIVATED ->
  generated_keys dep seed n <> [seed] ->
  Account.needed_balance dep (generated_keys dep seed n) = Ok needed ->
  get_account_balances client (address_from_seed dep seed) (Account.ledger s)
  = (Ok bal, Account.ledger s) ->
  bal !! "XLM" = Some xlm ->
  PyNum.float_gt needed xlm = false ->
  creates_or_exists dep ->
  Forall (fun k => is_valid_address dep k = true) (generated_keys dep seed n) ->
  exists p1 l1,
    Account.__init__ dep seed client (Some n) None true s
    = (Ok tt,
       {| Account.self := built_account dep seed client (generated_keys dep seed n);
          Account.ledger := l1;
          Account.pool := p1;
          Account.trace :=
            Account.trace s
            ++ [CallGetAccountData (address_from_seed dep seed);
                CallGetAccountData (address_from_seed dep seed);
                CallGetAccountBalances (address_from_seed dep seed)]
            ++ (creation dep seed client <$> generated_keys dep seed n) |}).
Proof.
  intros Ha Hv Hst Hne Hneed Hbal Hxlm Hgt Hsend Haddr.
  pose proof (Ha (address_from_seed dep seed)) as Hg. rewrite Hst in Hg.
  enter_block dep seed n Hv Hne.
  erewrite run_bind_ok by (apply inner_run; [exact Hv | cbn; exact Hg]).
  block_cbn. unfold Account.bind at 1, Account.lift. rewrite Hneed.
  unfold Account.bind at 1. rewrite on_base_balances. block_cbn.
  rewrite Hbal. block_cbn.
  unfold Account.bind at 1, Account.subscript. rewrite Hxlm. block_cbn.
  unfold Account.bind at 1. rewrite Hgt. block_cbn.
  match goal with
  | |- context [Account.for_each _ _ ?s0] =>
      destruct (create_loop_ok seed client (generated_keys dep seed n) s0 Hsend Haddr)
        as (p1 & l1 & Eloop)
  end.
  unfold create_channel in Eloop. rewrite Eloop.
  exists p1, l1. cbn. unfold built_account.
  now rewrite <- !app_assoc.
Qed.


(** X6. On a client that answers from a table of statuses, a
    construction from explicit channel seeds succeeds exactly when the base
    seed is well-formed, the base account has the status [NOT_ACTIVATED],
    and every channel seed is well-formed with an account that is not
    created. It has then asked the client for the base address and for the
    address of each channel seed, once each and in the order of the list,
    and the account holds the list as it was given. *)
Theorem explicit_channels_accepted_iff seed client st keys s :
  answers_from client st (Account.ledger s) ->
  (fst (Account.__init__ dep seed client None (Some keys) false s) = Ok tt
   <-> is_valid_secret_key dep seed = true
       /\ st (address_from_seed dep seed) = NOT_ACTIVATED
       /\ Forall (channel_ok dep st) keys)
  /\ (fst (Account.__init__ dep seed client None (Some keys) false s) = Ok tt ->
      snd (Account.__init__ dep seed client None (Some keys) false s)
      = constructed dep seed client keys (Account.ledger s)
          (CallGetAccountData (address_from_seed dep seed)
             :: channel_queries dep keys) s).
Proof.
  intros Ha.
  assert (fst (Account.__init__ dep seed client None (Some keys) false s) = Ok tt ->
          is_valid_secret_key dep seed = true
          /\ st (address_from_seed dep seed) = NOT_ACTIVATED
          /\ Forall (channel_ok dep st) keys) as Hinv.
  { destruct (Account.__init__ dep seed client None (Some keys) false s)
      as [r s'] eqn:E. cbn. intros ->.
    split; [now apply init_ok in E|]. eapply explicit_inv; eassumption. }
  split; [split|].
  - exact Hinv.
  - intros (Hv & Hst & Hok). now rewrite (explicit_run seed client st).
  - intros H. destruct (Hinv H) as (Hv & Hst & Hok).
    now rewrite (explicit_run seed client st).
Qed.

(** X7. On such a client the base seed cannot be one of the explicit
    channel seeds: its account would have to be [NOT_ACTIVATED] as the base
    account and [NOT_CREATED] as a channel. The construction fails whatever
    the other arguments are. *)
Theorem own_seed_as_channel_refused seed client st keys channels cc s :
  answers_from client st (Account.ledger s) ->
  seed ∈ keys ->
  fst (Account.__init__ dep seed client channels (Some keys) cc s) <> Ok tt.
Proof.
  intros Ha Hin H.
  destruct (Account.__init__ dep seed client channels (Some keys) cc s)
    as [r s'] eqn:E. cbn in H. subst r.
  destruct (explicit_inv seed client st keys channels cc s s' Ha E) as [Hbase Hok].
  rewrite Forall_forall in Hok. destruct (Hok seed Hin) as [_ Hch].
  congruence.
Qed.

(** X8. The loop over the explicit channel seeds stops at the first
    seed that is not well-formed: the error names that seed, the seeds
    before it have been looked up, the seed itself and the seeds after it
    have not, and [channel_secret_keys] is not assigned. *)
Theorem ill_formed_channel_seed_stops seed client st good bad rest cc s :
  answers_from client st (Account.ledger s) ->
  is_valid_secret_key dep seed = true ->
  st (address_from_seed dep seed) = NOT_ACTIVATED ->
  Forall (channel_ok dep st) good ->
  is_valid_secret_key dep bad = false ->
  Account.__init__ dep seed client None (Some (good ++ bad :: rest)) cc s
  = (Raise (ValueError ("invalid channel key: " +:+ bad)),
     logged (channel_queries dep good) (Account.ledger s)
       (after_base_check dep seed client (Account.ledger s) s)).
Proof.
  intros Ha Hv Hst Hok Hbad.
  pose proof (Ha (address_from_seed dep seed)) as Hg. rewrite Hst in Hg.
  unfold Account.__init__, Account.init_body.
  unfold Account.bind at 1. cbn. rewrite Hv. cbn.
  run_client. unfold Account.bind at 1. cbn.
  rewrite bool_decide_eq_false_2 by (intros H; now apply H). cbn.
  erewrite (run_bind_raise (Account.bind (Account.for_each (good ++ bad :: rest) _) _)).
  2: { erewrite run_bind_raise; [reflexivity|].
       apply (channel_loop_stops client st good bad rest _ _ (fun s0 => s0));
         [exact Ha | reflexivity | exact Hok |].
       intros s0 _ _. now apply channel_check_invalid. }
  reflexivity.
Qed.

(** X9. A channel count of zero, or a negative one, is accepted: under
    the conditions on the base account the construction succeeds with no
    channel seed at all, a pool of three connections, and a channel manager
    without channels. *)
Theorem nonpositive_channel_count seed client n s l1 :
  n <= 0 ->
  is_valid_secret_key dep seed = true ->
  get_account_data client (address_from_seed dep seed) (Account.ledger s)
  = (Ok (VStatus NOT_ACTIVATED), l1) ->
  Account.__init__ dep seed client (Some n) None false s
  = (Ok tt,
     constructed dep seed client [] l1
       [CallGetAccountData (address_from_seed dep seed)] s)
  /\ hz_pool_size <$> Account.horizon (built_account dep seed client []) = Some 3%nat
  /\ cm_channel_seeds <$> Account.channel_manager (built_account dep seed client [])
     = Some [].
Proof.
  intros Hn Hv Hg. split; [|split; reflexivity].
  rewrite (init_plain_ok dep seed client (Some n) s l1 Hv Hg).
  unfold chosen_keys, generated_keys, range. now rewrite seqZ_nil.
Qed.

(** X10. [create_channels] without [channels] never gives an account,
    whatever else is passed; with neither [channels] nor explicit seeds the
    error is the [ValueError] that says so, raised after the base account
    has passed its checks. *)
Theorem create_channels_needs_channels seed client keys s :
  fst (Account.__init__ dep seed client None keys true s) <> Ok tt
  /\ (forall l1,
        keys = None ->
        is_valid_secret_key dep seed = true ->
        get_account_data client (address_from_seed dep seed) (Account.ledger s)
        = (Ok (VStatus NOT_ACTIVATED), l1) ->
        Account.__init__ dep seed client None keys true s
        = (Raise (ValueError "create_channels can only be used with the channels parameter"),
           after_keys dep seed client [seed] l1
             [CallGetAccountData (address_from_seed dep seed)] s)).
Proof.
  split.
  - destruct (Account.__init__ dep seed client None keys true s) as [r s'] eqn:E.
    cbn. intros ->. apply init_ok in E as (_ & _ & _ & Hcc).
    now apply Hcc.
  - intros l1 -> Hv Hg.
    unfold Account.__init__, Account.init_body.
    unfold Account.bind at 1. cbn. rewrite Hv. cbn.
    run_client. reflexivity.
Qed.

End ConstructorMore.

(** ** More on the builder *)

(** Equality of two attribute dictionaries at the key [k], by the
    attributes that [clear] and [next] assign. *)
Ltac attribute_cases k :=
  destruct (decide (k = "te"%string)) as [->|?]; [now simplify_map_eq|];
  destruct (decide (k = "tx"%string)) as [->|?]; [now simplify_map_eq|];
  destruct (decide (k = "fee"%string)) as [->|?]; [now simplify_map_eq|];
  destruct (decide (k = "memo"%string)) as [->|?]; [now simplify_map_eq|];
  destruct (decide (k = "time_bounds"%string)) as [->|?]; [now simplify_map_eq|];
  destruct (decide (k = "ops"%string)) as [->|?]; [now simplify_map_eq|];
  destruct (decide (k = "sequence"%string)) as [->|?]; [now simplify_map_eq|];
  now rewrite !lookup_insert_ne by congruence.

Section BuilderMore.
Context (py : Builder.Interpreter).
Implicit Types b : Builder.Builder.

(** *** [clear] and [next] *)

Lemma next_ok_eq b v n :
  b !! "sequence" = Some v ->
  Builder.int py v = Ok n ->
  Builder.over_limit py (Builder.ndigits (n + 1)) = false ->
  Builder.next py b
  = (Ok tt, <["sequence" := Builder.PyStr (str (n + 1))]> (Builder.clear b)).
Proof.
  intros Hs Hn Hfit. unfold Builder.next, Builder.str_limited.
  now rewrite clear_sequence, Hs, Hn, Hfit.
Qed.

Lemma clear_clear b : Builder.clear (Builder.clear b) = Builder.clear b.
Proof. apply map_eq. intros k. unfold Builder.clear. attribute_cases k. Qed.

Lemma clear_insert_sequence b x :
  Builder.clear (<["sequence" := x]> (Builder.clear b))
  = <["sequence" := x]> (Builder.clear b).
Proof.
  apply map_eq. intros k. unfold Builder.clear. attribute_cases k.
Qed.

(** The builder [next] leaves: the cleared one, with a new sequence when
    it returns. *)
Lemma next_leaves b :
  (exists e, Builder.next py b = (Raise e, Builder.clear b))
  \/ (exists s, Builder.next py b
                = (Ok tt, <["sequence" := Builder.PyStr s]> (Builder.clear b))).
Proof.
  unfold Builder.next.
  destruct (Builder.clear b !! "sequence") as [v|]; [|left; now eexists].
  destruct (Builder.int py v) as [n|e]; [|left; now eexists].
  destruct (Builder.str_limited py (n + 1)) as [s|e];
    [right | left]; now eexists.
Qed.

(** X11. [next] can be repeated: after [k + 1] calls on a builder whose
    sequence reads as the integer [n], the builder is the cleared one with
    the sequence [str(n + k + 1)], the decimal numeral of [n + k + 1],
    because [int] reads back every numeral that [str] prints; the numbers
    on the way have to be under the limit on the digits, as every number
    below [10^640] is. *)
Theorem next_times_adds k b v n :
  b !! "sequence" = Some v ->
  Builder.int py v = Ok n ->
  (forall m, n < m <= n + Z.of_nat (S k) ->
             Builder.over_limit py (Builder.ndigits m) = false) ->
  Builder.next_times py (S k) b
  = (Ok tt,
     <["sequence" := Builder.PyStr (str (n + Z.of_nat (S k)))]> (Builder.clear b))
  /\ Builder.is_numeral (n + Z.of_nat (S k)) (str (n + Z.of_nat (S k))) = true.
Proof.
  intros Hs Hn Hfit. split; [|apply str_is_numeral].
  revert b v n Hs Hn Hfit. induction k as [|k IH]; intros b v n Hs Hn Hfit.
  - cbn [Builder.next_times].
    now rewrite (next_ok_eq b v n Hs Hn) by (apply Hfit; lia).
  - change (Builder.next_times py (S (S k)) b)
      with (match Builder.next py b with
            | (Ok _, b') => Builder.next_times py (S k) b'
            | (Raise e, b') => (Raise e, b')
            end).
    rewrite (next_ok_eq b v n Hs Hn) by (apply Hfit; lia).
    rewrite (IH _ (Builder.PyStr (str (n + 1))) (n + 1)).
    + rewrite clear_insert_sequence, insert_insert_eq.
      replace (n + 1 + Z.of_nat (S k)) with (n + Z.of_nat (S (S k))) by lia.
      reflexivity.
    + now rewrite lookup_insert_eq.
    + apply int_str. apply Hfit. lia.
    + intros m Hm. apply Hfit. lia.
Qed.

(** X12. Whenever [next] raises, the builder has been cleared all the
    same: its operations are gone, and its sequence is the one it had. The
    error is [AttributeError] without a sequence, [TypeError] for a
    sequence that is [None], and [ValueError] for a string, which [int]
    has refused or whose successor is over the limit on the digits, and
    for an integer, whose successor is over that limit. A string of ASCII
    characters is refused when it is no numeral in white space, or has
    more digits than the limit. *)
Theorem next_failure_clears b e b' :
  Builder.next py b = (Raise e, b') ->
  b' = Builder.clear b
  /\ b' !! "ops" = Some (Builder.PyList [])
  /\ b' !! "sequence" = b !! "sequence"
  /\ (b !! "sequence" = None -> e = AttributeError "sequence")
  /\ (b !! "sequence" = Some Builder.PyNone -> exists msg, e = TypeError msg)
  /\ (forall z, b !! "sequence" = Some (Builder.PyInt z) ->
      (exists msg, e = ValueError msg)
      /\ Builder.over_limit py (Builder.ndigits (z + 1)) = true)
  /\ (forall s, b !! "sequence" = Some (Builder.PyStr s) ->
      (exists msg, e = ValueError msg)
      /\ (Builder.is_ascii s = true ->
          Builder.int_of_str s = None
          \/ Builder.over_limit py (Builder.count_digits s) = true
          \/ exists z, Builder.int_of_str s = Some z
                       /\ Builder.over_limit py (Builder.ndigits (z + 1)) = true)).
Proof.
  assert (Builder.clear b !! "ops" = Some (Builder.PyList [])) as Hops
    by (unfold Builder.clear; now simplify_map_eq).
  assert (forall z, Raise e = Builder.str_limited py z ->
                    (exists msg, e = ValueError msg)
                    /\ Builder.over_limit py (Builder.ndigits z) = true) as Hstr.
  { intros z. unfold Builder.str_limited.
    destruct (Builder.over_limit py (Builder.ndigits z)); [|discriminate].
    intros [= ->]. split; [now eexists | reflexivity]. }
  unfold Builder.next. rewrite clear_sequence.
  destruct (b !! "sequence") as [v|] eqn:Hs.
  - destruct (Builder.int py v) as [n|e0] eqn:Hn.
    + destruct (Builder.str_limited py (n + 1)) as [s0|e0] eqn:Hp;
        intros H; inversion H; subst.
      symmetry in Hp. apply Hstr in Hp as [Hmsg Hover].
      split; [reflexivity|]. split; [exact Hops|].
      split; [now rewrite clear_sequence|].
      split; [discriminate|]. split; [intros [= ->]; discriminate|].
      split.
      * intros z [= ->]. cbn in Hn. inversion Hn; subst. now split.
      * intros s [= ->]. split; [exact Hmsg|]. intros Ha.
        cbn in Hn. rewrite Ha in Hn.
        destruct (Builder.int_of_str s) as [z|]; [|discriminate].
        destruct (Builder.over_limit py (Builder.count_digits s)); [discriminate|].
        inversion Hn; subst. right. right. now exists n.
    + intros H; inversion H; subst.
      split; [reflexivity|]. split; [exact Hops|].
      split; [now rewrite clear_sequence|].
      split; [discriminate|]. split; [|split].
      * intros [= ->]. cbn in Hn. inversion Hn. now eexists.
      * intros z [= ->]. discriminate.
      * intros s [= ->]. cbn in Hn.
        destruct (Builder.is_ascii s).
        -- destruct (Builder.int_of_str s) as [z|].
           ++ destruct (Builder.over_limit py (Builder.count_digits s)) eqn:Ho;
                [|discriminate].
              inversion Hn. split; [now eexists|]. intros _. right. now left.
           ++ inversion Hn. split; [now eexists|]. intros _. now left.
        -- destruct (Builder.int_beyond_ascii py s); [discriminate|].
           inversion Hn. split; [now eexists | discriminate].
  - intros H; inversion H; subst.
    split; [reflexivity|]. split; [exact Hops|].
    split; [now rewrite clear_sequence|].
    split; [reflexivity|]. split; [discriminate|].
    split; [intros z; discriminate | intros s; discriminate].
Qed.

(** X13. [clear] is idempotent, [next] on a cleared builder is [next]
    on the builder, and a builder that [next] has left is already clear. *)
Theorem clear_absorbed b :
  Builder.clear (Builder.clear b) = Builder.clear b
  /\ Builder.next py (Builder.clear b) = Builder.next py b
  /\ (forall b', Builder.next py b = (Ok tt, b') -> Builder.clear b' = b').
Proof.
  split; [apply clear_clear|]. split.
  - unfold Builder.next. now rewrite clear_clear.
  - intros b' H. destruct (next_leaves b) as [[e E]|[s E]];
      rewrite E in H; inversion H; subst.
    apply clear_insert_sequence.
Qed.


(** *** The constructor *)

Lemma upper_char_idem c : Builder.upper_char (Builder.upper_char c) = Builder.upper_char c.
Proof. destruct c as [[] [] [] [] [] [] [] []]; reflexivity. Qed.

Lemma upper_ascii_idem s :
  Builder.upper_ascii (Builder.upper_ascii s) = Builder.upper_ascii s.
Proof.
  induction s as [|c s IH]; cbn; [reflexivity|].
  now rewrite upper_char_idem, IH.
Qed.

Lemma upper_ascii_is_ascii s :
  Builder.is_ascii s = true -> Builder.is_ascii (Builder.upper_ascii s) = true.
Proof.
  unfold Builder.is_ascii. induction s as [|c s IH]; cbn; [reflexivity|].
  rewrite !andb_true_iff. intros [Hc Hs]. split; [|now apply IH].
  revert Hc. destruct c as [[] [] [] [] [] [] [] []]; vm_compute; congruence.
Qed.

(** On a [str] of ASCII characters [upper] changes nothing the second
    time. *)
Lemma upper_idem s :
  Builder.is_ascii s = true ->
  Builder.upper py (Builder.upper py s) = Builder.upper py s.
Proof.
  intros Ha. unfold Builder.upper. rewrite Ha.
  now rewrite upper_ascii_is_ascii, upper_ascii_idem.
Qed.

Lemma live_only_for_public {A} (net : string) (x y : A) :
  net <> "PUBLIC"%string ->
  match Builder.PyStr net with
  | Builder.PyStr "PUBLIC" => x
  | _ => y
  end = y.
Proof.
  intros Hne.
  repeat (destruct net as [|[[] [] [] [] [] [] [] []] net]; try reflexivity).
  now destruct Hne.
Qed.

Section BuilderInit.
Variable is_valid_secret_key is_valid_address : string -> bool.
Variable address_of_seed : string -> string.
Variable BaseBuilder_init : option string -> string -> Z -> Builder.Out Builder.Builder.
Variable Horizon_new : string -> Builder.Obj.
Variable HORIZON_LIVE HORIZON_TEST : string.

Local Abbreviation init :=
  (Builder.__init__ py is_valid_secret_key is_valid_address address_of_seed
     BaseBuilder_init Horizon_new HORIZON_LIVE HORIZON_TEST).

(** X14. In the constructor of the builder a non-empty secret decides
    alone: the address argument is not looked at, so the result is the same
    for any two of them, and an ill-formed secret is refused even beside a
    well-formed address. An empty secret counts as none. Without a secret
    an ill-formed address is refused, and with neither the constructor
    raises the plain [Exception]. *)
Theorem builder_secret_decides secret address horizon horizon_uri network :
  (Builder.truthy_str secret = true ->
   (forall address',
      init secret address horizon horizon_uri network
      = init secret address' horizon horizon_uri network)
   /\ (is_valid_secret_key (default "" secret) = false ->
       init secret address horizon horizon_uri network
       = Builder.Fails (Builder.Builtin (ValueError "invalid secret key"))))
  /\ (Builder.truthy_str secret = false ->
      Builder.truthy_str address = true ->
      is_valid_address (default "" address) = false ->
      init secret address horizon horizon_uri network
      = Builder.Fails (Builder.Builtin (ValueError "invalid address")))
  /\ (Builder.truthy_str secret = false ->
      Builder.truthy_str address = false ->
      init secret address horizon horizon_uri network
      = Builder.Fails
          (Builder.PlainException "either secret or address must be provided")).
Proof.
  unfold Builder.__init__, Builder.resolve_address.
  split; [|split].
  - intros Hs. rewrite Hs. split.
    + reflexivity.
    + now intros ->.
  - now intros -> -> ->.
  - now intros -> ->.
Qed.

(** X15. A construction that comes through has set [network] to
    [network.upper()], or to ["PUBLIC"] without a name; for a name of
    ASCII characters that is the name with [a] to [z] turned into [A] to
    [Z], which [upper] leaves as it is. The horizon is the object given;
    without one, a new one for the URI given; without either, the live one
    exactly when the [network] set is ["PUBLIC"], the test one for every
    other. Every other attribute is what the base class has set. *)
Theorem builder_network_and_horizon
    secret address horizon horizon_uri network resolved self0 :
  Builder.resolve_address is_valid_secret_key is_valid_address address_of_seed
    secret address = Builder.Done resolved ->
  BaseBuilder_init secret resolved 1 = Builder.Done self0 ->
  let net := if Builder.truthy_str network
             then Builder.upper py (default "" network) else "PUBLIC"%string in
  exists b,
    init secret address horizon horizon_uri network = Builder.Done b
    /\ b !! "network" = Some (Builder.PyStr net)
    /\ (Builder.is_ascii (default "" network) = true ->
        net = (if Builder.truthy_str network
               then Builder.upper_ascii (default "" network) else "PUBLIC"%string)
        /\ Builder.upper py net = net)
    /\ (Builder.truthy horizon = true -> b !! "horizon" = Some horizon)
    /\ (Builder.truthy horizon = false -> Builder.truthy_str horizon_uri = true ->
        b !! "horizon" = Some (Horizon_new (default "" horizon_uri)))
    /\ (Builder.truthy horizon = false -> Builder.truthy_str horizon_uri = false ->
        (net = "PUBLIC"%string -> b !! "horizon" = Some (Horizon_new HORIZON_LIVE))
        /\ (net <> "PUBLIC"%string -> b !! "horizon" = Some (Horizon_new HORIZON_TEST)))
    /\ (forall k, k <> "network"%string -> k <> "horizon"%string ->
        b !! k = self0 !! k).
Proof.
  intros Hres Hbase net.
  assert (Builder.is_ascii (default "" network) = true ->
          net = (if Builder.truthy_str network
                 then Builder.upper_ascii (default "" network) else "PUBLIC"%string)
          /\ Builder.upper py net = net) as Hup.
  { intros Ha. unfold net. destruct (Builder.truthy_str network).
    - split; [unfold Builder.upper; now rewrite Ha | now apply upper_idem].
    - split; reflexivity. }
  unfold Builder.__init__. rewrite Hres, Hbase. fold net.
  rewrite lookup_insert_eq.
  destruct (Builder.truthy horizon) eqn:Hh;
    [|destruct (Builder.truthy_str horizon_uri) eqn:Hu].
  - eexists. split; [reflexivity|].
    split; [now simplify_map_eq|]. split; [exact Hup|].
    split; [intros _; now simplify_map_eq|].
    split; [discriminate|]. split; [discriminate|].
    intros k Hk1 Hk2. now rewrite !lookup_insert_ne by congruence.
  - eexists. split; [reflexivity|].
    split; [now simplify_map_eq|]. split; [exact Hup|].
    split; [discriminate|].
    split; [intros _ _; now simplify_map_eq|]. split; [discriminate|].
    intros k Hk1 Hk2. now rewrite !lookup_insert_ne by congruence.
  - eexists. split; [reflexivity|].
    split; [now simplify_map_eq|]. split; [exact Hup|].
    split; [discriminate|]. split; [discriminate|].
    split.
    + intros _ _. split.
      * intros ->. now simplify_map_eq.
      * intros Hne. rewrite lookup_insert_eq.
        now rewrite (live_only_for_public net _ _ Hne).
    + intros k Hk1 Hk2. now rewrite !lookup_insert_ne by congruence.
Qed.

End BuilderInit.

(** *** [sign] *)

Section BuilderSign.
Variable BaseBuilder_sign : option string -> Builder.Builder -> Res unit * Builder.Builder.
Variable horizon_account : Builder.Obj -> Builder.Obj -> Res (gmap string Builder.Obj).

Local Abbreviation sign := (Builder.sign BaseBuilder_sign horizon_account).

Lemma get_sequence_clear b :
  Builder.get_sequence horizon_account (Builder.clear b)
  = Builder.get_sequence horizon_account b.
Proof.
  unfold Builder.get_sequence, Builder.clear.
  now rewrite !lookup_insert_ne by done.
Qed.

Lemma get_sequence_insert_sequence b x :
  Builder.get_sequence horizon_account (<["sequence" := x]> b)
  = Builder.get_sequence horizon_account b.
Proof.
  unfold Builder.get_sequence. now rewrite !lookup_insert_ne by done.
Qed.

(** X16. [sign] without a secret fetches the sequence from Horizon and
    overwrites the one the builder keeps: after [next], the builder that
    goes to the signing of the base class carries the sequence of
    Horizon's reply, whatever the sequence was before, and the increment
    of [next] is gone. *)
Theorem sign_overwrites_next b v n h a reply secret :
  b !! "sequence" = Some v ->
  Builder.int py v = Ok n ->
  b !! "horizon" = Some h ->
  b !! "address" = Some a ->
  horizon_account h a = Ok reply ->
  Builder.truthy_str secret = false ->
  sign secret (snd (Builder.next py b))
  = BaseBuilder_sign secret
      (<["sequence" := default Builder.PyNone (reply !! "sequence")]> (Builder.clear b)).
Proof.
  intros Hs Hn Hh Ha Hr Hsec.
  unfold Builder.sign. rewrite Hsec. cbn [negb].
  destruct (next_leaves b) as [[e E]|[s E]]; rewrite E; cbn [snd].
  - rewrite get_sequence_clear.
    unfold Builder.get_sequence. now rewrite Hh, Ha, Hr.
  - rewrite get_sequence_insert_sequence, get_sequence_clear.
    unfold Builder.get_sequence. rewrite Hh, Ha, Hr.
    now rewrite insert_insert_eq.
Qed.

End BuilderSign.

(** X17. [sign] asks Horizon only when it has no secret: with a secret
    the result does not depend on Horizon at all; without one, an error of
    Horizon is the error of [sign], the builder is untouched and the
    signing of the base class is not reached. *)
Theorem sign_asks_horizon_without_secret
    (base_sign base_sign' : option string -> Builder.Builder -> Res unit * Builder.Builder)
    (account account' : Builder.Obj -> Builder.Obj -> Res (gmap string Builder.Obj))
    (b : Builder.Builder) secret :
  (Builder.truthy_str secret = true ->
   Builder.sign base_sign account secret b = Builder.sign base_sign account' secret b)
  /\ (forall h a e,
        Builder.truthy_str secret = false ->
        b !! "horizon" = Some h ->
        b !! "address" = Some a ->
        account h a = Raise e ->
        Builder.sign base_sign account secret b = (Raise e, b)
        /\ Builder.sign base_sign' account secret b = (Raise e, b)).
Proof.
  unfold Builder.sign. split.
  - now intros ->.
  - intros h a e -> Hh Ha He. unfold Builder.get_sequence.
    now rewrite Hh, Ha, He.
Qed.

(** X18. When Horizon's reply has no ["sequence"], [sign] without a
    secret sets the sequence to [None]; if the signing of the base class
    leaves the sequence alone, the next call of [next] raises [TypeError],
    after clearing the builder. *)
Theorem sign_without_sequence_blocks_next
    (base_sign : option string -> Builder.Builder -> Res unit * Builder.Builder)
    (account : Builder.Obj -> Builder.Obj -> Res (gmap string Builder.Obj))
    (b : Builder.Builder) h a reply secret :
  (forall sec b0, snd (base_sign sec b0) !! "sequence" = b0 !! "sequence") ->
  Builder.truthy_str secret = false ->
  b !! "horizon" = Some h ->
  b !! "address" = Some a ->
  account h a = Ok reply ->
  reply !! "sequence" = None ->
  exists msg,
    Builder.next py (snd (Builder.sign base_sign account secret b))
    = (Raise (TypeError msg),
       Builder.clear (snd (Builder.sign base_sign account secret b))).
Proof.
  intros Hkeep Hsec Hh Ha Hr Hnone. eexists.
  apply (next_raises_after_clear py _ Builder.PyNone); [|reflexivity].
  unfold Builder.sign. rewrite Hsec. cbn [negb].
  unfold Builder.get_sequence. rewrite Hh, Ha, Hr, Hnone. cbn [default].
  rewrite Hkeep. now rewrite lookup_insert_eq.
Qed.

End BuilderMore.

(** ** More on the methods *)

Section MethodsMore.
Context {L C : Type} (dep : Deps L C).
Implicit Types s : Account.State L C.

Lemma run_delegation_missing fn memo s :
  Account.channel_manager (Account.self s) = None ->
  Account.try_except
    (Account.bind (Account.attr Account.channel_manager "channel_manager")
       (fun cm => Account.bind (Account.call_send_transaction dep cm fn memo)
                    (fun reply => Account.subscript reply "hash")))
    (fun e => Account.raise (translate_error dep e)) s
  = (Raise (translate_error dep (AttributeError "channel_manager")), s).
Proof.
  intros Hcm. unfold Account.try_except, Account.bind, Account.attr.
  now rewrite Hcm.
Qed.

Lemma send_asset_run asset address amount memo s cm :
  is_valid_address dep address = true ->
  PyNum.le_zero amount = false ->
  Account.too_precise amount = Ok false ->
  Account.channel_manager (Account.self s) = Some cm ->
  Account._send_asset dep asset address amount memo s
  = (delivered dep
       (fst (fst (send_transaction dep cm
                    (append_payment_op address amount (code asset) (issuer asset))
                    memo (Account.pool s) (Account.ledger s)))),
     {| Account.self := Account.self s;
        Account.ledger :=
          snd (send_transaction dep cm
                 (append_payment_op address amount (code asset) (issuer asset))
                 memo (Account.pool s) (Account.ledger s));
        Account.pool :=
          snd (fst (send_transaction dep cm
                      (append_payment_op address amount (code asset) (issuer asset))
                      memo (Account.pool s) (Account.ledger s)));
        Account.trace :=
          Account.trace s
          ++ [CallSendTransaction cm
                (append_payment_op address amount (code asset) (issuer asset))
                memo] |}).
Proof.
  intros Hv Hle Hp Hcm. unfold Account._send_asset.
  unfold Account.bind at 1. rewrite Hv. cbn.
  unfold Account.bind at 1. rewrite Hle. cbn.
  unfold Account.bind at 1, Account.lift. rewrite Hp. cbn.
  now rewrite (run_delegation dep cm _ memo s Hcm).
Qed.

(** X19. A call of [_send_asset] or of [create_account] either raises
    and leaves the state exactly as it was, or has made one call, to
    [send_transaction] of the account's channel manager, with the
    address, the amount, the asset and the memo as they came; it never
    asks the client, and it never changes the account object. *)
Theorem one_transaction_or_none asset address amount memo s :
  ((exists e, Account._send_asset dep asset address amount memo s = (Raise e, s))
   \/ (exists cm,
         Account.channel_manager (Account.self s) = Some cm
         /\ Account.self (snd (Account._send_asset dep asset address amount memo s))
            = Account.self s
         /\ Account.trace (snd (Account._send_asset dep asset address amount memo s))
            = Account.trace s
              ++ [CallSendTransaction cm
                    (append_payment_op address amount (code asset) (issuer asset))
                    memo]))
  /\ ((exists e, Account.create_account dep address amount memo s = (Raise e, s))
      \/ (exists cm,
            Account.channel_manager (Account.self s) = Some cm
            /\ Account.self (snd (Account.create_account dep address amount memo s))
               = Account.self s
            /\ Account.trace (snd (Account.create_account dep address amount memo s))
               = Account.trace s
                 ++ [CallSendTransaction cm
                       (append_create_account_op address amount) memo])).
Proof.
  split.
  - destruct (is_valid_address dep address) eqn:Hv.
    2: { left. eexists.
         exact (proj1 (send_asset_rejects dep asset address amount memo s) Hv). }
    destruct (PyNum.le_zero amount) eqn:Hle.
    { left. eexists.
      exact (proj1 (proj2 (send_asset_rejects dep asset address amount memo s))
               Hv Hle). }
    destruct (Account.too_precise amount) as [[]|e] eqn:Hp.
    + left. eexists.
      exact (proj2 (proj2 (send_asset_rejects dep asset address amount memo s))
               Hv Hle Hp).
    + destruct (Account.channel_manager (Account.self s)) as [cm|] eqn:Hcm.
      * right. exists cm. split; [reflexivity|].
        now rewrite (send_asset_run asset address amount memo s cm).
      * left. eexists. unfold Account._send_asset.
        unfold Account.bind at 1. rewrite Hv. cbn.
        unfold Account.bind at 1. rewrite Hle. cbn.
        unfold Account.bind at 1, Account.lift. rewrite Hp. cbn.
        now rewrite run_delegation_missing.
    + left. exists e. unfold Account._send_asset.
      unfold Account.bind at 1. rewrite Hv. cbn.
      unfold Account.bind at 1. rewrite Hle. cbn.
      unfold Account.bind at 1, Account.lift. now rewrite Hp.
  - destruct (is_valid_address dep address) eqn:Hv.
    2: { left. eexists. unfold Account.create_account.
         unfold Account.bind at 1. now rewrite Hv. }
    destruct (Account.channel_manager (Account.self s)) as [cm|] eqn:Hcm.
    + right. exists cm. split; [reflexivity|].
      unfold Account.create_account. unfold Account.bind at 1. rewrite Hv. cbn.
      now rewrite (run_delegation dep cm _ memo s Hcm).
    + left. eexists. unfold Account.create_account.
      unfold Account.bind at 1. rewrite Hv. cbn.
      now rewrite run_delegation_missing.
Qed.

(** X20. With a well-formed address, no amount that is zero, negative or
    not a number is ever sent: an integer at most zero, either zero of the
    floats, a negative float and minus infinity raise "amount must be
    positive"; NaN and plus infinity pass that test and are stopped by the
    test on the digits. The state is untouched in every case. *)
Theorem amounts_never_sent asset address memo s :
  is_valid_address dep address = true ->
  (forall amount,
     (exists z, amount = PyNum.PInt z /\ z <= 0)
     \/ (exists sign, amount = PyNum.PFloat (S754_zero sign))
     \/ (exists m e, amount = PyNum.PFloat (S754_finite true m e))
     \/ amount = PyNum.PFloat (S754_infinity true) ->
     Account._send_asset dep asset address amount memo s
     = (Raise (ValueError "amount must be positive"), s))
  /\ (forall amount,
        amount = PyNum.PFloat S754_nan
        \/ amount = PyNum.PFloat (S754_infinity false) ->
        Account._send_asset dep asset address amount memo s
        = (Raise (ValueError "Number of digits after the decimal point in the amount exceeded the limit(7)."), s)).
Proof.
  intros Hv. split.
  - intros amount H.
    apply (proj1 (proj2 (send_asset_rejects dep asset address amount memo s)));
      [exact Hv|].
    destruct H as [(z & Hz1 & Hz) | [(sg & Hs1) | [(m & e & Hf1) | Hi1]]]; subst amount.
    + cbn. lia.
    + reflexivity.
    + reflexivity.
    + reflexivity.
  - intros amount H.
    apply (proj2 (proj2 (send_asset_rejects dep asset address amount memo s)));
      [exact Hv| |]; destruct H as [->| ->]; reflexivity.
Qed.

(** X21. Once the checks of [_send_asset] have passed, the outcome is
    that of [send_transaction]: the hash of the reply; for a reply
    without a hash, the translation of the [KeyError], although the
    transaction has been submitted; for an exception, its translation.
    What [send_transaction] did to the channel pool and to the ledger
    stays in every case. *)
Theorem send_asset_outcome asset address amount memo s cm r p1 l1 :
  is_valid_address dep address = true ->
  PyNum.le_zero amount = false ->
  Account.too_precise amount = Ok false ->
  Account.channel_manager (Account.self s) = Some cm ->
  send_transaction dep cm
    (append_payment_op address amount (code asset) (issuer asset)) memo
    (Account.pool s) (Account.ledger s) = (r, p1, l1) ->
  Account.pool (snd (Account._send_asset dep asset address amount memo s)) = p1
  /\ Account.ledger (snd (Account._send_asset dep asset address amount memo s)) = l1
  /\ (forall reply h, r = Ok reply -> reply !! "hash" = Some h ->
        fst (Account._send_asset dep asset address amount memo s) = Ok h)
  /\ (forall reply, r = Ok reply -> reply !! "hash" = None ->
        fst (Account._send_asset dep asset address amount memo s)
        = Raise (translate_error dep (KeyError "hash")))
  /\ (forall e, r = Raise e ->
        fst (Account._send_asset dep asset address amount memo s)
        = Raise (translate_error dep e)).
Proof.
  intros Hv Hle Hp Hcm Hsend.
  rewrite (send_asset_run asset address amount memo s cm Hv Hle Hp Hcm).
  rewrite Hsend. cbn.
  split; [reflexivity|]. split; [reflexivity|].
  split; [|split].
  - intros reply h -> Hh. unfold delivered. now rewrite Hh.
  - intros reply -> Hh. unfold delivered. now rewrite Hh.
  - now intros e ->.
Qed.

(** X22. [send_xlm] pays in the native asset, code ["XLM"] and no
    issuer, and does not need the client; [send_kin] pays in the asset of
    the client, and without a client raises the [AttributeError] as it
    is, before any check. *)
Theorem xlm_and_kin_assets address amount memo s cm :
  is_valid_address dep address = true ->
  PyNum.le_zero amount = false ->
  Account.too_precise amount = Ok false ->
  Account.channel_manager (Account.self s) = Some cm ->
  Account.trace (snd (Account.send_xlm dep address amount memo s))
  = Account.trace s
    ++ [CallSendTransaction cm (append_payment_op address amount "XLM" None) memo]
  /\ (forall c, Account._client (Account.self s) = Some c ->
        Account.trace (snd (Account.send_kin dep address amount memo s))
        = Account.trace s
          ++ [CallSendTransaction cm
                (append_payment_op address amount (code (kin_asset c))
                   (issuer (kin_asset c))) memo])
  /\ (Account._client (Account.self s) = None ->
      Account.send_kin dep address amount memo s
      = (Raise (AttributeError "_client"), s)).
Proof.
  intros Hv Hle Hp Hcm. split; [|split].
  - unfold Account.send_xlm.
    now rewrite (send_asset_run Asset_native address amount memo s cm).
  - intros c Hc. unfold Account.send_kin, Account.bind, Account.attr.
    rewrite Hc.
    now rewrite (send_asset_run (kin_asset c) address amount memo s cm).
  - intros Hc. unfold Account.send_kin, Account.bind, Account.attr.
    now rewrite Hc.
Qed.

(** X23. Whatever a construction has done on the way, the creation of
    channels included, the object it leaves holds the client, the keypair
    of the seed, the channel seeds of its branch, a horizon whose pool has
    [max(1, number of channels) + 2] connections, and a channel manager
    for the same seeds and the same horizon. The seed was well-formed,
    [channels] and [channel_secret_keys] were not both given, and
    [create_channels] came with [channels]. *)
Theorem construction_result seed client channels keys cc s s' :
  Account.__init__ dep seed client channels keys cc s = (Ok tt, s') ->
  Account.self s' = built_account dep seed client (chosen_keys dep seed channels keys)
  /\ (hz_pool_size <$> Account.horizon (Account.self s')
      = Some (Nat.max 1 (length (chosen_keys dep seed channels keys)) + 2)%nat)
  /\ (cm_horizon <$> Account.channel_manager (Account.self s')
      = Account.horizon (Account.self s'))
  /\ is_valid_secret_key dep seed = true
  /\ (channels = None \/ keys = None)
  /\ (cc = true -> channels <> None).
Proof.
  intros H. apply init_ok in H as (-> & Hv & Hone & Hcc).
  repeat split; assumption.
Qed.

(** X24. The methods of an account that a construction has left work on
    what the constructor checked: [get_public_address] returns the address
    derived from the seed, without any call; [get_data] asks the client
    about that address; and a payment that passes the checks goes to the
    channel manager that holds the channel seeds of the construction. *)
Theorem constructed_account_methods
    seed client channels keys cc s s' address amount memo :
  Account.__init__ dep seed client channels keys cc s = (Ok tt, s') ->
  Account.get_public_address s' = (Ok (address_from_seed dep seed), s')
  /\ Account.trace (snd (Account.get_data s'))
     = Account.trace s' ++ [CallGetAccountData (address_from_seed dep seed)]
  /\ (is_valid_address dep address = true ->
      PyNum.le_zero amount = false ->
      Account.too_precise amount = Ok false ->
      Account.trace (snd (Account.send_xlm dep address amount memo s'))
      = Account.trace s'
        ++ [CallSendTransaction
              (manager_of dep seed client (chosen_keys dep seed channels keys))
              (append_payment_op address amount "XLM" None) memo]).
Proof.
  intros H. apply init_ok in H as (Hs & _).
  split; [|split].
  - unfold Account.get_public_address, Account.bind, Account.attr.
    now rewrite Hs.
  - rewrite (run_get_data s' client (Account.Keypair_new dep seed));
      [reflexivity | now rewrite Hs..].
  - intros Hv Hle Hp. unfold Account.send_xlm.
    rewrite (send_asset_run Asset_native address amount memo s'
               (manager_of dep seed client (chosen_keys dep seed channels keys)));
      [reflexivity | assumption.. |]. now rewrite Hs.
Qed.

End MethodsMore.

(** ** Whole amounts and the test on the digits *)

Section WholeAmounts.

Lemma iter_pos_iter {A} (f : A -> A) n x : SpecFloat.iter_pos f n x = Pos.iter f x n.
Proof.
  revert x. induction n as [n IH|n IH|]; intros x; cbn.
  - rewrite !IH. now rewrite !Pos.iter_swap.
  - now rewrite !IH.
  - reflexivity.
Qed.

Lemma Zpos_iter_xO m n : Z.pos (Pos.iter xO m n) = Z.pos m * 2 ^ Z.pos n.
Proof.
  induction n as [|n IH] using Pos.peano_ind.
  - cbn. lia.
  - rewrite Pos.iter_succ, Pos2Z.inj_xO, IH, Pos2Z.inj_succ, Z.pow_succ_r by lia.
    lia.
Qed.

Lemma digits_iter_xO m n :
  Z.pos (digits2_pos (Pos.iter xO m n)) = Z.pos (digits2_pos m) + Z.pos n.
Proof.
  induction n as [|n IH] using Pos.peano_ind.
  - cbn. lia.
  - rewrite Pos.iter_succ. cbn [digits2_pos]. lia.
Qed.

Lemma shift_out_zeros m n :
  SpecFloat.iter_pos shr_1 n {| shr_m := Z.pos (Pos.iter xO m n); shr_r := false; shr_s := false |}
  = {| shr_m := Z.pos m; shr_r := false; shr_s := false |}.
Proof.
  rewrite iter_pos_iter.
  induction n as [|n IH] using Pos.peano_ind.
  - reflexivity.
  - rewrite (Pos.iter_succ n _ xO), Pos.iter_succ, <- Pos.iter_swap. cbn [shr_1 orb].
    exact IH.
Qed.

Lemma digits2_size p : digits2_pos p = Pos.size p.
Proof. induction p as [p IH|p IH|]; cbn; now rewrite ?IH. Qed.

Lemma digits_le_53 p : Z.pos p < 2 ^ 53 -> Z.pos (digits2_pos p) <= 53.
Proof.
  intros Hp. rewrite digits2_size.
  pose proof (Pos.size_le p) as Hle.
  apply Pos2Z.pos_le_pos in Hle. rewrite Pos2Z.inj_pow in Hle.
  destruct (Z_le_gt_dec (Z.pos (Pos.size p)) 53) as [H|H]; [exact H|].
  assert (2 ^ 54 <= 2 ^ Z.pos (Pos.size p)) as Hbig
    by (apply Z.pow_le_mono_r; lia).
  change (2 ^ 54) with 18014398509481984 in Hbig.
  change (2 ^ 53) with 9007199254740992 in Hp. lia.
Qed.

(** A mantissa of 53 digits with an exponent in range is its own
    rounding. *)
Lemma round_canonical m e :
  Z.pos (digits2_pos m) = 53 -> -1074 <= e <= 971 ->
  binary_round_aux PyNum.prec PyNum.emax false (Z.pos m) e loc_Exact
  = S754_finite false m e.
Proof.
  intros Hd He.
  unfold binary_round_aux, shr_fexp, fexp, emin, PyNum.prec, PyNum.emax.
  cbn [Zdigits2 shr_record_of_loc]. rewrite Hd.
  replace (Z.max (53 + e - 53) (3 - 1024 - 53) - e) with 0 by lia.
  cbn [shr shr_m loc_of_shr_record round_nearest_even Zdigits2].
  rewrite Hd.
  replace (Z.max (53 + e - 53) (3 - 1024 - 53) - e) with 0 by lia.
  cbn [shr shr_m shr_record_of_loc].
  destruct (Z.leb_spec e (1024 - 53)); [reflexivity|lia].
Qed.

(** Trailing zero bits beyond the 53 digits are shifted out exactly. *)
Lemma round_shifted m n e :
  Z.pos (digits2_pos m) = 53 -> -1074 <= e <= 971 ->
  binary_round_aux PyNum.prec PyNum.emax false
    (Z.pos (Pos.iter xO m n)) (e - Z.pos n) loc_Exact
  = S754_finite false m e.
Proof.
  intros Hd He.
  unfold binary_round_aux, shr_fexp, fexp, emin, PyNum.prec, PyNum.emax.
  cbn [Zdigits2 shr_record_of_loc]. rewrite digits_iter_xO, Hd.
  replace (Z.max (53 + Z.pos n + (e - Z.pos n) - 53) (3 - 1024 - 53) - (e - Z.pos n))
    with (Z.pos n) by lia.
  cbn [shr]. rewrite shift_out_zeros.
  cbn [shr_m loc_of_shr_record round_nearest_even Zdigits2].
  rewrite Hd.
  replace (e - Z.pos n + Z.pos n) with e by lia.
  replace (Z.max (53 + e - 53) (3 - 1024 - 53) - e) with 0 by lia.
  cbn [shr shr_m shr_record_of_loc].
  destruct (Z.leb_spec e (1024 - 53)); [reflexivity|lia].
Qed.


Lemma digits_mono p q :
  Z.pos p <= Z.pos q -> Z.pos (digits2_pos p) <= Z.pos (digits2_pos q).
Proof.
  intros Hpq. rewrite !digits2_size.
  pose proof (Pos.size_le p) as Hle. pose proof (Pos.size_gt q) as Hgt.
  apply Pos2Z.pos_le_pos in Hle. apply Pos2Z.pos_lt_pos in Hgt.
  rewrite Pos2Z.inj_pow in Hle, Hgt.
  destruct (Z_le_gt_dec (Z.pos (Pos.size p)) (Z.pos (Pos.size q))) as [H|H];
    [exact H|].
  assert (2 ^ (Z.pos (Pos.size q) + 1) <= 2 ^ Z.pos (Pos.size p)) as Hbig
    by (apply Z.pow_le_mono_r; lia).
  rewrite Z.pow_add_r in Hbig by lia. change (2 ^ 1) with 2 in Hbig. lia.
Qed.

(** The double of a whole number below [2^53] is that number, with a
    mantissa of 53 digits. *)
Lemma round_Z_exact q :
  Z.pos q < 2 ^ 53 ->
  exists mq,
    PyNum.round_Z (Z.pos q) = S754_finite false mq (Z.pos (digits2_pos q) - 53)
    /\ Z.pos (digits2_pos mq) = 53
    /\ Z.pos mq = Z.pos q * 2 ^ (53 - Z.pos (digits2_pos q)).
Proof.
  intros Hq. pose proof (digits_le_53 q Hq) as Hd.
  unfold PyNum.round_Z, binary_normalize, binary_round, shl_align, fexp, emin,
    PyNum.prec, PyNum.emax.
  replace (Z.max (Z.pos (digits2_pos q) + 0 - 53) (3 - 1024 - 53) - 0)
    with (Z.pos (digits2_pos q) - 53) by lia.
  replace (Z.max (Z.pos (digits2_pos q) + 0 - 53) (3 - 1024 - 53))
    with (Z.pos (digits2_pos q) - 53) by lia.
  destruct (Z.pos (digits2_pos q) - 53) as [|k|k] eqn:E; [|lia|].
  - exists q. split; [|split].
    + apply (round_canonical q 0); lia.
    + lia.
    + replace (53 - Z.pos (digits2_pos q)) with 0 by lia. lia.
  - exists (Pos.iter xO q k). split; [|split].
    + apply (round_canonical (Pos.iter xO q k) (Z.neg k)).
      * rewrite digits_iter_xO. lia.
      * lia.
    + rewrite digits_iter_xO. lia.
    + rewrite Zpos_iter_xO. f_equal. f_equal. lia.
Qed.

Lemma f_1e7_value :
  Account.f_1e7 = S754_finite false 5368709120000000 (-29).
Proof. vm_compute. reflexivity. Qed.

(** [z * 1e7] is exact as long as the product is below [2^53]. *)
Lemma mul_1e7_exact p :
  Z.pos p * 10000000 < 2 ^ 53 ->
  SFmul PyNum.prec PyNum.emax (PyNum.round_Z (Z.pos p)) Account.f_1e7
  = PyNum.round_Z (Z.pos p * 10000000).
Proof.
  intros Hq.
  assert (Z.pos p < 2 ^ 53) as Hp by lia.
  destruct (round_Z_exact p Hp) as (mp & Ep & Hdp & Hmp).
  change (Z.pos p * 10000000) with (Z.pos (p * 10000000)) in *.
  destruct (round_Z_exact (p * 10000000) Hq) as (mq & Eq & Hdq & Hmq).
  rewrite Ep, Eq, f_1e7_value. cbn [SFmul xorb].
  pose proof (digits_mono p (p * 10000000) ltac:(lia)) as Hmono.
  pose proof (digits_le_53 (p * 10000000) Hq) as Hdq53.
  set (dp := Z.pos (digits2_pos p)) in *.
  set (dq := Z.pos (digits2_pos (p * 10000000))) in *.
  assert (exists n, Z.pos n = dq - dp + 29) as [n Hn].
  { exists (Z.to_pos (dq - dp + 29)). rewrite Z2Pos.id; lia. }
  assert ((mp * 5368709120000000)%positive = Pos.iter xO mq n) as ->.
  { apply Pos2Z.inj. rewrite Zpos_iter_xO, Pos2Z.inj_mul, Hmp, Hmq, Hn.
    rewrite Pos2Z.inj_mul.
    change (Z.pos 5368709120000000) with (10000000 * 2 ^ 29).
    change (Z.pos 10000000) with 10000000.
    replace (53 - dp) with ((53 - dq) + (dq - dp)) by lia.
    replace (dq - dp + 29) with ((dq - dp) + 29) by lia.
    rewrite !Z.pow_add_r by lia. ring. }
  replace (dp - 53 + -29) with (dq - 53 - Z.pos n) by lia.
  apply round_shifted; [exact Hdq|lia].
Qed.

(** The remainder of a whole double is zero. *)
Lemma mod_one_whole q :
  Z.pos q < 2 ^ 53 -> PyNum.mod_one (PyNum.round_Z (Z.pos q)) = PyNum.fzero.
Proof.
  intros Hq. pose proof (digits_le_53 q Hq) as Hd.
  destruct (round_Z_exact q Hq) as (mq & -> & _ & Hmq).
  unfold PyNum.mod_one, PyNum.fmod_one.
  destruct (Z.leb_spec 0 (Z.pos (digits2_pos q) - 53)) as [H|H]; [reflexivity|].
  replace (- (Z.pos (digits2_pos q) - 53)) with (53 - Z.pos (digits2_pos q)) by lia.
  rewrite Hmq, Z.mod_mul; [reflexivity|].
  apply Z.pow_nonzero; lia.
Qed.

Lemma too_precise_whole z :
  0 < z -> z * 10000000 < 2 ^ 53 ->
  Account.too_precise (PyNum.PInt z) = Ok false
  /\ Account.too_precise (PyNum.PFloat (PyNum.round_Z z)) = Ok false.
Proof.
  intros Hz Hq. destruct z as [|p|p]; try lia.
  assert (Z.pos p < 2 ^ 53) as Hp by lia.
  assert (Account.too_precise (PyNum.PFloat (PyNum.round_Z (Z.pos p))) = Ok false)
    as Hf.
  { unfold Account.too_precise, PyNum.mul_float, PyNum.as_float.
    rewrite mul_1e7_exact by exact Hq.
    change (Z.pos p * 10000000) with (Z.pos (p * 10000000)) in *.
    now rewrite mod_one_whole by exact Hq. }
  split; [|exact Hf].
  unfold Account.too_precise, PyNum.mul_float, PyNum.as_float, PyNum.float_of_int.
  unfold Account.too_precise, PyNum.mul_float, PyNum.as_float in Hf.
  destruct (round_Z_exact p Hp) as (mp & Ep & _).
  rewrite Ep in Hf |- *. exact Hf.
Qed.

End WholeAmounts.

(** X25. Every whole amount from 1 to 900719925 passes the test on the
    digits, as an [int] and as the [float] of the same value: the product
    with [1e7] stays below [2^53] and is exact. With a well-formed address
    such a payment always reaches [send_transaction]. *)
Theorem whole_amounts_are_sent {L C : Type} (dep : Deps L C)
    asset address z memo (s : Account.State L C) cm :
  1 <= z <= 900719925 ->
  is_valid_address dep address = true ->
  Account.channel_manager (Account.self s) = Some cm ->
  Account.too_precise (PyNum.PInt z) = Ok false
  /\ Account.too_precise (PyNum.PFloat (PyNum.round_Z z)) = Ok false
  /\ Account.trace (snd (Account._send_asset dep asset address (PyNum.PInt z) memo s))
     = Account.trace s
       ++ [CallSendTransaction cm
             (append_payment_op address (PyNum.PInt z) (code asset) (issuer asset))
             memo].
Proof.
  intros Hz Hv Hcm.
  assert (z * 10000000 < 2 ^ 53) as Hq.
  { change (2 ^ 53) with 9007199254740992. lia. }
  destruct (too_precise_whole z ltac:(lia) Hq) as [Hi Hf].
  split; [exact Hi|]. split; [exact Hf|].
  rewrite (send_asset_run dep asset address (PyNum.PInt z) memo s cm);
    [reflexivity | exact Hv | cbn; lia | exact Hi | exact Hcm].
Qed.

(** ** The constructor and the builder on the small ledger *)

Lemma demo_answers_from l (s : Account.State Demo.Ledger nat) :
  Account.ledger s = l ->
  answers_from Demo.client (Demo.status_of l) (Account.ledger s).
Proof. intros -> a. reflexivity. Qed.

Lemma demo_creates_or_exists : creates_or_exists Demo.lax_deps.
Proof.
  intros cm address balance p l. cbn. unfold Demo.submit. cbn.
  destruct (l !! address); [reflexivity|].
  eexists. apply lookup_singleton_eq.
Qed.

Lemma demo_creates_or_exists_strict : creates_or_exists Demo.deps.
Proof.
  intros cm address balance p l. cbn. unfold Demo.submit. cbn.
  destruct (l !! address); [reflexivity|].
  eexists. apply lookup_singleton_eq.
Qed.

Lemma demo_base_sign_keeps_sequence sec b :
  snd (Demo.base_sign sec b) !! "sequence" = b !! "sequence".
Proof. cbn. now rewrite lookup_insert_ne. Qed.

Lemma create_channels_low_balance_witness :
  fst (Account.__init__ Demo.rich_deps Demo.base_seed Demo.client (Some 3) None true
         (Demo.start Demo.ledger0))
  = Raise (LowBalanceError "The base account does not have enough XLM to create the channels")
  /\ Account.trace
       (snd (Account.__init__ Demo.rich_deps Demo.base_seed Demo.client (Some 3) None true
               (Demo.start Demo.ledger0)))
     = [CallGetAccountData Demo.base_address; CallGetAccountData Demo.base_address;
        CallGetAccountBalances Demo.base_address].
Proof.
  erewrite (create_channels_low_balance Demo.rich_deps Demo.base_seed Demo.client
              (Demo.status_of Demo.ledger0) 3 (Demo.start Demo.ledger0)).
  - split; reflexivity.
  - now apply demo_answers_from.
  - reflexivity.
  - reflexivity.
  - discriminate.
  - vm_compute. reflexivity.
  - vm_compute. reflexivity.
  - vm_compute. reflexivity.
  - vm_compute. reflexivity.
Defined.

Lemma create_channels_missing_xlm_witness :
  fst (Account.__init__ Demo.deps Demo.base_seed Demo.client_no_xlm (Some 3) None true
         (Demo.start Demo.ledger0))
  = Raise (KeyError "XLM")
  /\ Account.trace
       (snd (Account.__init__ Demo.deps Demo.base_seed Demo.client_no_xlm (Some 3) None true
               (Demo.start Demo.ledger0)))
     = [CallGetAccountData Demo.base_address; CallGetAccountData Demo.base_address;
        CallGetAccountBalances Demo.base_address].
Proof.
  erewrite (create_channels_missing_xlm Demo.deps Demo.base_seed Demo.client_no_xlm
              (Demo.status_of Demo.ledger0) 3 (Demo.start Demo.ledger0)).
  - split; reflexivity.
  - intros a. reflexivity.
  - reflexivity.
  - reflexivity.
  - discriminate.
  - vm_compute. reflexivity.
  - vm_compute. reflexivity.
  - vm_compute. reflexivity.
Defined.

Lemma create_channels_passes_seeds_witness :
  fst (Account.__init__ Demo.deps Demo.base_seed Demo.client (Some 3) None true
         (Demo.start Demo.ledger0))
  = Raise (ValueError "invalid address: SBASE0")
  /\ transactions
       (Account.trace
          (snd (Account.__init__ Demo.deps Demo.base_seed Demo.client (Some 3) None true
                  (Demo.start Demo.ledger0))))
     = [].
Proof.
  erewrite (create_channels_passes_seeds Demo.deps Demo.base_seed Demo.client
              (Demo.status_of Demo.ledger0) 3 (Demo.start Demo.ledger0)
              _ _ _ "SBASE0" ["SBASE1"; "SBASE2"]).
  - split; reflexivity.
  - now apply demo_answers_from.
  - reflexivity.
  - reflexivity.
  - vm_compute. reflexivity.
  - discriminate.
  - vm_compute. reflexivity.
  - vm_compute. reflexivity.
  - vm_compute. reflexivity.
  - vm_compute. reflexivity.
  - reflexivity.
Defined.

Lemma create_channels_submits_each_witness :
  (fst (Account.__init__ Demo.deps Demo.base_seed Demo.client (Some 0) None true
          (Demo.start Demo.ledger0))
   = Ok tt
   /\ transactions
        (Account.trace
           (snd (Account.__init__ Demo.deps Demo.base_seed Demo.client (Some 0) None true
                   (Demo.start Demo.ledger0))))
      = [])
  /\ fst (Account.__init__ Demo.lax_deps Demo.base_seed Demo.client (Some 2) None true
            (Demo.start Demo.ledger0))
     = Ok tt
  /\ transactions
       (Account.trace
          (snd (Account.__init__ Demo.lax_deps Demo.base_seed Demo.client (Some 2) None true
                  (Demo.start Demo.ledger0))))
     = [CallSendTransaction Demo.manager0
          (append_create_account_op "SBASE0" (PyNum.PInt 0)) None;
        CallSendTransaction Demo.manager0
          (append_create_account_op "SBASE1" (PyNum.PInt 0)) None].
Proof.
  split.
  - edestruct (create_channels_submits_each Demo.deps Demo.base_seed Demo.client
                 (Demo.status_of Demo.ledger0) 0 (Demo.start Demo.ledger0))
      as (p1 & l1 & E).
    + now apply demo_answers_from.
    + reflexivity.
    + reflexivity.
    + discriminate.
    + vm_compute. reflexivity.
    + vm_compute. reflexivity.
    + vm_compute. reflexivity.
    + vm_compute. reflexivity.
    + apply demo_creates_or_exists_strict.
    + constructor.
    + rewrite E. split; reflexivity.
  - edestruct (create_channels_submits_each Demo.lax_deps Demo.base_seed Demo.client
                 (Demo.status_of Demo.ledger0) 2 (Demo.start Demo.ledger0))
      as (p1 & l1 & E).
    + now apply demo_answers_from.
    + reflexivity.
    + reflexivity.
    + discriminate.
    + vm_compute. reflexivity.
    + vm_compute. reflexivity.
    + vm_compute. reflexivity.
    + vm_compute. reflexivity.
    + apply demo_creates_or_exists.
    + repeat constructor.
    + rewrite E. split; reflexivity.
Defined.


Lemma explicit_channels_accepted_iff_witness :
  fst (Account.__init__ Demo.deps Demo.base_seed Demo.client None
         (Some [Demo.channel_seed]) false (Demo.start Demo.ledger0))
  = Ok tt
  /\ fst (Account.__init__ Demo.deps Demo.base_seed Demo.client None
            (Some [Demo.channel_seed]) false (Demo.start Demo.ledger1))
     <> Ok tt.
Proof.
  split.
  - apply (proj1 (explicit_channels_accepted_iff Demo.deps Demo.base_seed Demo.client
                    (Demo.status_of Demo.ledger0) [Demo.channel_seed]
                    (Demo.start Demo.ledger0)
                    (demo_answers_from Demo.ledger0 (Demo.start Demo.ledger0) eq_refl))).
    split; [reflexivity|]. split; [reflexivity|].
    constructor; [split; reflexivity | constructor].
  - intros H.
    apply (proj1 (explicit_channels_accepted_iff Demo.deps Demo.base_seed Demo.client
                    (Demo.status_of Demo.ledger1) [Demo.channel_seed]
                    (Demo.start Demo.ledger1)
                    (demo_answers_from Demo.ledger1 (Demo.start Demo.ledger1) eq_refl)))
      in H.
    destruct H as (_ & _ & Hok). inversion Hok as [|? ? [_ Hst] _]. discriminate Hst.
Defined.

Lemma own_seed_as_channel_refused_witness :
  fst (Account.__init__ Demo.deps Demo.base_seed Demo.client None
         (Some [Demo.channel_seed; Demo.base_seed]) false (Demo.start Demo.ledger0))
  <> Ok tt.
Proof.
  apply (own_seed_as_channel_refused Demo.deps Demo.base_seed Demo.client
           (Demo.status_of Demo.ledger0)).
  - now apply demo_answers_from.
  - repeat constructor.
Defined.

Lemma ill_formed_channel_seed_stops_witness :
  fst (Account.__init__ Demo.deps Demo.base_seed Demo.client None
         (Some [Demo.channel_seed; "bad key"; "SOTHER"]) false (Demo.start Demo.ledger0))
  = Raise (ValueError "invalid channel key: bad key")
  /\ Account.trace
       (snd (Account.__init__ Demo.deps Demo.base_seed Demo.client None
               (Some [Demo.channel_seed; "bad key"; "SOTHER"]) false
               (Demo.start Demo.ledger0)))
     = [CallGetAccountData Demo.base_address; CallGetAccountData Demo.channel_address].
Proof.
  change [Demo.channel_seed; "bad key"; "SOTHER"]
    with ([Demo.channel_seed] ++ "bad key" :: ["SOTHER"]).
  rewrite (ill_formed_channel_seed_stops Demo.deps Demo.base_seed Demo.client
             (Demo.status_of Demo.ledger0) [Demo.channel_seed] "bad key" ["SOTHER"]
             false (Demo.start Demo.ledger0)).
  - split; reflexivity.
  - now apply demo_answers_from.
  - reflexivity.
  - reflexivity.
  - constructor; [split; reflexivity | constructor].
  - reflexivity.
Defined.

Lemma nonpositive_channel_count_witness :
  Account.__init__ Demo.deps Demo.base_seed Demo.client (Some (-2)) None false
    (Demo.start Demo.ledger0)
  = (Ok tt,
     constructed Demo.deps Demo.base_seed Demo.client [] Demo.ledger0
       [CallGetAccountData Demo.base_address] (Demo.start Demo.ledger0)).
Proof.
  apply (nonpositive_channel_count Demo.deps Demo.base_seed Demo.client (-2)
           (Demo.start Demo.ledger0) Demo.ledger0).
  - lia.
  - reflexivity.
  - reflexivity.
Defined.

Lemma create_channels_needs_channels_witness :
  fst (Account.__init__ Demo.deps Demo.base_seed Demo.client None None true
         (Demo.start Demo.ledger0))
  = Raise (ValueError "create_channels can only be used with the channels parameter").
Proof.
  rewrite (proj2 (create_channels_needs_channels Demo.deps Demo.base_seed Demo.client
                    None (Demo.start Demo.ledger0)) Demo.ledger0).
  - reflexivity.
  - reflexivity.
  - reflexivity.
  - reflexivity.
Defined.

Lemma next_times_adds_witness :
  Builder.next_times Demo.python 3 Demo.builder0
  = (Ok tt, <["sequence" := Builder.PyStr "44"]> (Builder.clear Demo.builder0))
  /\ Builder.is_numeral 44 "44" = true.
Proof.
  apply (next_times_adds Demo.python 2 Demo.builder0 (Builder.PyStr "41") 41).
  - reflexivity.
  - vm_compute. reflexivity.
  - intros m Hm.
    assert (m = 42 \/ m = 43 \/ m = 44) as [->|[->| ->]] by lia;
      vm_compute; reflexivity.
Defined.

Lemma next_failure_clears_witness :
  snd (Builder.next Demo.python Demo.builder2) = Builder.clear Demo.builder2
  /\ snd (Builder.next Demo.python Demo.builder2) !! "sequence"
     = Some (Builder.PyStr "n/a").
Proof.
  destruct (next_failure_clears Demo.python Demo.builder2
              (ValueError "invalid literal for int() with base 10: n/a")
              (snd (Builder.next Demo.python Demo.builder2)))
    as (Hb & _ & Hs & _).
  - vm_compute. reflexivity.
  - split; [exact Hb | rewrite Hs; reflexivity].
Defined.

Lemma clear_absorbed_witness :
  Builder.clear (snd (Builder.next Demo.python Demo.builder0))
  = snd (Builder.next Demo.python Demo.builder0).
Proof.
  apply (proj2 (proj2 (clear_absorbed Demo.python Demo.builder0))).
  vm_compute. reflexivity.
Defined.

Lemma builder_secret_decides_witness :
  Builder.__init__ Demo.python (Demo.starts_with "S") (Demo.starts_with "G")
    (String.append "G") Demo.base_init Demo.horizon_object "https://live" "https://test"
    (Some "bad secret") (Some "GOOD") Builder.PyNone None None
  = Builder.Fails (Builder.Builtin (ValueError "invalid secret key")).
Proof.
  apply (proj1 (builder_secret_decides Demo.python (Demo.starts_with "S")
                  (Demo.starts_with "G")
                  (String.append "G") Demo.base_init Demo.horizon_object
                  "https://live" "https://test"
                  (Some "bad secret") (Some "GOOD") Builder.PyNone None None)).
  - reflexivity.
  - reflexivity.
Defined.

Lemma builder_network_and_horizon_witness :
  exists b,
    Builder.__init__ Demo.python (Demo.starts_with "S") (Demo.starts_with "G")
      (String.append "G")
      Demo.base_init Demo.horizon_object "https://live" "https://test"
      (Some Demo.base_seed) None Builder.PyNone None (Some "testnet")
    = Builder.Done b
    /\ b !! "network" = Some (Builder.PyStr "TESTNET")
    /\ b !! "horizon" = Some (Demo.horizon_object "https://test")
    /\ b !! "sequence" = Some (Builder.PyInt 1).
Proof.
  destruct (builder_network_and_horizon Demo.python (Demo.starts_with "S")
              (Demo.starts_with "G")
              (String.append "G") Demo.base_init Demo.horizon_object
              "https://live" "https://test"
              (Some Demo.base_seed) None Builder.PyNone None (Some "testnet")
              Demo.base_address
              {[ "address" := Builder.PyStr Demo.base_address;
                 "sequence" := Builder.PyInt 1;
                 "network" := Builder.PyStr "TESTNET";
                 "ops" := Builder.PyList [] ]})
    as (b & E & Hn & _ & _ & _ & Hh & Hk).
  - reflexivity.
  - reflexivity.
  - exists b. split; [exact E|]. split; [exact Hn|]. split.
    + apply Hh; [reflexivity | reflexivity | discriminate].
    + rewrite Hk by discriminate. reflexivity.
Defined.

Lemma sign_overwrites_next_witness :
  Builder.sign Demo.base_sign Demo.account_found None
    (snd (Builder.next Demo.python Demo.builder1))
  = Demo.base_sign None
      (<["sequence" := Builder.PyStr "77"]> (Builder.clear Demo.builder1)).
Proof.
  rewrite (sign_overwrites_next Demo.python Demo.base_sign Demo.account_found
             Demo.builder1
             (Builder.PyStr "41") 41 (Demo.horizon_object "http://localhost:8008")
             (Builder.PyStr Demo.base_address) {[ "sequence" := Builder.PyStr "77" ]} None).
  - vm_compute. reflexivity.
  - reflexivity.
  - reflexivity.
  - reflexivity.
  - reflexivity.
  - reflexivity.
  - reflexivity.
Defined.

Lemma sign_asks_horizon_without_secret_witness :
  Builder.sign Demo.base_sign Demo.account_down None Demo.builder1
  = (Raise (ForeignError "timeout"), Demo.builder1).
Proof.
  apply (proj2 (sign_asks_horizon_without_secret Demo.base_sign Demo.base_sign
                  Demo.account_down Demo.account_found Demo.builder1 None)
           (Demo.horizon_object "http://localhost:8008")
           (Builder.PyStr Demo.base_address)).
  - reflexivity.
  - reflexivity.
  - reflexivity.
  - reflexivity.
Defined.

Lemma sign_without_sequence_blocks_next_witness :
  exists msg,
    Builder.next Demo.python
      (snd (Builder.sign Demo.base_sign Demo.account_bare None Demo.builder1))
    = (Raise (TypeError msg),
       Builder.clear (snd (Builder.sign Demo.base_sign Demo.account_bare None Demo.builder1))).
Proof.
  apply (sign_without_sequence_blocks_next Demo.python Demo.base_sign Demo.account_bare
           Demo.builder1
           (Demo.horizon_object "http://localhost:8008")
           (Builder.PyStr Demo.base_address) ∅ None).
  - apply demo_base_sign_keeps_sequence.
  - reflexivity.
  - reflexivity.
  - reflexivity.
  - reflexivity.
  - reflexivity.
Defined.

Lemma amounts_never_sent_witness :
  Account._send_asset Demo.deps Asset_native Demo.recipient (PyNum.PInt 0) None
    (Demo.ready Demo.ledger0)
  = (Raise (ValueError "amount must be positive"), Demo.ready Demo.ledger0)
  /\ Account._send_asset Demo.deps Asset_native Demo.recipient (PyNum.PFloat S754_nan) None
       (Demo.ready Demo.ledger0)
     = (Raise (ValueError "Number of digits after the decimal point in the amount exceeded the limit(7)."),
        Demo.ready Demo.ledger0).
Proof.
  destruct (amounts_never_sent Demo.deps Asset_native Demo.recipient None
              (Demo.ready Demo.ledger0)) as [Hneg Hnan].
  - reflexivity.
  - split.
    + apply Hneg. left. exists 0. split; [reflexivity | lia].
    + apply Hnan. left. reflexivity.
Defined.

Lemma send_asset_outcome_witness :
  fst (Account._send_asset Demo.deps Asset_native Demo.recipient (PyNum.PInt 10) None
         (Demo.ready Demo.ledger0))
  = Ok "tx0"
  /\ Account.pool
       (snd (Account._send_asset Demo.deps Asset_native Demo.recipient (PyNum.PInt 10) None
               (Demo.ready Demo.ledger0)))
     = 1%nat
  /\ fst (Account._send_asset Demo.deps Asset_native "GNOBODY" (PyNum.PInt 10) None
            (Demo.ready Demo.ledger0))
     = Raise AccountNotFoundError.
Proof.
  destruct (send_asset_outcome Demo.deps Asset_native Demo.recipient (PyNum.PInt 10) None
              (Demo.ready Demo.ledger0) Demo.manager0
              (Ok {[ "hash" := "tx0" ]}) 1%nat Demo.ledger0)
    as (Hp & _ & Hh & _).
  - reflexivity.
  - reflexivity.
  - vm_compute. reflexivity.
  - reflexivity.
  - vm_compute. reflexivity.
  - split; [exact (Hh {[ "hash" := "tx0" ]} "tx0" eq_refl eq_refl)|].
    split; [exact Hp|].
    destruct (send_asset_outcome Demo.deps Asset_native "GNOBODY" (PyNum.PInt 10) None
                (Demo.ready Demo.ledger0) Demo.manager0
                (Raise AccountNotFoundError) 0%nat Demo.ledger0)
      as (_ & _ & _ & _ & He).
    + reflexivity.
    + reflexivity.
    + vm_compute. reflexivity.
    + reflexivity.
    + vm_compute. reflexivity.
    + exact (He AccountNotFoundError eq_refl).
Defined.

Lemma xlm_and_kin_assets_witness :
  Account.trace
    (snd (Account.send_xlm Demo.deps Demo.recipient (PyNum.PInt 10) None
            (Demo.ready Demo.ledger0)))
  = [CallSendTransaction Demo.manager0
       (append_payment_op Demo.recipient (PyNum.PInt 10) "XLM" None) None]
  /\ Account.trace
       (snd (Account.send_kin Demo.deps Demo.recipient (PyNum.PInt 10) None
               (Demo.ready Demo.ledger0)))
     = [CallSendTransaction Demo.manager0
          (append_payment_op Demo.recipient (PyNum.PInt 10) "KIN" (Some "GISSUER")) None].
Proof.
  destruct (xlm_and_kin_assets Demo.deps Demo.recipient (PyNum.PInt 10) None
              (Demo.ready Demo.ledger0) Demo.manager0) as (Hx & Hk & _).
  - reflexivity.
  - reflexivity.
  - vm_compute. reflexivity.
  - reflexivity.
  - split; [exact Hx | exact (Hk Demo.client eq_refl)].
Defined.

Lemma construction_result_witness :
  hz_pool_size
    <$> Account.horizon
          (Account.self
             (snd (Account.__init__ Demo.deps Demo.base_seed Demo.client (Some 3) None false
                     (Demo.start Demo.ledger0))))
  = Some 5%nat.
Proof.
  destruct (construction_result Demo.deps Demo.base_seed Demo.client (Some 3) None false
              (Demo.start Demo.ledger0)
              (snd (Account.__init__ Demo.deps Demo.base_seed Demo.client (Some 3) None false
                      (Demo.start Demo.ledger0))))
    as (_ & Hpool & _).
  - vm_compute. reflexivity.
  - rewrite Hpool. reflexivity.
Defined.

Lemma constructed_account_methods_witness :
  Account.get_public_address
    (snd (Account.__init__ Demo.deps Demo.base_seed Demo.client None None false
            (Demo.start Demo.ledger0)))
  = (Ok Demo.base_address,
     snd (Account.__init__ Demo.deps Demo.base_seed Demo.client None None false
            (Demo.start Demo.ledger0))).
Proof.
  apply (constructed_account_methods Demo.deps Demo.base_seed Demo.client None None false
           (Demo.start Demo.ledger0)
           (snd (Account.__init__ Demo.deps Demo.base_seed Demo.client None None false
                   (Demo.start Demo.ledger0)))
           Demo.recipient (PyNum.PInt 10) None).
  vm_compute. reflexivity.
Defined.

Lemma whole_amounts_are_sent_witness :
  Account.too_precise (PyNum.PInt 900719925) = Ok false
  /\ Account.too_precise (PyNum.PFloat (PyNum.round_Z 900719925)) = Ok false
  /\ Account.trace
       (snd (Account._send_asset Demo.deps Asset_native Demo.recipient
               (PyNum.PInt 900719925) None (Demo.ready Demo.ledger0)))
     = [CallSendTransaction Demo.manager0
          (append_payment_op Demo.recipient (PyNum.PInt 900719925) "XLM" None) None].
Proof.
  apply (whole_amounts_are_sent Demo.deps Asset_native Demo.recipient 900719925 None
           (Demo.ready Demo.ledger0) Demo.manager0).
  - lia.
  - reflexivity.
  - reflexivity.
Defined.
